(** * redtales-engine: the comment pipeline and the story composer

    A shallow embedding of [backend/reddit_scraper.py],
    [backend/prompt_builder.py], [backend/ai_client.py] and
    [backend/story_generator.py], with the properties of the
    specification stated and proved (or refuted) over it.

    Conventions of the embedding:
    - a Python [str] is a list of characters ([list ascii]); a character is
      a code point below 256, and [is_space] is [str.isspace] on that range;
    - a Python [int] is a [Z]; a [len] is a [nat];
    - an [Optional] value is an [option];
    - a call that may raise returns a [result]; code that also talks to
      the generation provider or the logger runs in the monad [M], whose
      state is the [World]. *)

From Stdlib Require Import String Ascii List ZArith Lia Bool Arith.
From Stdlib Require Import Sorting.Sorted Sorting.Permutation DecimalString.
Import ListNotations.

Set Implicit Arguments.

(** ** Python strings *)

Module PyStr.

Definition str := list ascii.

(** A literal. *)
Definition py (s : string) : str := list_ascii_of_string s.

Definition nl : ascii := "010"%char.
Definition dquote : ascii := "034"%char.

(** [str.isspace] for one character (code points 9-13, 28-32, 133, 160). *)
Definition is_space (c : ascii) : bool :=
  let n := nat_of_ascii c in
  ((9 <=? n) && (n <=? 13)) || ((28 <=? n) && (n <=? 32))
  || (n =? 133) || (n =? 160).

Fixpoint str_eqb (a b : str) : bool :=
  match a, b with
  | [], [] => true
  | x :: a', y :: b' => Ascii.eqb x y && str_eqb a' b'
  | _, _ => false
  end.

(** [s.startswith(p)] *)
Fixpoint starts_with (p s : str) : bool :=
  match p, s with
  | [], _ => true
  | _ :: _, [] => false
  | a :: p', b :: s' => Ascii.eqb a b && starts_with p' s'
  end.

(** [s.endswith(p)] *)
Definition ends_with (p s : str) : bool := starts_with (rev p) (rev s).

(** [sub in s] *)
Fixpoint contains (sub s : str) : bool :=
  starts_with sub s ||
  match s with
  | [] => false
  | _ :: s' => contains sub s'
  end.

(** [s.lstrip()], [s.rstrip()], [s.strip()] *)
Fixpoint lstrip (s : str) : str :=
  match s with
  | [] => []
  | c :: s' => if is_space c then lstrip s' else s
  end.

Definition rstrip (s : str) : str := rev (lstrip (rev s)).

Definition strip (s : str) : str := rstrip (lstrip s).

(** [s.split(sep)] for a non-empty separator: the pieces between the
    non-overlapping occurrences of [sep], found from the left.  [skip]
    counts the characters of a matched separator still to be passed. *)
Fixpoint split_from (sep : str) (skip : nat) (s : str) : list str :=
  match s with
  | [] => [[]]
  | c :: s' =>
      match skip with
      | S k => split_from sep k s'
      | O =>
          if starts_with sep s
          then [] :: split_from sep (length sep - 1) s'
          else match split_from sep 0 s' with
               | [] => [[c]]
               | piece :: pieces => (c :: piece) :: pieces
               end
      end
  end.

Definition split (sep s : str) : list str := split_from sep 0 s.

(** [sep.join(l)] *)
Fixpoint join (sep : str) (l : list str) : str :=
  match l with
  | [] => []
  | x :: rest =>
      match rest with
      | [] => x
      | _ :: _ => x ++ sep ++ join sep rest
      end
  end.

(** [s[:n]] for [n >= 0] is [firstn n s]; [s[:-1]] is [removelast s]. *)

(** [len(s.split())]: the number of maximal runs of non-space characters. *)
Fixpoint count_words (in_word : bool) (s : str) : nat :=
  match s with
  | [] => 0
  | c :: s' =>
      if is_space c then count_words false s'
      else if in_word then count_words true s'
      else S (count_words true s')
  end.

(** [str(i)] for an integer. *)
Definition str_of_Z (z : Z) : str := py (NilZero.string_of_int (Z.to_int z)).
Definition str_of_nat (n : nat) : str := py (NilZero.string_of_uint (Nat.to_uint n)).

End PyStr.

Import PyStr.

(** ** Comment cleaning ([RedditScraper._clean_comment_body]) *)

Definition EDIT_UPPER : str := py "EDIT:".
Definition EDIT_MIXED : str := py "Edit:".
Definition ELLIPSIS : str := py "...".

Definition nonempty (s : str) : bool :=
  match s with [] => false | _ :: _ => true end.

(** The lines kept by
    ["\n".join(line.strip() for line in cleaned.split("\n") if line.strip())]. *)
Definition kept_lines (s : str) : list str :=
  map strip (filter (fun line => nonempty (strip line)) (split [nl] s)).

Definition _clean_comment_body (body : str) : str :=
  let cleaned := strip body in
  let cleaned :=
    if contains EDIT_UPPER cleaned || contains EDIT_MIXED cleaned
    then strip (hd [] (split EDIT_MIXED (hd [] (split EDIT_UPPER cleaned))))
    else cleaned in
  let cleaned := join [nl] (kept_lines cleaned) in
  if 1000 <? length cleaned
  then firstn 1000 cleaned ++ ELLIPSIS
  else cleaned.


(** ** Exceptions, the world and the monad *)

(** A raised Python exception: its class name and its message. *)
Inductive exn : Type :=
| PyException (cls msg : string).

Inductive result (A : Type) : Type :=
| Ok (a : A)
| Raise (e : exn).

Arguments Ok {A} a.
Arguments Raise {A} e.

Inductive ProviderKind : Type := OpenAI | Anthropic | Bedrock.

(** What a provider sends to its remote endpoint.  Sampling parameters
    are in tenths (0.8 is 8). *)
Record Request : Type := {
  req_provider : ProviderKind;
  req_model : str;
  req_envelope : option str;
  req_messages : list (str * str);
  req_max_tokens : Z;
  req_temperature : option Z;
  req_top_p : option Z
}.

Inductive LogLevel : Type := DEBUG | INFO | WARNING | ERROR.

Inductive LogArg : Type :=
| AStr (s : str)
| AInt (z : Z)
| ALen (n : nat)
| AExn (e : exn).

(** A log record: level, format string, interpolated values. *)
Record LogRecord : Type := {
  log_level : LogLevel;
  log_format : string;
  log_args : list LogArg
}.

(** The outside of the program: the requests sent to the generation
    provider so far, what the remote endpoint answers to the n-th request
    (its first content text, or the error the SDK raises), and the records
    handed to the logger. *)
Record World : Type := {
  calls : list Request;
  responses : nat -> result str;
  logged : list LogRecord
}.

Definition M (A : Type) : Type := World -> result A * World.

Definition ret {A} (a : A) : M A := fun w => (Ok a, w).

Definition raise {A} (e : exn) : M A := fun w => (Raise e, w).

Definition bind {A B} (c : M A) (k : A -> M B) : M B :=
  fun w =>
    match c w with
    | (Ok a, w') => k a w'
    | (Raise e, w') => (Raise e, w')
    end.

(** [try: body except Exception as e: handler] *)
Definition try_except {A} (body : M A) (handler : exn -> M A) : M A :=
  fun w =>
    match body w with
    | (Ok a, w') => (Ok a, w')
    | (Raise e, w') => handler e w'
    end.

Definition lift {A} (r : result A) : M A := fun w => (r, w).

Declare Scope py_scope.
Delimit Scope py_scope with py.
Notation "x <- c ;; k" := (bind c (fun x => k))
  (at level 61, c at next level, right associativity) : py_scope.
Notation "c ;; k" := (bind c (fun _ => k))
  (at level 61, right associativity) : py_scope.
Local Open Scope py_scope.

Definition log (lvl : LogLevel) (fmt : string) (args : list LogArg) : M unit :=
  fun w =>
    (Ok tt,
     {| calls := calls w;
        responses := responses w;
        logged := logged w ++ [{| log_level := lvl; log_format := fmt; log_args := args |}] |}).

(** One round trip to the remote endpoint of a provider. *)
Definition remote_call (req : Request) : M str :=
  fun w =>
    (responses w (length (calls w)),
     {| calls := calls w ++ [req];
        responses := responses w;
        logged := logged w |}).

(** [for x in l: ...] collecting one value per iteration. *)
Fixpoint for_each {A B} (l : list A) (body : A -> M B) : M (list B) :=
  match l with
  | [] => ret []
  | x :: l' =>
      y <- body x ;;
      ys <- for_each l' body ;;
      ret (y :: ys)
  end.

(** ** Configuration ([backend/config.py], the fields the pipeline reads) *)

Record Config : Type := {
  ai_provider : str;
  default_comment_limit : Z;
  min_comment_score : Z;
  story_min_words : Z;
  story_max_words : Z
}.

Definition default_config : Config := {|
  ai_provider := py "openai";
  default_comment_limit := 5;
  min_comment_score := 10;
  story_min_words := 300;
  story_max_words := 500
|}.

(** ** Content source ([backend/reddit_scraper.py]) *)

Definition BOT_ACCOUNTS : list str :=
  [ py "AutoModerator"; py "RemindMeBot"; py "WikiTextBot";
    py "TotesMessenger"; py "GoodBot_BadBot"; py "B0tRank";
    py "RepostSleuthBot" ].

Record RedditPost : Type := {
  post_id : str;
  post_title : str;
  post_author : str;
  post_score : Z;
  post_created_utc : Z;
  post_subreddit : str;
  post_url : str;
  num_comments : Z
}.

Record RedditComment : Type := {
  comment_id : str;
  body : str;
  author : str;
  score : Z;
  created_utc : Z;
  is_top_level : bool
}.

(** What the Reddit client hands out: a submission and a comment of the
    comment forest, with the attributes the scraper reads.  A deleted
    author is [None]; so is a missing body. *)
Record Submission : Type := {
  sub_id : str;
  sub_title : str;
  sub_author : option str;
  sub_selftext : str;
  sub_score : Z;
  sub_created_utc : Z;
  sub_url : str;
  sub_num_comments : Z
}.

Record Comment : Type := {
  c_id : str;
  c_body : option str;
  c_author : option str;
  c_score : Z;
  c_created_utc : Z;
  c_parent_id : str
}.

(** The Reddit client: each listing either yields its items or raises. *)
Record Reddit : Type := {
  front_hot : Z -> result (list Submission);
  subreddit_top : str -> str -> Z -> result (list Submission);
  submission_comments : str -> result (list Comment)
}.

(** The value of a function whose every path is a [return True], a
    [return False] or the end of the body. *)
Inductive PyValue : Type :=
| PyTrue
| PyFalse
| PyNone.

Definition is_bool (v : PyValue) : bool :=
  match v with PyNone => false | _ => true end.

(** [l[:limit]] *)
Definition slice_to {A} (limit : Z) (l : list A) : list A :=
  if (0 <=? limit)%Z
  then firstn (Z.to_nat limit) l
  else firstn (length l - Z.to_nat (- limit)) l.

(** [l.sort(key=key, reverse=True)]: a stable sort by descending key.
    An element goes in front of the first later element whose key is not
    greater than its own. *)
Fixpoint insert_desc {A} (key : A -> Z) (x : A) (l : list A) : list A :=
  match l with
  | [] => [x]
  | y :: l' => if (key x <? key y)%Z then y :: insert_desc key x l' else x :: l
  end.

Definition sort_desc {A} (key : A -> Z) (l : list A) : list A :=
  fold_right (insert_desc key) [] l.

Section Scraper.

Variable config : Config.
Variable reddit : Reddit.

Definition test_connection : M PyValue :=
  try_except
    (listing <- lift (front_hot reddit 1) ;;
     match listing with
     | submission :: _ =>
         log INFO "Successfully connected to Reddit API. Test post: {}..."
             [AStr (firstn 50 (sub_title submission))] ;;
         ret PyTrue
     | [] => ret PyNone
     end)
    (fun e =>
       log ERROR "Failed to connect to Reddit API: {}" [AExn e] ;;
       ret PyFalse).

Definition kept_submission (submission : Submission) : bool :=
  match sub_author submission with
  | None => false
  | Some _ => negb (str_eqb (sub_selftext submission) (py "[removed]"))
  end.

Definition make_post (subreddit_name : str) (submission : Submission) : RedditPost :=
  {| post_id := sub_id submission;
     post_title := sub_title submission;
     post_author :=
       match sub_author submission with
       | Some a => a
       | None => py "[deleted]"
       end;
     post_score := sub_score submission;
     post_created_utc := sub_created_utc submission;
     post_subreddit := subreddit_name;
     post_url := sub_url submission;
     num_comments := sub_num_comments submission |}.

Definition get_top_posts (subreddit_name : str) (limit : Z) (time_filter : str)
  : M (list RedditPost) :=
  try_except
    (listing <- lift (subreddit_top reddit subreddit_name time_filter limit) ;;
     posts <- for_each (filter kept_submission listing) (fun submission =>
       let post := make_post subreddit_name submission in
       log DEBUG "Fetched post: {}... (score: {})"
           [AStr (firstn 50 (post_title post)); AInt (post_score post)] ;;
       ret post) ;;
     log INFO "Fetched {} posts from r/{}" [ALen (length posts); AStr subreddit_name] ;;
     ret posts)
    (fun e =>
       log ERROR "Error fetching posts from r/{}: {}" [AStr subreddit_name; AExn e] ;;
       raise e).

Definition _is_valid_comment (comment : Comment) : bool :=
  match c_author comment with
  | None => false
  | Some author_name =>
      match c_body comment with
      | None => false
      | Some text =>
          if str_eqb text (py "[removed]") || str_eqb text (py "[deleted]") then false
          else if existsb (str_eqb author_name) BOT_ACCOUNTS then false
          else if (c_score comment <? min_comment_score config)%Z then false
          else if length (strip text) <? 20 then false
          else true
      end
  end.

(** The [RedditComment(...)] built from a comment of the forest;
    [comment.body] and [comment.author] are read as strings. *)
Definition make_comment (comment : Comment) : result RedditComment :=
  match c_body comment with
  | None => Raise (PyException "AttributeError" "'NoneType' object has no attribute 'strip'")
  | Some text =>
      Ok {| comment_id := c_id comment;
            body := _clean_comment_body text;
            author :=
              match c_author comment with
              | Some a => a
              | None => py "None"
              end;
            score := c_score comment;
            created_utc := c_created_utc comment;
            is_top_level := starts_with (py "t3_") (c_parent_id comment) |}
  end.

Definition get_top_comments (post : str) (limit : Z) : M (list RedditComment) :=
  try_except
    (forest <- lift (submission_comments reddit post) ;;
     let valid_comments := filter _is_valid_comment forest in
     let valid_comments := sort_desc c_score valid_comments in
     comments <- for_each (slice_to limit valid_comments) (fun comment =>
       reddit_comment <- lift (make_comment comment) ;;
       log DEBUG "Fetched comment by {} (score: {})"
           [AStr (author reddit_comment); AInt (score reddit_comment)] ;;
       ret reddit_comment) ;;
     log INFO "Fetched {} valid comments from post {}"
         [ALen (length comments); AStr post] ;;
     ret comments)
    (fun e =>
       log ERROR "Error fetching comments from post {}: {}" [AStr post; AExn e] ;;
       raise e).

End Scraper.

(** ** Prompt assembler ([backend/prompt_builder.py]) *)

Record StyleInfo : Type := {
  description : str;
  prompt_addon : str
}.

(** The [STORY_STYLES] dict, in its source order. *)
Definition STORY_STYLES : list (str * StyleInfo) :=
  [ (py "engaging",
     {| description := py "A balanced, engaging narrative";
        prompt_addon := py "Write in an engaging, accessible style that draws the reader in." |});
    (py "comedy",
     {| description := py "Humorous and light-hearted";
        prompt_addon := py "Write with humor and wit, finding the funny side of the situation." |});
    (py "drama",
     {| description := py "Emotional and character-driven";
        prompt_addon := py "Create a dramatic narrative focusing on emotions and character development." |});
    (py "documentary",
     {| description := py "Factual and journalistic";
        prompt_addon := py "Present the story in a documentary style, as if narrating real events." |});
    (py "wholesome",
     {| description := py "Uplifting and positive";
        prompt_addon := py "Focus on the heartwarming and positive aspects, creating an uplifting narrative." |});
    (py "thriller",
     {| description := py "Suspenseful and tense";
        prompt_addon := py "Build suspense and tension throughout the narrative." |}) ].

(** [d.get(k)] on a dict kept as an association list. *)
Fixpoint dict_get {V} (d : list (str * V)) (k : str) : option V :=
  match d with
  | [] => None
  | (k', v) :: d' => if str_eqb k k' then Some v else dict_get d' k
  end.

(** [k in d] *)
Definition dict_mem {V} (d : list (str * V)) (k : str) : bool :=
  match dict_get d k with Some _ => true | None => false end.

(** [d[k]] *)
Definition dict_item {V} (d : list (str * V)) (k : str) : result V :=
  match dict_get d k with
  | Some v => Ok v
  | None => Raise (PyException "KeyError" "style")
  end.

Record PostData : Type := {
  pd_title : str;
  pd_subreddit : str;
  pd_score : Z;
  pd_num_comments : Z;
  pd_comment_count : nat
}.

Record StoryPrompt : Type := {
  system_message : str;
  user_prompt : str;
  post_data : PostData;
  prompt_style : str;
  prompt_word_count : Z * Z
}.

(** [value or default] for an optional integer: [None] and [0] are falsy. *)
Definition or_default (value : option Z) (default : Z) : Z :=
  match value with
  | None => default
  | Some v => if (v =? 0)%Z then default else v
  end.

Definition _build_system_message (style : str) : result str :=
  match dict_item STORY_STYLES style with
  | Raise e => Raise e
  | Ok info =>
      Ok (py "You are a creative storyteller who transforms Reddit posts and comments "
          ++ py "into engaging narrative stories. You excel at weaving multiple perspectives "
          ++ py "into cohesive tales while maintaining the essence of the original content. "
          ++ prompt_addon info)
  end.

(** The numbered comment entries of the user prompt, numbered from [i]. *)
Fixpoint comment_entries (i : nat) (comments : list RedditComment) : str :=
  match comments with
  | [] => []
  | comment :: rest =>
      let comment_text := body comment in
      let comment_text :=
        if 500 <? length comment_text
        then firstn 500 comment_text ++ py "..."
        else comment_text in
      ([nl] ++ str_of_nat i ++ py ". " ++ comment_text ++ [nl])
      ++ comment_entries (S i) rest
  end.

Definition _build_user_prompt (post : RedditPost) (comments : list RedditComment)
    (style : str) (min_words max_words : Z) : result str :=
  let prompt :=
    py "Transform this Reddit post and its top comments into a " ++ style ++ py " story."
    ++ [nl; nl]
    ++ py "**Reddit Post from r/" ++ post_subreddit post ++ py ":**" ++ [nl]
    ++ [dquote] ++ post_title post ++ [dquote] ++ [nl; nl]
    ++ py "**Top Comments from the community:**" ++ [nl] in
  let prompt := prompt ++ comment_entries 1 comments in
  match dict_item STORY_STYLES style with
  | Raise e => Raise e
  | Ok info =>
      Ok (prompt
          ++ [nl; nl]
          ++ py "**Instructions:**" ++ [nl]
          ++ py "- Create a cohesive narrative that naturally incorporates perspectives from all comments" ++ [nl]
          ++ py "- The story should flow smoothly, not just list the comments" ++ [nl]
          ++ py "- Maintain the spirit and tone of the original content" ++ [nl]
          ++ py "- Write in third person unless first person serves the narrative better" ++ [nl]
          ++ py "- Length: " ++ str_of_Z min_words ++ py "-" ++ str_of_Z max_words ++ py " words" ++ [nl]
          ++ py "- Style: " ++ description info ++ [nl; nl]
          ++ py "Begin the story:")
  end.

Section Assembler.

Variable config : Config.

Definition build_story_prompt (post : RedditPost) (comments : list RedditComment)
    (style : str) (min_words max_words : option Z) : M StoryPrompt :=
  let min_words := or_default min_words (story_min_words config) in
  let max_words := or_default max_words (story_max_words config) in
  style <- (if negb (dict_mem STORY_STYLES style)
            then log WARNING "Unknown style '{}', defaulting to 'engaging'" [AStr style] ;;
                 ret (py "engaging")
            else ret style) ;;
  system_message <- lift (_build_system_message style) ;;
  user_prompt <- lift (_build_user_prompt post comments style min_words max_words) ;;
  let post_data :=
    {| pd_title := post_title post;
       pd_subreddit := post_subreddit post;
       pd_score := post_score post;
       pd_num_comments := num_comments post;
       pd_comment_count := length comments |} in
  ret {| system_message := system_message;
         user_prompt := user_prompt;
         post_data := post_data;
         prompt_style := style;
         prompt_word_count := (min_words, max_words) |}.

End Assembler.

Definition estimate_prompt_tokens (prompt : StoryPrompt) : M nat :=
  let total_chars := length (system_message prompt) + length (user_prompt prompt) in
  let estimated_tokens := total_chars / 4 in
  log DEBUG "Estimated prompt tokens: {}" [ALen estimated_tokens] ;;
  ret estimated_tokens.

(** ** Generation providers ([backend/ai_client.py]) *)

Definition OPENAI_SYSTEM : str :=
  py "You are a creative storyteller who writes engaging narratives.".

(** The request each provider's [generate_completion] builds. *)
Definition provider_request (p : ProviderKind) (prompt : str) (max_tokens : Z) : Request :=
  match p with
  | OpenAI =>
      {| req_provider := OpenAI;
         req_model := py "gpt-4-turbo-preview";
         req_envelope := None;
         req_messages := [(py "system", OPENAI_SYSTEM); (py "user", prompt)];
         req_max_tokens := max_tokens;
         req_temperature := Some 8%Z;
         req_top_p := Some 9%Z |}
  | Anthropic =>
      {| req_provider := Anthropic;
         req_model := py "claude-3-opus-20240229";
         req_envelope := None;
         req_messages := [(py "user", prompt)];
         req_max_tokens := max_tokens;
         req_temperature := Some 8%Z;
         req_top_p := None |}
  | Bedrock =>
      {| req_provider := Bedrock;
         req_model := py "anthropic.claude-3-sonnet-20240229-v1:0";
         req_envelope := Some (py "bedrock-2023-05-31");
         req_messages := [(py "user", prompt)];
         req_max_tokens := max_tokens;
         req_temperature := Some 8%Z;
         req_top_p := Some 9%Z |}
  end.

Definition provider_error_format (p : ProviderKind) : string :=
  match p with
  | OpenAI => "OpenAI API error: {}"
  | Anthropic => "Anthropic API error: {}"
  | Bedrock => "Bedrock API error: {}"
  end.

Definition generate_completion (p : ProviderKind) (prompt : str) (max_tokens : Z) : M str :=
  try_except
    (text <- remote_call (provider_request p prompt max_tokens) ;;
     ret (strip text))
    (fun e =>
       log ERROR (provider_error_format p) [AExn e] ;;
       raise e).

Record AIClient : Type := {
  provider_name : str;
  provider : ProviderKind
}.

Definition generate_story (client : AIClient) (prompt : str) (max_tokens : Z) : M str :=
  log INFO "Generating story with {} provider" [AStr (provider_name client)] ;;
  generate_completion (provider client) prompt max_tokens.

(** [hasattr(provider, 'client') and hasattr(provider.client, 'chat')]:
    every provider object has a [client]; of the three SDK clients only
    the OpenAI one has a [chat] attribute. *)
Definition has_chat_client (p : ProviderKind) : bool :=
  match p with
  | OpenAI => true
  | Anthropic | Bedrock => false
  end.

(** ** Story composer ([backend/story_generator.py]) *)

Record CommentPreview : Type := {
  cp_id : str;
  cp_author : str;
  cp_score : Z;
  cp_preview : str
}.

(** The [source_post] dict of a story. *)
Record SourcePost : Type := {
  sp_id : str;
  sp_title : str;
  sp_author : str;
  sp_score : Z;
  sp_subreddit : str;
  sp_url : str;
  sp_num_comments : Z
}.

(** A generated story.  The fields read off the wall clock ([id], which
    ends in a timestamp, [generation_time] and [created_at]) are not part
    of the embedding. *)
Record GeneratedStory : Type := {
  title : str;
  content : str;
  style : str;
  word_count : nat;
  source_post : SourcePost;
  source_comments : list CommentPreview;
  story_ai_provider : str
}.

Definition style_prefix : list (str * str) :=
  [ (py "comedy", py "The Hilarious Tale of");
    (py "drama", py "The Dramatic Story of");
    (py "documentary", py "The True Account of");
    (py "wholesome", py "The Heartwarming Story of");
    (py "thriller", py "The Suspenseful Tale of");
    (py "engaging", py "The Story of") ].

Definition _generate_story_title (post_title style : str) : str :=
  let prefix :=
    match dict_get style_prefix style with
    | Some p => p
    | None => py "The Story of"
    end in
  if ends_with (py "?") post_title
  then
    let title_base := removelast post_title in
    prefix ++ py " " ++ title_base
  else prefix ++ py ": " ++ post_title.

Definition snapshot_post (post : RedditPost) : SourcePost :=
  {| sp_id := post_id post;
     sp_title := post_title post;
     sp_author := post_author post;
     sp_score := post_score post;
     sp_subreddit := post_subreddit post;
     sp_url := post_url post;
     sp_num_comments := num_comments post |}.

Definition comment_preview (comment : RedditComment) : CommentPreview :=
  {| cp_id := comment_id comment;
     cp_author := author comment;
     cp_score := score comment;
     cp_preview :=
       if 100 <? length (body comment)
       then firstn 100 (body comment) ++ py "..."
       else body comment |}.

Section Composer.

Variable config : Config.
Variable reddit : Reddit.
Variable ai_client : AIClient.

Definition generate_from_post (post : RedditPost) (comments : list RedditComment)
    (style : str) (min_words max_words : option Z) : M GeneratedStory :=
  log INFO "Generating {} story from post: {}..."
      [AStr style; AStr (firstn 50 (post_title post))] ;;
  prompt <- build_story_prompt config post comments style min_words max_words ;;
  story_content <-
    try_except
      (if has_chat_client (provider ai_client)
       then generate_story ai_client (user_prompt prompt) 1500
       else
         let full_prompt := system_message prompt ++ [nl; nl] ++ user_prompt prompt in
         generate_story ai_client full_prompt 1500)
      (fun e =>
         log ERROR "Story generation failed: {}" [AExn e] ;;
         raise e) ;;
  let word_count := count_words false story_content in
  let story :=
    {| title := _generate_story_title (post_title post) style;
       content := story_content;
       style := style;
       word_count := word_count;
       source_post := snapshot_post post;
       source_comments := map comment_preview comments;
       story_ai_provider := provider_name ai_client |} in
  log INFO "Story generated successfully: {} words in {}s" [ALen word_count] ;;
  ret story.

(** One iteration of the loop of [generate_from_subreddit]: the story to
    append, or [None] on a [continue]. *)
Definition process_post (style : str) (i : nat) (total : nat) (post : RedditPost)
  : M (option GeneratedStory) :=
  log INFO "Processing post {}/{}: {}..."
      [ALen i; ALen total; AStr (firstn 50 (post_title post))] ;;
  try_except
    (if (num_comments post <? 5)%Z
     then
       log WARNING "Skipping post with only {} comments" [AInt (num_comments post)] ;;
       ret None
     else
       comments <- get_top_comments config reddit (post_id post)
                                    (default_comment_limit config) ;;
       if length comments <? 3
       then
         log WARNING "Skipping post with only {} valid comments" [ALen (length comments)] ;;
         ret None
       else
         story <- generate_from_post post comments style None None ;;
         ret (Some story))
    (fun e =>
       log ERROR "Failed to generate story for post {}: {}" [AStr (post_id post); AExn e] ;;
       ret None).

Fixpoint process_posts (style : str) (i total : nat) (posts : list RedditPost)
    (stories : list GeneratedStory) : M (list GeneratedStory) :=
  match posts with
  | [] => ret stories
  | post :: rest =>
      outcome <- process_post style i total post ;;
      process_posts style (S i) total rest
        (match outcome with
         | Some story => stories ++ [story]
         | None => stories
         end)
  end.

Definition generate_from_subreddit (subreddit : str) (post_limit : Z)
    (time_filter style : str) : M (list GeneratedStory) :=
  log INFO "Generating stories from r/{} (top {} from {})"
      [AStr subreddit; AInt post_limit; AStr time_filter] ;;
  posts <- get_top_posts reddit subreddit post_limit time_filter ;;
  stories <- process_posts style 1 (length posts) posts [] ;;
  log INFO "Generated {} stories from r/{}" [ALen (length stories); AStr subreddit] ;;
  ret stories.

End Composer.

(** ** The rest of the prompt assembler ([backend/prompt_builder.py]) *)

(** The numbered lines of [build_simple_prompt], numbered from [i]. *)
Fixpoint simple_entries (i : nat) (comment_texts : list str) : str :=
  match comment_texts with
  | [] => []
  | comment :: rest =>
      (str_of_nat i ++ py ". " ++ comment ++ [nl]) ++ simple_entries (S i) rest
  end.

Definition build_simple_prompt (post_title : str) (comment_texts : list str) : str :=
  let prompt :=
    py "Create a story based on this Reddit post: '" ++ post_title ++ py "'" ++ [nl; nl] in
  let prompt := prompt ++ py "Using these comments as inspiration:" ++ [nl] in
  let prompt := prompt ++ simple_entries 1 comment_texts in
  prompt ++ [nl] ++ py "Write a creative story that weaves these elements together.".

(** [{style: info["description"] for style, info in self.styles.items()}] *)
Definition get_available_styles : list (str * str) :=
  map (fun item => (fst item, description (snd item))) STORY_STYLES.

(** ** Credentials and provider selection ([backend/config.py]) *)

(** The credential fields of the configuration. *)
Record Credentials : Type := {
  reddit_client_id : str;
  reddit_client_secret : str;
  reddit_user_agent : str;
  openai_api_key : option str;
  anthropic_api_key : option str;
  aws_profile : option str
}.

(** The truth value of an optional string: [None] and [""] are falsy. *)
Definition truthy (v : option str) : bool :=
  match v with
  | Some (_ :: _) => true
  | _ => false
  end.

(** The process environment: [os.getenv(name)]. *)
Definition Env : Type := str -> option str.

(** [os.getenv(name, default)] *)
Definition getenv_default (env : Env) (name : string) (default : str) : str :=
  match env (py name) with
  | Some v => v
  | None => default
  end.

(** [Config.from_env], its choice of the provider and its credential
    fields.  The numeric fields, read with [int], are not part of the
    embedding. *)
Definition from_env_ai_provider (env : Env) : str :=
  let chosen := py "openai" in
  if truthy (env (py "ANTHROPIC_API_KEY")) then py "anthropic"
  else if match env (py "AWS_PROFILE") with
          | Some v => str_eqb v (py "personal")
          | None => false
          end
       then py "bedrock"
  else if truthy (env (py "OPENAI_API_KEY")) then py "openai"
  else chosen.

Definition from_env_credentials (env : Env) : Credentials :=
  {| reddit_client_id := getenv_default env "REDDIT_CLIENT_ID" [];
     reddit_client_secret := getenv_default env "REDDIT_CLIENT_SECRET" [];
     reddit_user_agent := getenv_default env "REDDIT_USER_AGENT" (py "RedditCommentStories/1.0");
     openai_api_key := env (py "OPENAI_API_KEY");
     anthropic_api_key := env (py "ANTHROPIC_API_KEY");
     aws_profile := env (py "AWS_PROFILE") |}.

(** The [errors] list of [Config.validate], and its result.  The lines it
    prints are the elements of the list. *)
Definition validation_errors (config : Config) (credentials : Credentials) : list string :=
  (if nonempty (reddit_client_id credentials) then []
   else ["REDDIT_CLIENT_ID is required"%string])
  ++ (if nonempty (reddit_client_secret credentials) then []
      else ["REDDIT_CLIENT_SECRET is required"%string])
  ++ (if str_eqb (ai_provider config) (py "openai")
         && negb (truthy (openai_api_key credentials))
      then ["OPENAI_API_KEY is required for OpenAI provider"%string]
      else if str_eqb (ai_provider config) (py "anthropic")
              && negb (truthy (anthropic_api_key credentials))
      then ["ANTHROPIC_API_KEY is required for Anthropic provider"%string]
      else if str_eqb (ai_provider config) (py "bedrock")
              && negb (truthy (aws_profile credentials))
      then ["AWS_PROFILE is required for Bedrock provider"%string]
      else []).

Definition validate (config : Config) (credentials : Credentials) : bool :=
  match validation_errors config credentials with
  | [] => true
  | _ :: _ => false
  end.

(** ** Construction and probes of the providers ([backend/ai_client.py]) *)

(** What the process finds when it sets a provider up: whether each SDK
    package can be imported, whether the AWS session and the runtime client
    can be made, and what listing the foundation models gives (the
    [modelId] of each summary, [None] for a summary without one). *)
Record Runtime : Type := {
  openai_importable : bool;
  anthropic_importable : bool;
  aws_session : result unit;
  bedrock_runtime_client : result unit;
  bedrock_catalog : result (list (option str))
}.

(** [s.lower()], on code points below 256. *)
Definition lower_char (c : ascii) : ascii :=
  let n := nat_of_ascii c in
  if ((65 <=? n) && (n <=? 90))
     || ((192 <=? n) && (n <=? 222) && negb (n =? 215))
  then ascii_of_nat (n + 32)
  else c.

Definition lower (s : str) : str := map lower_char s.

Definition OpenAIProvider_init (runtime : Runtime) : M ProviderKind :=
  if openai_importable runtime
  then
    log INFO "OpenAI client initialized with model: {}" [AStr (py "gpt-4-turbo-preview")] ;;
    ret OpenAI
  else raise (PyException "ImportError" "OpenAI package not installed. Run: pip install openai").

Definition AnthropicProvider_init (runtime : Runtime) : M ProviderKind :=
  if anthropic_importable runtime
  then
    log INFO "Anthropic client initialized with model: {}" [AStr (py "claude-3-opus-20240229")] ;;
    ret Anthropic
  else raise (PyException "ImportError" "Anthropic package not installed. Run: pip install anthropic").

Definition BedrockProvider_init (runtime : Runtime) : M ProviderKind :=
  try_except
    (lift (bedrock_runtime_client runtime) ;;
     log INFO "Bedrock client initialized with model: {}"
         [AStr (py "anthropic.claude-3-sonnet-20240229-v1:0")] ;;
     ret Bedrock)
    (fun e =>
       log ERROR "Failed to initialize Bedrock client: {}" [AExn e] ;;
       raise e).

Definition _initialize_provider (credentials : Credentials) (runtime : Runtime)
    (name : str) : M ProviderKind :=
  if str_eqb name (py "openai") then
    if negb (truthy (openai_api_key credentials))
    then raise (PyException "ValueError" "OpenAI API key not found in environment")
    else OpenAIProvider_init runtime
  else if str_eqb name (py "anthropic") then
    if negb (truthy (anthropic_api_key credentials))
    then raise (PyException "ValueError" "Anthropic API key not found in environment")
    else AnthropicProvider_init runtime
  else if str_eqb name (py "bedrock") then
    if negb (truthy (aws_profile credentials))
    then raise (PyException "ValueError" "AWS profile not configured")
    else
      lift (aws_session runtime) ;;
      BedrockProvider_init runtime
  else
    raise (PyException "ValueError"
             (String.append "Unknown AI provider: " (string_of_list_ascii name))).

(** [AIClient(provider)] *)
Definition AIClient_init (config : Config) (credentials : Credentials)
    (runtime : Runtime) (requested : option str) : M AIClient :=
  let name :=
    match requested with
    | Some (c :: rest) => c :: rest
    | _ => ai_provider config
    end in
  kind <- _initialize_provider credentials runtime name ;;
  ret {| provider_name := name; provider := kind |}.

(** The request of the probe of a chat or single-message provider. *)
Definition probe_request (p : ProviderKind) : Request :=
  {| req_provider := p;
     req_model :=
       match p with
       | OpenAI => py "gpt-4-turbo-preview"
       | Anthropic => py "claude-3-opus-20240229"
       | Bedrock => py "anthropic.claude-3-sonnet-20240229-v1:0"
       end;
     req_envelope := None;
     req_messages := [(py "user", py "Hello")];
     req_max_tokens := 10;
     req_temperature := None;
     req_top_p := None |}.

(** [provider.test_connection()] for each provider. *)
Definition provider_test_connection (runtime : Runtime) (p : ProviderKind) : M bool :=
  match p with
  | OpenAI =>
      try_except
        (remote_call (probe_request OpenAI) ;;
         log INFO "OpenAI API connection successful" [] ;;
         ret true)
        (fun e =>
           log ERROR "OpenAI API connection failed: {}" [AExn e] ;;
           ret false)
  | Anthropic =>
      try_except
        (remote_call (probe_request Anthropic) ;;
         log INFO "Anthropic API connection successful" [] ;;
         ret true)
        (fun e =>
           log ERROR "Anthropic API connection failed: {}" [AExn e] ;;
           ret false)
  | Bedrock =>
      try_except
        (summaries <- lift (bedrock_catalog runtime) ;;
         let claude_available :=
           existsb (fun model =>
                      contains (py "claude")
                               (lower (match model with Some id => id | None => [] end)))
                   summaries in
         if claude_available
         then
           log INFO "Bedrock API connection successful - Claude models available" [] ;;
           ret true
         else
           log WARNING "Bedrock API connected but Claude models not found" [] ;;
           ret false)
        (fun e =>
           log ERROR "Bedrock API connection failed: {}" [AExn e] ;;
           ret false)
  end.

(** [AIClient.test_connection] *)
Definition AIClient_test_connection (runtime : Runtime) (client : AIClient) : M bool :=
  provider_test_connection runtime (provider client).

(** ** Saving stories and the commands ([backend/story_generator.py],
    [backend/cli.py]) *)

(** The file system as the commands use it: writing one rendering of a
    story to a path, and what [save_story] does to a directory (make it,
    write both renderings), giving the two paths.  Each either succeeds or
    raises.  What is printed to the standard output is not part of the
    embedding, and the log formats of the commands are given without
    their pictographs and line breaks. *)
Record Storage : Type := {
  write_markdown : str -> GeneratedStory -> result unit;
  write_json : str -> GeneratedStory -> result unit;
  write_story_files : GeneratedStory -> str -> result (str * str)
}.

Record GenerateArgs : Type := {
  gen_subreddit : str;
  gen_style : str;
  gen_time : str;
  gen_posts : Z;
  gen_output : option str
}.

Record BatchArgs : Type := {
  batch_subreddit : str;
  batch_posts : Z;
  batch_style : str;
  batch_time : str;
  batch_output_dir : option str
}.

Section Commands.

Variable config : Config.
Variable credentials : Credentials.
Variable runtime : Runtime.
Variable reddit : Reddit.
Variable storage : Storage.

(** [RedditScraper()] *)
Definition RedditScraper_init : M unit :=
  log INFO "Reddit client initialized with user agent: {}"
      [AStr (reddit_user_agent credentials)].

(** [StoryGenerator(ai_client)] *)
Definition StoryGenerator_init (ai_client : option AIClient) : M AIClient :=
  RedditScraper_init ;;
  match ai_client with
  | Some client => ret client
  | None => AIClient_init config credentials runtime None
  end.

Definition save_story (story : GeneratedStory) (output_dir : str) : M (str * str) :=
  paths <- lift (write_story_files storage story output_dir) ;;
  log INFO "Story saved: {}" [AStr (fst paths)] ;;
  ret paths.

(** The part of [cmd_generate] that saves the story. *)
Definition store_output (args : GenerateArgs) (story : GeneratedStory) : M unit :=
  match gen_output args with
  | Some (c :: rest) =>
      let output := c :: rest in
      if ends_with (py ".md") output then lift (write_markdown storage output story)
      else if ends_with (py ".json") output then lift (write_json storage output story)
      else
        paths <- save_story story output ;;
        log INFO "Story saved to: {} {}" [AStr (fst paths); AStr (snd paths)]
  | _ =>
      paths <- save_story story (py "output/stories") ;;
      log INFO "Story saved to: {} {}" [AStr (fst paths); AStr (snd paths)]
  end.

(** The loop of [cmd_generate] over the posts from the [i]-th on; its value
    is [story_generated]. *)
Fixpoint try_posts (args : GenerateArgs) (ai_client : AIClient) (total i : nat)
    (posts : list RedditPost) : M bool :=
  match posts with
  | [] => ret false
  | post :: rest =>
      log INFO "Trying post {}/{}: {}..."
          [ALen (i + 1); ALen total; AStr (firstn 60 (post_title post))] ;;
      if (num_comments post <? 5)%Z
      then
        log WARNING "Skipping (only {} comments)" [AInt (num_comments post)] ;;
        try_posts args ai_client total (S i) rest
      else
        comments <- get_top_comments config reddit (post_id post) 5 ;;
        if length comments <? 3
        then
          log WARNING "Skipping (only {} valid comments)" [ALen (length comments)] ;;
          try_posts args ai_client total (S i) rest
        else
          log INFO "Generating {} story..." [AStr (gen_style args)] ;;
          generated <-
            try_except
              (story <- generate_from_post config ai_client post comments
                                           (gen_style args) None None ;;
               store_output args story ;;
               ret true)
              (fun e =>
                 log ERROR "Generation failed: {}" [AExn e] ;;
                 ret false) ;;
          if generated then ret true else try_posts args ai_client total (S i) rest
  end.

Definition cmd_generate (args : GenerateArgs) : M Z :=
  log INFO "Generating story from r/{}" [AStr (gen_subreddit args)] ;;
  RedditScraper_init ;;
  ai_client <- StoryGenerator_init None ;;
  log INFO "Fetching top posts from the last {}..." [AStr (gen_time args)] ;;
  posts <- get_top_posts reddit (gen_subreddit args) (gen_posts args) (gen_time args) ;;
  match posts with
  | [] =>
      log ERROR "No posts found!" [] ;;
      ret 1%Z
  | _ :: _ =>
      story_generated <- try_posts args ai_client (length posts) 0 posts ;;
      if negb story_generated
      then
        log ERROR "Failed to generate any stories from the available posts" [] ;;
        ret 1%Z
      else ret 0%Z
  end.

Definition cmd_batch (args : BatchArgs) : M Z :=
  log INFO "Batch generation from r/{}" [AStr (batch_subreddit args)] ;;
  log INFO "Processing {} posts with {} style"
      [AInt (batch_posts args); AStr (batch_style args)] ;;
  ai_client <- StoryGenerator_init None ;;
  stories <- generate_from_subreddit config reddit ai_client (batch_subreddit args)
                                     (batch_posts args) (batch_time args)
                                     (batch_style args) ;;
  match stories with
  | [] =>
      log ERROR "No stories generated!" [] ;;
      ret 1%Z
  | _ :: _ =>
      let output_dir :=
        match batch_output_dir args with
        | Some (c :: rest) => c :: rest
        | _ => py "output/stories"
        end in
      log INFO "Saving {} stories to {}" [ALen (length stories); AStr output_dir] ;;
      for_each stories (fun story => save_story story output_dir) ;;
      ret 0%Z
  end.

(** [cmd_test], with the value of its [--dry-run] flag. *)
Definition cmd_test (dry_run : bool) : M Z :=
  RedditScraper_init ;;
  reachable <- test_connection reddit ;;
  match reachable with
  | PyTrue =>
      get_top_posts reddit (py "AskReddit") 1 (py "day") ;;
      ai_client <- AIClient_init config credentials runtime None ;;
      connected <- AIClient_test_connection runtime ai_client ;;
      if connected
      then
        (if negb dry_run
         then
           generate_story ai_client (py "Write a one-sentence story about a robot.") 50 ;;
           ret tt
         else ret tt) ;;
        ret 0%Z
      else ret 1%Z
  | PyFalse | PyNone => ret 1%Z
  end.

End Commands.

(** ** Vocabulary of the statements *)

(** [sub] occurs in [s]. *)
Definition infix (sub s : str) : Prop := exists a b, s = a ++ sub ++ b.

(** No white space at the left end, at the right end. *)
Definition no_lead (s : str) : Prop := lstrip s = s.
Definition no_trail (s : str) : Prop := lstrip (rev s) = rev s.

(** A line as the cleaning step leaves it: not empty, no white space at
    either end, no line break inside. *)
Definition clean_line (l : str) : Prop :=
  l <> [] /\ no_lead l /\ no_trail l /\ ~ In nl l.

(** A text made of such lines, one line break between two of them. *)
Definition normal (s : str) : Prop :=
  exists ls, Forall clean_line ls /\ s = join [nl] ls.

(** The steps of [_clean_comment_body] after the first [strip]: the cut at
    an edit marker, and the cut at [n] characters. *)
Definition edit_cut (cleaned : str) : str :=
  if contains EDIT_UPPER cleaned || contains EDIT_MIXED cleaned
  then strip (hd [] (split EDIT_MIXED (hd [] (split EDIT_UPPER cleaned))))
  else cleaned.

Definition truncate_at (n : nat) (s : str) : str :=
  if n <? length s then firstn n s ++ ELLIPSIS else s.

(** Neither edit marker occurs. *)
Definition marker_free (s : str) : Prop :=
  contains EDIT_UPPER s = false /\ contains EDIT_MIXED s = false.

(** The fixed style vocabulary. *)
Definition STYLE_VOCABULARY : list str :=
  [ py "engaging"; py "comedy"; py "drama"; py "documentary";
    py "wholesome"; py "thriller" ].

Definition in_vocabulary (s : str) : bool := existsb (str_eqb s) STYLE_VOCABULARY.

(** The style a prompt is built for. *)
Definition effective_style (requested : str) : str :=
  if dict_mem STORY_STYLES requested then requested else py "engaging".

(** The prefix [_generate_story_title] looks up for a style. *)
Definition title_prefix (requested : str) : str :=
  match dict_get style_prefix requested with
  | Some p => p
  | None => py "The Story of"
  end.

(** The [RedditComment] of a comment of the forest that has a body. *)
Definition to_reddit_comment (comment : Comment) : RedditComment :=
  {| comment_id := c_id comment;
     body := _clean_comment_body (match c_body comment with Some t => t | None => [] end);
     author := match c_author comment with Some a => a | None => py "None" end;
     score := c_score comment;
     created_utc := c_created_utc comment;
     is_top_level := starts_with (py "t3_") (c_parent_id comment) |}.

(** What [get_top_comments] returns for a comment forest. *)
Definition top_comments (config : Config) (forest : list Comment) (limit : Z)
  : list RedditComment :=
  map to_reddit_comment
      (slice_to limit (sort_desc c_score (filter (_is_valid_comment config) forest))).

(** Scores from the first to the last never increase. *)
Definition descending {A} (key : A -> Z) (l : list A) : Prop :=
  StronglySorted (fun a b => (key b <= key a)%Z) l.

(** The elements of a given key, in their order in the list. *)
Definition with_key {A} (key : A -> Z) (k : Z) (l : list A) : list A :=
  filter (fun x => (key x =? k)%Z) l.

(** A computation that reaches the outside only through the logger: it
    sends nothing to the generation provider. *)
Definition quiet {A} (c : M A) : Prop :=
  forall w, calls (snd (c w)) = calls w /\ responses (snd (c w)) = responses w.

(** A computation that never raises. *)
Definition total {A} (c : M A) : Prop :=
  forall w, exists a w', c w = (Ok a, w').

(** The last record handed to the logger. *)
Definition last_logged (w : World) : option LogRecord :=
  match rev (logged w) with
  | [] => None
  | r :: _ => Some r
  end.

(** ** Sample data *)

(** A world in which nothing was sent or logged yet and the remote
    endpoint gives the same answer to every request. *)
Definition fresh_world (answer : result str) : World :=
  {| calls := []; responses := fun _ => answer; logged := [] |}.

Definition sample_answer : result str :=
  Ok (py "  Once upon a time, at a company far away, three colleagues met.  ").

(** A world whose endpoint refuses the first request and answers the
    later ones. *)
Definition flaky_world : World :=
  {| calls := [];
     responses := fun n =>
       if n =? 0 then Raise (PyException "RateLimitError" "quota exceeded")
       else sample_answer;
     logged := [] |}.

Definition sample_comment (id who text : string) (points : Z) : Comment :=
  {| c_id := py id;
     c_body := Some (py text);
     c_author := Some (py who);
     c_score := points;
     c_created_utc := 0;
     c_parent_id := py "t3_test123" |}.

(** Three valid comments, fetched with scores 500, 275, 350. *)
Definition sample_forest : list Comment :=
  [ sample_comment "c1" "embarrassed_employee"
      "I once accidentally sent a love letter meant for my wife to the entire company email list." 500;
    sample_comment "c3" "sleepy_worker"
      "I fell asleep during a meeting and woke up to everyone staring at me." 275;
    sample_comment "c2" "caught_redhanded"
      "During a video call, I forgot I was screen sharing and started browsing job listings." 350 ].

(** A forest of which only two comments are valid. *)
Definition thin_forest : list Comment :=
  [ sample_comment "d1" "AutoModerator"
      "Please remember to follow the rules of this community when commenting." 900;
    sample_comment "d2" "early_bird"
      "I showed up a full day early for my own interview and they hired me anyway." 120;
    sample_comment "d3" "shorty" "lol same" 300;
    sample_comment "d4" "unpopular"
      "This one is long enough to count but nobody liked it at all." 3;
    {| c_id := py "d5"; c_body := Some (py "[removed]"); c_author := Some (py "ghost");
       c_score := 80; c_created_utc := 0; c_parent_id := py "t1_d2" |};
    {| c_id := py "d6";
       c_body := Some (py "A deleted account wrote this fairly long comment some time ago.");
       c_author := None; c_score := 70; c_created_utc := 0; c_parent_id := py "t3_p3" |};
    sample_comment "d7" "night_owl"
      "My manager once thanked me in a meeting for work that a colleague did." 45 ].

Definition sample_submission (id text : string) (count : Z) : Submission :=
  {| sub_id := py id;
     sub_title := py text;
     sub_author := Some (py "test_user");
     sub_selftext := [];
     sub_score := 1500;
     sub_created_utc := 0;
     sub_url := py "https://reddit.com/r/AskReddit/comments/" ++ py id;
     sub_num_comments := count |}.

(** Five posts: two with fewer than five comments, one whose forest is
    [thin_forest], two whose forest is [sample_forest]. *)
Definition sample_listing : list Submission :=
  [ sample_submission "p1" "What is your favourite colour?" 3;
    sample_submission "p2" "Does anyone still read this?" 4;
    sample_submission "p3" "What happened at your interview?" 50;
    sample_submission "p4" "What's the most embarrassing thing that happened to you at work?" 250;
    sample_submission "p5" "Tell me about your day" 75 ].

Definition sample_reddit : Reddit :=
  {| front_hot := fun _ => Ok (firstn 1 sample_listing);
     subreddit_top := fun _ _ _ => Ok sample_listing;
     submission_comments := fun post =>
       if str_eqb post (py "p3") then Ok thin_forest else Ok sample_forest |}.

(** A Reddit whose front page lists nothing. *)
Definition empty_front_reddit : Reddit :=
  {| front_hot := fun _ => Ok [];
     subreddit_top := fun _ _ _ => Ok [];
     submission_comments := fun _ => Ok [] |}.

Definition sample_post : RedditPost :=
  {| post_id := py "p4";
     post_title := py "What's the most embarrassing thing that happened to you at work?";
     post_author := py "test_user";
     post_score := 1500;
     post_created_utc := 0;
     post_subreddit := py "AskReddit";
     post_url := py "https://reddit.com/r/AskReddit/comments/p4";
     num_comments := 250 |}.

Definition sample_comments : list RedditComment :=
  top_comments default_config sample_forest 5.

Definition openai_client : AIClient :=
  {| provider_name := py "openai"; provider := OpenAI |}.

Definition anthropic_client : AIClient :=
  {| provider_name := py "anthropic"; provider := Anthropic |}.

(** The text [generate_from_post] hands to [generate_story]. *)
Definition prompt_text (client : AIClient) (prompt : StoryPrompt) : str :=
  if has_chat_client (provider client)
  then user_prompt prompt
  else system_message prompt ++ [nl; nl] ++ user_prompt prompt.

(** The story [generate_from_post] builds around a generated text. *)
Definition story_of (client : AIClient) (post : RedditPost)
    (comments : list RedditComment) (requested text : str) : GeneratedStory :=
  {| title := _generate_story_title (post_title post) requested;
     content := text;
     style := requested;
     word_count := count_words false text;
     source_post := snapshot_post post;
     source_comments := map comment_preview comments;
     story_ai_provider := provider_name client |}.

(** What [get_top_posts] returns for a listing. *)
Definition ranked_posts (reddit : Reddit) (name : str) (limit : Z) (time_filter : str)
  : result (list RedditPost) :=
  match subreddit_top reddit name time_filter limit with
  | Ok listing => Ok (map (make_post name) (filter kept_submission listing))
  | Raise e => Raise e
  end.

(** What the loop of [generate_from_subreddit] fetches for a post. *)
Definition fetched (config : Config) (reddit : Reddit) (post : RedditPost)
  : result (list RedditComment) :=
  match submission_comments reddit (post_id post) with
  | Ok forest => Ok (top_comments config forest (default_comment_limit config))
  | Raise e => Raise e
  end.

(** The three kinds of post the loop tells apart before composing. *)
Definition few_comments (post : RedditPost) : bool := (num_comments post <? 5)%Z.

Definition two_valid (config : Config) (reddit : Reddit) (post : RedditPost) : bool :=
  negb (few_comments post) &&
  match fetched config reddit post with
  | Ok comments => length comments =? 2
  | Raise _ => false
  end.

Definition reaches_composer (config : Config) (reddit : Reddit) (post : RedditPost) : bool :=
  negb (few_comments post) &&
  match fetched config reddit post with
  | Ok comments => negb (length comments <? 3)
  | Raise _ => false
  end.

(** The records the loop logs when it skips a post. *)
Definition skipped_few_comments (post : RedditPost) : LogRecord :=
  {| log_level := WARNING;
     log_format := "Skipping post with only {} comments";
     log_args := [AInt (num_comments post)] |}.

Definition skipped_few_valid (n : nat) : LogRecord :=
  {| log_level := WARNING;
     log_format := "Skipping post with only {} valid comments";
     log_args := [ALen n] |}.

Definition skipped_failure (post : RedditPost) (e : exn) : LogRecord :=
  {| log_level := ERROR;
     log_format := "Failed to generate story for post {}: {}";
     log_args := [AStr (post_id post); AExn e] |}.

(** Every request gets an answer that is not an error. *)
Definition always_answers (w : World) : Prop :=
  forall n, exists t, responses w n = Ok t.

(** The characters of some lines, one more per line for its line break. *)
Definition weight (ls : list str) : nat :=
  list_sum (map (fun l => S (length l)) ls).

(** The entry of the user prompt for the comment numbered [i]. *)
Definition prompt_entry (i : nat) (comment : RedditComment) : str :=
  [nl] ++ str_of_nat i ++ py ". "
  ++ (if 500 <? length (body comment)
      then firstn 500 (body comment) ++ py "..."
      else body comment)
  ++ [nl].

(** The warning [build_story_prompt] logs for a style it does not know. *)
Definition unknown_style_warning (requested : str) : LogRecord :=
  {| log_level := WARNING;
     log_format := "Unknown style '{}', defaulting to 'engaging'";
     log_args := [AStr requested] |}.

(** The three provider names, and the provider each names. *)
Definition provider_of_name (name : str) : option ProviderKind :=
  if str_eqb name (py "openai") then Some OpenAI
  else if str_eqb name (py "anthropic") then Some Anthropic
  else if str_eqb name (py "bedrock") then Some Bedrock
  else None.

(** The credential a provider needs. *)
Definition credential_of (credentials : Credentials) (p : ProviderKind) : option str :=
  match p with
  | OpenAI => openai_api_key credentials
  | Anthropic => anthropic_api_key credentials
  | Bedrock => aws_profile credentials
  end.

(** A runtime in which every SDK is installed and AWS answers. *)
Definition healthy (runtime : Runtime) : Prop :=
  openai_importable runtime = true
  /\ anthropic_importable runtime = true
  /\ aws_session runtime = Ok tt
  /\ bedrock_runtime_client runtime = Ok tt.

Definition sample_runtime : Runtime :=
  {| openai_importable := true;
     anthropic_importable := true;
     aws_session := Ok tt;
     bedrock_runtime_client := Ok tt;
     bedrock_catalog :=
       Ok [Some (py "amazon.titan-text-express-v1");
           None;
           Some (py "anthropic.Claude-3-sonnet-20240229-v1:0")] |}.

Definition sample_env : Env :=
  fun name =>
    if str_eqb name (py "REDDIT_CLIENT_ID") then Some (py "abc123")
    else if str_eqb name (py "REDDIT_CLIENT_SECRET") then Some (py "s3cret")
    else if str_eqb name (py "ANTHROPIC_API_KEY") then Some (py "sk-ant-test")
    else if str_eqb name (py "OPENAI_API_KEY") then Some (py "sk-test")
    else None.

Definition sample_env_config : Config :=
  {| ai_provider := from_env_ai_provider sample_env;
     default_comment_limit := 5;
     min_comment_score := 10;
     story_min_words := 300;
     story_max_words := 500 |}.

(** A post [cmd_generate] composes a story from: at least five comments,
    and at least three ranked valid comments among the five it asks for. *)
Definition candidate (config : Config) (reddit : Reddit) (post : RedditPost) : bool :=
  negb (few_comments post) &&
  match submission_comments reddit (post_id post) with
  | Ok forest => negb (length (top_comments config forest 5) <? 3)
  | Raise _ => false
  end.

(** The comments of every post with at least five comments can be fetched. *)
Definition fetchable (reddit : Reddit) (posts : list RedditPost) : Prop :=
  forall post, In post posts -> few_comments post = false ->
    exists forest, submission_comments reddit (post_id post) = Ok forest.

(** Every write succeeds. *)
Definition reliable (storage : Storage) : Prop :=
  (forall path story, write_markdown storage path story = Ok tt)
  /\ (forall path story, write_json storage path story = Ok tt)
  /\ (forall story dir, exists paths, write_story_files storage story dir = Ok paths).

(** Every request is answered by an error. *)
Definition never_answers (w : World) : Prop :=
  forall n, exists e, responses w n = Raise e.

(** The client can be constructed: the configured name is the one of
    [kind], its credential is present, the runtime is healthy. *)
Definition constructible (config : Config) (credentials : Credentials)
    (runtime : Runtime) (kind : ProviderKind) : Prop :=
  provider_of_name (ai_provider config) = Some kind
  /\ truthy (credential_of credentials kind) = true
  /\ healthy runtime.

Definition sample_storage : Storage :=
  {| write_markdown := fun _ _ => Ok tt;
     write_json := fun _ _ => Ok tt;
     write_story_files := fun _ dir =>
       Ok (dir ++ py "/story.md", dir ++ py "/story.json") |}.

Definition sample_credentials : Credentials :=
  {| reddit_client_id := py "abc123";
     reddit_client_secret := py "s3cret";
     reddit_user_agent := py "RedditCommentStories/1.0";
     openai_api_key := Some (py "sk-test");
     anthropic_api_key := None;
     aws_profile := None |}.

Definition sample_generate_args : GenerateArgs :=
  {| gen_subreddit := py "AskReddit";
     gen_style := py "comedy";
     gen_time := py "day";
     gen_posts := 10;
     gen_output := None |}.

Definition sample_batch_args : BatchArgs :=
  {| batch_subreddit := py "AskReddit";
     batch_posts := 5;
     batch_style := py "drama";
     batch_time := py "week";
     batch_output_dir := Some (py "out") |}.

(** A computation that only adds records to the log. *)
Definition appends {A} (c : M A) : Prop :=
  forall w, exists records, logged (snd (c w)) = logged w ++ records.

(** The answers to the [count] requests sent from the world [w] on. *)
Definition answers (w : World) (count : nat) : list (result str) :=
  map (responses w) (seq (length (calls w)) count).

(** The story composed for a post whose request got the given answer:
    none when the answer is an error. *)
Definition story_for (config : Config) (reddit : Reddit) (client : AIClient)
    (requested : str) (post_answer : RedditPost * result str) : list GeneratedStory :=
  match fetched config reddit (fst post_answer), snd post_answer with
  | Ok comments, Ok text =>
      [story_of client (fst post_answer) comments requested (strip text)]
  | _, _ => []
  end.

(** The stories of a run over [posts] from the world [w]: the posts that
    reach the composer take the answers in turn, and each one that is
    answered gives its story. *)
Definition composed_stories (config : Config) (reddit : Reddit) (client : AIClient)
    (requested : str) (posts : list RedditPost) (w : World) : list GeneratedStory :=
  let reaching := filter (reaches_composer config reddit) posts in
  flat_map (story_for config reddit client requested)
           (combine reaching (answers w (length reaching))).

(** The record of its skip is among [records], for a post the loop does
    not compose a story for when its request, if it sends one, gets
    [answer]. *)
Definition skip_logged (config : Config) (reddit : Reddit) (post : RedditPost)
    (answer : result str) (records : list LogRecord) : Prop :=
  (few_comments post = true -> In (skipped_few_comments post) records)
  /\ (forall comments,
        few_comments post = false ->
        fetched config reddit post = Ok comments -> length comments < 3 ->
        In (skipped_few_valid (length comments)) records)
  /\ (forall e,
        few_comments post = false ->
        fetched config reddit post = Raise e ->
        In (skipped_failure post e) records)
  /\ (forall e,
        reaches_composer config reddit post = true ->
        answer = Raise e ->
        In (skipped_failure post e) records).

Unset Implicit Arguments.

(** * Facts about strings *)

Module PyStrFacts.

Lemma ascii_eqb_true a b : Ascii.eqb a b = true <-> a = b.
Proof. apply Ascii.eqb_eq. Qed.

Lemma str_eqb_eq a : forall b, str_eqb a b = true <-> a = b.
Proof.
  induction a as [|x a IH]; intros [|y b]; simpl; split; intros H;
    try reflexivity; try discriminate.
  - apply andb_true_iff in H. destruct H as [H1 H2].
    apply ascii_eqb_true in H1. apply IH in H2. now subst.
  - injection H as -> ->. apply andb_true_iff. split.
    + now apply ascii_eqb_true.
    + now apply IH.
Qed.

Lemma str_eqb_refl a : str_eqb a a = true.
Proof. now apply str_eqb_eq. Qed.

Lemma str_eqb_neq a b : str_eqb a b = false <-> a <> b.
Proof.
  split; intros H.
  - intros E. apply str_eqb_eq in E. congruence.
  - destruct (str_eqb a b) eqn:E; [|reflexivity].
    apply str_eqb_eq in E. contradiction.
Qed.

Lemma starts_with_prefix p : forall s,
  starts_with p s = true <-> exists b, s = p ++ b.
Proof.
  induction p as [|a p IH]; intros s; simpl.
  - split; [intros _; now exists s | reflexivity].
  - destruct s as [|c s].
    + split; [discriminate | intros [b Hb]; discriminate].
    + rewrite andb_true_iff, ascii_eqb_true, IH. split.
      * intros [-> [b ->]]. now exists b.
      * intros [b Hb]. injection Hb as -> ->. split; [reflexivity | now exists b].
Qed.

Lemma contains_infix sub : forall s, contains sub s = true <-> infix sub s.
Proof.
  induction s as [|c s IH].
  - simpl. rewrite orb_false_r, starts_with_prefix. split.
    + intros [b Hb]. exists [], b. exact Hb.
    + intros [a [b Hb]]. destruct a; [now exists b | discriminate].
  - cbn [contains]. rewrite orb_true_iff, starts_with_prefix, IH. split.
    + intros [[b Hb] | [a [b Hb]]].
      * exists [], b. exact Hb.
      * exists (c :: a), b. simpl. now rewrite Hb.
    + intros [[|x a] [b Hb]].
      * left. now exists b.
      * right. injection Hb as -> ->. now exists a, b.
Qed.

Lemma not_contains_infix sub s : contains sub s = false <-> ~ infix sub s.
Proof.
  rewrite <- contains_infix. destruct (contains sub s); split; intros H;
    congruence || (exfalso; now apply H).
Qed.

Lemma infix_refl s : infix s s.
Proof. exists [], []. now rewrite app_nil_r. Qed.

Lemma infix_trans a b c : infix a b -> infix b c -> infix a c.
Proof.
  intros [p [q ->]] [p' [q' ->]]. exists (p' ++ p), (q ++ q').
  now rewrite <- !app_assoc.
Qed.

Lemma infix_prefix p rest : infix p (p ++ rest).
Proof. now exists [], rest. Qed.

Lemma infix_firstn n s : infix (firstn n s) s.
Proof. rewrite <- (firstn_skipn n s) at 2. apply infix_prefix. Qed.

Lemma infix_nil_inv m : infix m [] -> m = [].
Proof.
  intros [a [b H]]. symmetry in H. apply app_eq_nil in H. destruct H as [_ H].
  now apply app_eq_nil in H.
Qed.

Lemma infix_In m s c : infix m s -> In c m -> In c s.
Proof. intros [a [b ->]] H. rewrite !in_app_iff. tauto. Qed.

Lemma prefix_before_sep (c : ascii) m b y : ~ In c m -> forall x,
  m ++ b = x ++ c :: y -> exists q, x = m ++ q.
Proof.
  induction m as [|m0 m IH]; intros Hc x H.
  - now exists x.
  - destruct x as [|x0 x]; simpl in H.
    + injection H as <- _. exfalso. apply Hc. now left.
    + injection H as <- H.
      destruct (IH (fun K => Hc (or_intror K)) x H) as [q ->].
      now exists q.
Qed.

(** An occurrence of [m] in [x ++ c :: y], when [c] is not a character of
    [m], lies in [x] or in [y]. *)
Lemma infix_app_sep m c : ~ In c m -> forall x y,
  infix m (x ++ c :: y) -> infix m x \/ infix m y.
Proof.
  intros Hc x y [a [b H]]. revert x H.
  induction a as [|a0 a IH]; intros x H.
  - left. simpl in H. symmetry in H.
    destruct (prefix_before_sep c m b y Hc x H) as [q ->].
    apply infix_prefix.
  - destruct x as [|x0 x]; simpl in H.
    + injection H as _ H. right. now exists a, b.
    + injection H as _ H. destruct (IH x H) as [[p [q Hq]] | R].
      * left. exists (x0 :: p), q. simpl. now rewrite Hq.
      * now right.
Qed.

(** *** Stripping *)

Lemma lstrip_suffix s : exists w, s = w ++ lstrip s.
Proof.
  induction s as [|c s [w IH]]; simpl.
  - now exists [].
  - destruct (is_space c).
    + exists (c :: w). simpl. now f_equal.
    + now exists [].
Qed.

Lemma lstrip_length s : length (lstrip s) <= length s.
Proof.
  destruct (lstrip_suffix s) as [w E]. rewrite E at 2.
  rewrite length_app. lia.
Qed.

Lemma lstrip_idem s : lstrip (lstrip s) = lstrip s.
Proof.
  induction s as [|c s IH]; simpl; [reflexivity|].
  destruct (is_space c) eqn:E; [exact IH|]. simpl. now rewrite E.
Qed.

Lemma no_lead_nil : no_lead [].
Proof. reflexivity. Qed.

Lemma no_lead_cons c s : is_space c = false -> no_lead (c :: s).
Proof. intros E. unfold no_lead. simpl. now rewrite E. Qed.

Lemma no_lead_inv s :
  no_lead s -> s = [] \/ exists c s', s = c :: s' /\ is_space c = false.
Proof.
  destruct s as [|c s]; intros H; [now left | right].
  exists c, s. split; [reflexivity|].
  destruct (is_space c) eqn:E; [|reflexivity].
  unfold no_lead in H. simpl in H. rewrite E in H.
  pose proof (lstrip_length s) as L. rewrite H in L. simpl in L. lia.
Qed.

Lemma no_lead_app a b : no_lead a -> a <> [] -> no_lead (a ++ b).
Proof.
  intros H Hne. destruct (no_lead_inv a H) as [-> | [c [a' [-> E]]]].
  - contradiction.
  - simpl. now apply no_lead_cons.
Qed.

Lemma no_trail_app a b : no_trail b -> b <> [] -> no_trail (a ++ b).
Proof.
  unfold no_trail. intros H Hne. rewrite rev_app_distr.
  apply no_lead_app; [exact H|].
  intros E. apply Hne. apply (f_equal (@rev ascii)) in E.
  now rewrite rev_involutive in E.
Qed.

Lemma no_lead_firstn n s : no_lead s -> no_lead (firstn n s).
Proof.
  intros H. destruct (no_lead_inv s H) as [-> | [c [s' [-> E]]]].
  - rewrite firstn_nil. apply no_lead_nil.
  - destruct n; simpl; [apply no_lead_nil | now apply no_lead_cons].
Qed.

Lemma strip_fixed s : no_lead s -> no_trail s -> strip s = s.
Proof.
  unfold no_lead, no_trail, strip, rstrip. intros -> ->.
  apply rev_involutive.
Qed.

Lemma rstrip_prefix s : exists w, s = rstrip s ++ w.
Proof.
  unfold rstrip. destruct (lstrip_suffix (rev s)) as [w E].
  exists (rev w). rewrite <- rev_app_distr, <- E. now rewrite rev_involutive.
Qed.

Lemma strip_no_lead s : no_lead (strip s).
Proof.
  unfold strip.
  destruct (rstrip_prefix (lstrip s)) as [w E].
  destruct (rstrip (lstrip s)) as [|c r] eqn:R; [apply no_lead_nil|].
  apply no_lead_cons.
  destruct (no_lead_inv (lstrip s) (lstrip_idem s)) as [Z | [c' [s' [E' Hc]]]].
  - rewrite Z in E. discriminate.
  - rewrite E' in E. simpl in E. now injection E as -> _.
Qed.

Lemma strip_no_trail s : no_trail (strip s).
Proof.
  unfold no_trail, strip, rstrip. rewrite rev_involutive. apply lstrip_idem.
Qed.

Lemma strip_idem s : strip (strip s) = strip s.
Proof. apply strip_fixed; [apply strip_no_lead | apply strip_no_trail]. Qed.

Lemma strip_infix s : infix (strip s) s.
Proof.
  destruct (lstrip_suffix s) as [w E].
  destruct (rstrip_prefix (lstrip s)) as [w' E'].
  exists w, w'. unfold strip. now rewrite <- E'.
Qed.

Lemma strip_In c s : In c (strip s) -> In c s.
Proof. apply infix_In, strip_infix. Qed.

(** *** Splitting and joining *)

Lemma hd_split_cons sep c s :
  hd [] (split sep (c :: s)) =
  if starts_with sep (c :: s) then [] else c :: hd [] (split sep s).
Proof.
  unfold split. cbn [split_from].
  destruct (starts_with sep (c :: s)); [reflexivity|].
  now destruct (split_from sep 0 s).
Qed.

(** [s.split(sep)[0]] is the part of [s] before the first [sep]. *)
Lemma hd_split_prefix sep s : exists rest, s = hd [] (split sep s) ++ rest.
Proof.
  induction s as [|c s [rest IH]].
  - now exists [].
  - rewrite hd_split_cons. destruct (starts_with sep (c :: s)).
    + now exists (c :: s).
    + exists rest. simpl. now f_equal.
Qed.

Lemma hd_split_free sep s :
  sep <> [] -> contains sep (hd [] (split sep s)) = false.
Proof.
  intros Hne. induction s as [|c s IH].
  - destruct sep; [contradiction | reflexivity].
  - rewrite hd_split_cons. destruct (starts_with sep (c :: s)) eqn:E.
    + destruct sep; [contradiction | reflexivity].
    + cbn [contains]. rewrite IH, orb_false_r.
      destruct (starts_with sep (c :: hd [] (split sep s))) eqn:E'; [|reflexivity].
      apply starts_with_prefix in E'. destruct E' as [b Hb].
      destruct (hd_split_prefix sep s) as [rest Hrest].
      assert (K : starts_with sep (c :: s) = true).
      { apply starts_with_prefix. exists (b ++ rest).
        rewrite app_assoc, <- Hb. simpl. now f_equal. }
      congruence.
Qed.

Lemma split_nl_cons c s :
  split [nl] (c :: s) =
  if Ascii.eqb nl c then [] :: split [nl] s
  else match split [nl] s with
       | [] => [[c]]
       | piece :: pieces => (c :: piece) :: pieces
       end.
Proof.
  unfold split. cbn [split_from starts_with length Nat.sub].
  now rewrite andb_true_r.
Qed.

Lemma split_nl_nonempty s : split [nl] s <> [].
Proof.
  destruct s as [|c s]; [discriminate|].
  rewrite split_nl_cons. destruct (Ascii.eqb nl c); [discriminate|].
  destruct (split [nl] s); discriminate.
Qed.

Lemma split_nl_no_nl s : Forall (fun l => ~ In nl l) (split [nl] s).
Proof.
  induction s as [|c s IH].
  - constructor; [intros [] | constructor].
  - rewrite split_nl_cons. destruct (Ascii.eqb nl c) eqn:E.
    + constructor; [intros [] | exact IH].
    + apply Ascii.eqb_neq in E.
      destruct (split [nl] s) as [|piece pieces].
      * constructor; [|constructor]. intros [K | []]. congruence.
      * inversion IH as [|? ? H1 H2]; subst. constructor; [|exact H2].
        intros [K | K]; [congruence | contradiction].
Qed.

Lemma split_nl_infix s : forall l, In l (split [nl] s) -> infix l s.
Proof.
  induction s as [|c s IH]; intros l H.
  - destruct H as [<- | []]. apply infix_refl.
  - assert (step : forall l', infix l' s -> infix l' (c :: s)).
    { intros l' [a [b ->]]. now exists (c :: a), b. }
    rewrite split_nl_cons in H. destruct (Ascii.eqb nl c).
    + destruct H as [<- | H]; [now exists [], (c :: s) | now apply step, IH].
    + destruct (hd_split_prefix [nl] s) as [rest Hrest].
      destruct (split [nl] s) as [|piece pieces].
      * destruct H as [<- | []]. now exists [], s.
      * destruct H as [<- | H].
        -- exists [], rest. simpl in *. now f_equal.
        -- apply step, IH. now right.
Qed.

Lemma split_nl_line x : ~ In nl x -> split [nl] x = [x].
Proof.
  induction x as [|c x IH]; intros H; [reflexivity|].
  rewrite split_nl_cons.
  destruct (Ascii.eqb nl c) eqn:E.
  - apply Ascii.eqb_eq in E. exfalso. apply H. now left.
  - rewrite IH; [reflexivity|]. intros K. apply H. now right.
Qed.

Lemma split_nl_app x y : ~ In nl x -> split [nl] (x ++ nl :: y) = x :: split [nl] y.
Proof.
  induction x as [|c x IH]; intros H.
  - simpl. rewrite split_nl_cons. now rewrite Ascii.eqb_refl.
  - simpl. rewrite split_nl_cons.
    destruct (Ascii.eqb nl c) eqn:E.
    + apply Ascii.eqb_eq in E. exfalso. apply H. now left.
    + rewrite IH; [reflexivity|]. intros K. apply H. now right.
Qed.

Lemma join_cons x ls : ls <> [] -> join [nl] (x :: ls) = x ++ nl :: join [nl] ls.
Proof. destruct ls; [contradiction | reflexivity]. Qed.

Lemma split_join ls :
  Forall (fun l => ~ In nl l) ls -> ls <> [] -> split [nl] (join [nl] ls) = ls.
Proof.
  induction ls as [|x ls IH]; intros H Hne; [contradiction|].
  inversion H as [|? ? Hx Hls]; subst.
  destruct ls as [|y rest].
  - simpl. now apply split_nl_line.
  - rewrite join_cons by discriminate.
    rewrite split_nl_app by exact Hx.
    rewrite IH; [reflexivity | exact Hls | discriminate].
Qed.

(** An occurrence of a text without line break in a joined text lies in
    one of the lines. *)
Lemma infix_join m ls :
  m <> [] -> ~ In nl m -> infix m (join [nl] ls) ->
  exists l, In l ls /\ infix m l.
Proof.
  intros Hne Hnl. induction ls as [|x ls IH]; intros H.
  - simpl in H. apply infix_nil_inv in H. contradiction.
  - destruct ls as [|y rest].
    + exists x. split; [now left | exact H].
    + rewrite join_cons in H by discriminate.
      apply infix_app_sep in H; [|exact Hnl].
      destruct H as [H | H].
      * exists x. split; [now left | exact H].
      * destruct (IH H) as [l [Hl Hm]]. exists l. split; [now right | exact Hm].
Qed.

End PyStrFacts.

Import PyStrFacts.

(** * Comment cleaning *)

Module Cleaning.

Lemma clean_unfold b :
  _clean_comment_body b =
  truncate_at 1000 (join [nl] (kept_lines (edit_cut (strip b)))).
Proof. reflexivity. Qed.

Lemma clean_line_ellipsis : clean_line ELLIPSIS.
Proof.
  repeat split; try reflexivity; try discriminate.
  intros H. repeat (destruct H as [H | H]; [discriminate|]). exact H.
Qed.

Lemma kept_lines_clean s : Forall clean_line (kept_lines s).
Proof.
  apply Forall_forall. intros x Hx. unfold kept_lines in Hx.
  apply in_map_iff in Hx. destruct Hx as [l [<- Hl]].
  apply filter_In in Hl. destruct Hl as [Hl Hne].
  repeat split.
  - intros E. rewrite E in Hne. discriminate.
  - apply strip_no_lead.
  - apply strip_no_trail.
  - intros K. apply strip_In in K.
    pose proof (split_nl_no_nl s) as F. rewrite Forall_forall in F.
    exact (F l Hl K).
Qed.

Lemma normal_kept_lines s : normal (join [nl] (kept_lines s)).
Proof. exists (kept_lines s). split; [apply kept_lines_clean | reflexivity]. Qed.

Lemma clean_line_strip l : clean_line l -> strip l = l.
Proof. intros [_ [H1 [H2 _]]]. now apply strip_fixed. Qed.

(** Cleaned lines survive the line step unchanged. *)
Lemma kept_lines_join ls : Forall clean_line ls -> kept_lines (join [nl] ls) = ls.
Proof.
  intros H. destruct ls as [|x ls]; [reflexivity|].
  unfold kept_lines. rewrite split_join; [| |discriminate].
  - remember (x :: ls) as all eqn:E. clear E.
    induction H as [|l ls' Hl Hls IH]; [reflexivity|].
    cbn [filter]. rewrite (clean_line_strip l Hl).
    destruct l as [|c l]; [destruct Hl as [K _]; contradiction|].
    cbn [nonempty map]. rewrite (clean_line_strip (c :: l) Hl). now rewrite IH.
  - eapply Forall_impl; [|exact H]. intros l Hl. apply Hl.
Qed.

Lemma join_nonempty x ls : x <> [] -> join [nl] (x :: ls) <> [].
Proof.
  intros Hx. destruct ls; [exact Hx|].
  rewrite join_cons by discriminate.
  destruct x; [contradiction | discriminate].
Qed.

Lemma no_lead_join ls : Forall clean_line ls -> no_lead (join [nl] ls).
Proof.
  intros H. destruct H as [|x ls [Hne [Hl _]] Hls]; [apply no_lead_nil|].
  destruct ls; [exact Hl|].
  rewrite join_cons by discriminate. now apply no_lead_app.
Qed.

Lemma no_trail_join ls : Forall clean_line ls -> no_trail (join [nl] ls).
Proof.
  intros H. induction H as [|x ls Hx Hls IH]; [reflexivity|].
  destruct ls as [|y rest]; [apply Hx|].
  rewrite join_cons by discriminate.
  change (x ++ nl :: join [nl] (y :: rest))
    with (x ++ [nl] ++ join [nl] (y :: rest)).
  rewrite app_assoc. apply no_trail_app; [exact IH|].
  apply join_nonempty. inversion Hls as [|? ? Hy _]; subst. apply Hy.
Qed.

Lemma normal_strip s : normal s -> strip s = s.
Proof.
  intros [ls [H ->]]. apply strip_fixed; [now apply no_lead_join | now apply no_trail_join].
Qed.

Lemma normal_kept s : normal s -> join [nl] (kept_lines s) = s.
Proof. intros [ls [H ->]]. now rewrite kept_lines_join. Qed.

(** A cleaned line cut anywhere and closed by the ellipsis is a cleaned line. *)
Lemma clean_line_cut n x : clean_line x -> clean_line (firstn n x ++ ELLIPSIS).
Proof.
  intros [Hne [Hl [Ht Hnl]]]. repeat split.
  - intros E. apply app_eq_nil in E. destruct E as [_ E]. discriminate.
  - destruct (firstn n x) as [|c r] eqn:F.
    + apply clean_line_ellipsis.
    + apply no_lead_app; [|discriminate]. rewrite <- F. now apply no_lead_firstn.
  - apply no_trail_app; [apply clean_line_ellipsis | discriminate].
  - intros K. apply in_app_or in K. destruct K as [K | K].
    + apply Hnl. exact (infix_In _ _ _ (infix_firstn n x) K).
    + now apply clean_line_ellipsis in K.
Qed.

(** So is a text of cleaned lines cut anywhere and closed by the ellipsis. *)
Lemma normal_cut ls : Forall clean_line ls -> forall n,
  normal (firstn n (join [nl] ls) ++ ELLIPSIS).
Proof.
  intros H. induction H as [|x ls Hx Hls IH]; intros n.
  - rewrite firstn_nil. exists [ELLIPSIS]. split; [|reflexivity].
    constructor; [apply clean_line_ellipsis | constructor].
  - destruct ls as [|y rest].
    + exists [firstn n x ++ ELLIPSIS]. split; [|reflexivity].
      constructor; [now apply clean_line_cut | constructor].
    + rewrite join_cons by discriminate. rewrite firstn_app.
      destruct (n - length x) as [|m] eqn:D.
      * rewrite firstn_O, app_nil_r.
        exists [firstn n x ++ ELLIPSIS]. split; [|reflexivity].
        constructor; [now apply clean_line_cut | constructor].
      * rewrite firstn_all2 by lia. rewrite firstn_cons.
        destruct (IH m) as [ls' [Hls' E]].
        exists (x :: ls'). split; [now constructor|].
        rewrite (join_cons x ls').
        -- rewrite <- E. now rewrite <- app_assoc.
        -- intros ->. simpl in E. apply app_eq_nil in E.
           destruct E as [_ E]. discriminate.
Qed.

Lemma normal_truncate n s : normal s -> normal (truncate_at n s).
Proof.
  intros H. unfold truncate_at. destruct (n <? length s); [|exact H].
  destruct H as [ls [H ->]]. now apply normal_cut.
Qed.

(** *** Edit markers *)

Lemma free_infix m a b : infix a b -> contains m b = false -> contains m a = false.
Proof.
  intros Hab Hb. apply not_contains_infix. intros K.
  apply not_contains_infix in Hb. apply Hb. exact (infix_trans _ _ _ K Hab).
Qed.

Lemma free_kept m s :
  m <> [] -> ~ In nl m -> contains m s = false ->
  contains m (join [nl] (kept_lines s)) = false.
Proof.
  intros Hne Hnl Hs. apply not_contains_infix. intros K.
  apply infix_join in K; [|exact Hne|exact Hnl].
  destruct K as [l [Hl Hm]]. unfold kept_lines in Hl.
  apply in_map_iff in Hl. destruct Hl as [l0 [<- Hl0]].
  apply filter_In in Hl0. destruct Hl0 as [Hl0 _].
  apply not_contains_infix in Hs. apply Hs.
  apply (infix_trans _ _ _ Hm).
  apply (infix_trans _ _ _ (strip_infix l0)).
  now apply split_nl_infix.
Qed.

Lemma free_cut m n s :
  m <> [] -> ~ In "."%char m -> contains m s = false ->
  contains m (firstn n s ++ ELLIPSIS) = false.
Proof.
  intros Hne Hdot Hs. apply not_contains_infix. intros K.
  change ELLIPSIS with ("."%char :: py "..") in K.
  apply infix_app_sep in K; [|exact Hdot].
  destruct K as [K | K].
  - apply not_contains_infix in Hs. apply Hs.
    exact (infix_trans _ _ _ K (infix_firstn n s)).
  - destruct m as [|c m]; [contradiction|].
    assert (In c (py "..")) as D by (apply (infix_In _ _ _ K); now left).
    apply Hdot. destruct D as [<- | [<- | []]]; now left.
Qed.

Lemma marker_free_cut s :
  marker_free (strip (hd [] (split EDIT_MIXED (hd [] (split EDIT_UPPER s))))).
Proof.
  set (p1 := hd [] (split EDIT_UPPER s)).
  set (p2 := hd [] (split EDIT_MIXED p1)).
  assert (H1 : contains EDIT_UPPER p1 = false) by (apply hd_split_free; discriminate).
  assert (H2 : contains EDIT_MIXED p2 = false) by (apply hd_split_free; discriminate).
  assert (I : infix p2 p1).
  { destruct (hd_split_prefix EDIT_MIXED p1) as [rest E]. fold p2 in E.
    rewrite E. apply infix_prefix. }
  split.
  - apply (free_infix _ _ p2 (strip_infix p2)). exact (free_infix _ _ _ I H1).
  - exact (free_infix _ _ p2 (strip_infix p2) H2).
Qed.

Lemma marker_free_edit_cut s : marker_free (edit_cut s).
Proof.
  unfold edit_cut.
  destruct (contains EDIT_UPPER s) eqn:EU; destruct (contains EDIT_MIXED s) eqn:EM;
    cbn [orb]; try apply marker_free_cut.
  now split.
Qed.

Lemma edit_cut_fixed s : marker_free s -> edit_cut s = s.
Proof. intros [H1 H2]. unfold edit_cut. now rewrite H1, H2. Qed.

Lemma not_in_marker (c : ascii) m : existsb (Ascii.eqb c) m = false -> ~ In c m.
Proof.
  intros H K. assert (existsb (Ascii.eqb c) m = true); [|congruence].
  apply existsb_exists. exists c. split; [exact K | apply Ascii.eqb_refl].
Qed.

Lemma marker_free_kept s : marker_free s -> marker_free (join [nl] (kept_lines s)).
Proof.
  intros [H1 H2]. split; apply free_kept; try assumption; try discriminate;
    now apply not_in_marker.
Qed.

Lemma marker_free_truncate n s : marker_free s -> marker_free (truncate_at n s).
Proof.
  intros H. unfold truncate_at. destruct (n <? length s); [|exact H].
  destruct H as [H1 H2]. split; apply free_cut; try assumption; try discriminate;
    now apply not_in_marker.
Qed.

(** *** The cut at [n] characters *)

Lemma truncate_shape n s :
  length (truncate_at n s) <= n \/
  exists p, length p = n /\ truncate_at n s = p ++ ELLIPSIS.
Proof.
  unfold truncate_at. destruct (Nat.ltb_spec n (length s)) as [L | L].
  - right. exists (firstn n s). split; [|reflexivity].
    rewrite length_firstn. lia.
  - now left.
Qed.

Lemma truncate_fixed n s :
  length s <= n \/ (exists p, length p = n /\ s = p ++ ELLIPSIS) ->
  truncate_at n s = s.
Proof.
  intros [L | [p [Lp ->]]]; unfold truncate_at.
  - destruct (Nat.ltb_spec n (length s)); [lia | reflexivity].
  - destruct (Nat.ltb_spec n (length (p ++ ELLIPSIS))) as [_ | L].
    + rewrite firstn_app, Lp, Nat.sub_diag, firstn_O, app_nil_r.
      rewrite firstn_all2 by lia. reflexivity.
    + rewrite length_app in L. change (length ELLIPSIS) with 3 in L. lia.
Qed.

(** A text of cleaned lines, free of edit markers and of the shape the
    cut at [n] produces, is left alone by every step. *)
Lemma steps_fixed n s :
  normal s -> marker_free s ->
  length s <= n \/ (exists p, length p = n /\ s = p ++ ELLIPSIS) ->
  truncate_at n (join [nl] (kept_lines (edit_cut (strip s)))) = s.
Proof.
  intros Hn Hm Hs.
  rewrite (normal_strip s Hn), (edit_cut_fixed s Hm), (normal_kept s Hn).
  now apply truncate_fixed.
Qed.

Lemma steps_idempotent n b :
  let out := truncate_at n (join [nl] (kept_lines (edit_cut (strip b)))) in
  truncate_at n (join [nl] (kept_lines (edit_cut (strip out)))) = out.
Proof.
  intros out. apply steps_fixed.
  - apply normal_truncate, normal_kept_lines.
  - apply marker_free_truncate, marker_free_kept, marker_free_edit_cut.
  - exact (truncate_shape n _).
Qed.

(** C3.  Cleaning is idempotent: for every body, cleaning the cleaned body
    gives the cleaned body again, and the cleaned body contains neither
    ["EDIT:"] nor ["Edit:"]. *)
Theorem clean_comment_body_idempotent : forall body_text : str,
  _clean_comment_body (_clean_comment_body body_text) = _clean_comment_body body_text
  /\ contains EDIT_UPPER (_clean_comment_body body_text) = false
  /\ contains EDIT_MIXED (_clean_comment_body body_text) = false.
Proof.
  intros b. split.
  - rewrite (clean_unfold (_clean_comment_body b)), (clean_unfold b).
    apply steps_idempotent.
  - rewrite clean_unfold.
    apply marker_free_truncate, marker_free_kept, marker_free_edit_cut.
Qed.

(** C10.  A cleaned body has at most 1003 characters, and one of more than
    1000 characters is a text of exactly 1000 characters followed by the
    three characters of the ellipsis. *)
Theorem clean_comment_body_length : forall body_text : str,
  length (_clean_comment_body body_text) <= 1003
  /\ (length (_clean_comment_body body_text) <= 1000
      \/ exists p, length p = 1000 /\ _clean_comment_body body_text = p ++ py "...").
Proof.
  intros b. rewrite clean_unfold.
  destruct (truncate_shape 1000 (join [nl] (kept_lines (edit_cut (strip b)))))
    as [L | [p [Lp E]]].
  - split; [lia | now left].
  - split.
    + rewrite E, length_app, Lp. change (length ELLIPSIS) with 3. lia.
    + right. now exists p.
Qed.

End Cleaning.

(** * The validity predicate *)

Module Validity.

Lemma existsb_str_In a l : existsb (str_eqb a) l = true <-> In a l.
Proof.
  rewrite existsb_exists. split.
  - intros [x [Hx E]]. apply str_eqb_eq in E. now subst.
  - intros H. exists a. split; [exact H | apply str_eqb_refl].
Qed.

Lemma is_valid_true_iff config comment :
  _is_valid_comment config comment = true <->
  exists a b,
    c_author comment = Some a /\ c_body comment = Some b /\
    b <> py "[removed]" /\ b <> py "[deleted]" /\ b <> [] /\
    ~ In a BOT_ACCOUNTS /\
    (min_comment_score config <= c_score comment)%Z /\
    20 <= length (strip b).
Proof.
  unfold _is_valid_comment.
  destruct (c_author comment) as [a|]; [|split; [discriminate | intros [a [b [K _]]]; discriminate]].
  destruct (c_body comment) as [b|]; [|split; [discriminate | intros [a' [b [_ [K _]]]]; discriminate]].
  destruct (str_eqb b (py "[removed]")) eqn:E1.
  { apply str_eqb_eq in E1. split; [discriminate|].
    intros [a' [b' [_ [K [H _]]]]]. injection K as <-. contradiction. }
  destruct (str_eqb b (py "[deleted]")) eqn:E2.
  { apply str_eqb_eq in E2. split; [discriminate|].
    intros [a' [b' [_ [K [_ [H _]]]]]]. injection K as <-. contradiction. }
  apply str_eqb_neq in E1, E2. cbn [orb].
  destruct (existsb (str_eqb a) BOT_ACCOUNTS) eqn:E3.
  { apply existsb_str_In in E3. split; [discriminate|].
    intros [a' [b' [Ka [_ [_ [_ [_ [H _]]]]]]]]. injection Ka as <-. contradiction. }
  assert (N3 : ~ In a BOT_ACCOUNTS).
  { intros K. apply existsb_str_In in K. congruence. }
  destruct (Z.ltb_spec (c_score comment) (min_comment_score config)) as [L | L].
  { split; [discriminate|].
    intros [a' [b' [_ [_ [_ [_ [_ [_ [H _]]]]]]]]]. lia. }
  destruct (Nat.ltb_spec (length (strip b)) 20) as [L' | L'].
  { split; [discriminate|].
    intros [a' [b' [_ [K [_ [_ [_ [_ [_ H]]]]]]]]]. injection K as <-. lia. }
  split; [|reflexivity]. intros _. exists a, b.
  repeat split; try assumption.
  intros ->. cbn in L'. lia.
Qed.

(** C2.  A comment is valid exactly when its author is present, its body is
    present and is neither ["[removed]"], ["[deleted]"] nor empty, its author
    is not a known bot account, its score is at least the configured minimum
    and its stripped body has at least 20 characters; a score below the
    minimum, or a stripped body shorter than 20 characters whatever the
    score, makes it invalid. *)
Theorem is_valid_comment_spec : forall (config : Config) (comment : Comment),
  (_is_valid_comment config comment = true <->
   exists a b,
     c_author comment = Some a /\ c_body comment = Some b /\
     b <> py "[removed]" /\ b <> py "[deleted]" /\ b <> [] /\
     ~ In a BOT_ACCOUNTS /\
     (min_comment_score config <= c_score comment)%Z /\
     20 <= length (strip b))
  /\ ((c_score comment < min_comment_score config)%Z ->
      _is_valid_comment config comment = false)
  /\ (forall b, c_body comment = Some b -> length (strip b) < 20 ->
      _is_valid_comment config comment = false).
Proof.
  intros config comment. split; [apply is_valid_true_iff | split].
  - intros L. destruct (_is_valid_comment config comment) eqn:E; [|reflexivity].
    apply is_valid_true_iff in E.
    destruct E as [a [b [_ [_ [_ [_ [_ [_ [H _]]]]]]]]]. lia.
  - intros b Hb L. destruct (_is_valid_comment config comment) eqn:E; [|reflexivity].
    apply is_valid_true_iff in E.
    destruct E as [a [b' [_ [K [_ [_ [_ [_ [_ H]]]]]]]]].
    rewrite Hb in K. injection K as <-. lia.
Qed.

Lemma valid_has_body config comment :
  _is_valid_comment config comment = true -> exists b, c_body comment = Some b.
Proof.
  intros H. apply is_valid_true_iff in H.
  destruct H as [a [b [_ [K _]]]]. now exists b.
Qed.

End Validity.

(** * The story title *)

Module Title.

Lemma ends_with_question t :
  ends_with (py "?") t = true <-> exists base, t = base ++ py "?".
Proof.
  unfold ends_with. rewrite starts_with_prefix. split.
  - intros [b E]. exists (rev b).
    apply (f_equal (@rev ascii)) in E. rewrite rev_involutive in E.
    rewrite E, rev_app_distr. reflexivity.
  - intros [base ->]. exists (rev base). now rewrite rev_app_distr.
Qed.

(** C8.  The title of a story is the prefix of its style, a space and the
    post title without its last character when the post title ends in ["?"],
    and otherwise the prefix, [": "] and the post title; with the two titles
    of the specification as instances. *)
Theorem generate_story_title_spec : forall post_title requested : str,
  (forall base, post_title = base ++ py "?" ->
     _generate_story_title post_title requested
     = title_prefix requested ++ py " " ++ base)
  /\ ((forall base, post_title <> base ++ py "?") ->
     _generate_story_title post_title requested
     = title_prefix requested ++ py ": " ++ post_title)
  /\ _generate_story_title (py "What's the best advice you've ever gotten?") (py "comedy")
     = py "The Hilarious Tale of What's the best advice you've ever gotten"
  /\ _generate_story_title (py "Tell me about your day") (py "engaging")
     = py "The Story of: Tell me about your day".
Proof.
  intros t requested. repeat split.
  - intros base ->. unfold _generate_story_title. fold (title_prefix requested).
    rewrite (proj2 (ends_with_question (base ++ py "?"))) by (now exists base).
    change (py "?") with ["?"%char]. now rewrite removelast_last.
  - intros H. unfold _generate_story_title. fold (title_prefix requested).
    destruct (ends_with (py "?") t) eqn:E; [|reflexivity].
    apply ends_with_question in E. destruct E as [base E]. now apply H in E.
Qed.

End Title.

(** * Sorting by descending score *)

Module SortFacts.

Section Key.

Context {A : Type} (key : A -> Z).

Lemma In_firstn_inv n (l : list A) y : In y (firstn n l) -> In y l.
Proof.
  intros H. rewrite <- (firstn_skipn n l). apply in_or_app. now left.
Qed.

Lemma insert_desc_perm x l : Permutation (insert_desc key x l) (x :: l).
Proof.
  induction l as [|y l IH]; simpl; [reflexivity|].
  destruct (key x <? key y)%Z; [|reflexivity].
  rewrite IH. apply perm_swap.
Qed.

Lemma sort_desc_perm l : Permutation (sort_desc key l) l.
Proof.
  induction l as [|x l IH]; simpl; [reflexivity|].
  rewrite insert_desc_perm. now constructor.
Qed.

Lemma insert_desc_descending x l :
  descending key l -> descending key (insert_desc key x l).
Proof.
  unfold descending. induction 1 as [|y l Hl IH Hy]; simpl.
  - constructor; constructor.
  - destruct (Z.ltb_spec (key x) (key y)) as [L | L].
    + constructor; [exact IH|].
      apply (Permutation_Forall (Permutation_sym (insert_desc_perm x l))).
      constructor; [lia | exact Hy].
    + constructor; [now constructor|].
      constructor; [exact L|].
      eapply Forall_impl; [|exact Hy]. intros z Hz. simpl in Hz. lia.
Qed.

Lemma sort_desc_descending l : descending key (sort_desc key l).
Proof.
  induction l as [|x l IH]; simpl; [constructor|].
  now apply insert_desc_descending.
Qed.

(** Insertion never moves an element past one of the same key. *)
Lemma insert_desc_with_key k x l :
  with_key key k (insert_desc key x l) = with_key key k (x :: l).
Proof.
  unfold with_key. induction l as [|y l IH]; [reflexivity|].
  cbn [insert_desc]. destruct (Z.ltb_spec (key x) (key y)) as [L | L]; [|reflexivity].
  cbn [filter] in *. rewrite IH.
  destruct (Z.eqb_spec (key x) k), (Z.eqb_spec (key y) k); try reflexivity. lia.
Qed.

(** The sort is stable: the elements of any one key keep their order. *)
Lemma sort_desc_stable k l : with_key key k (sort_desc key l) = with_key key k l.
Proof.
  induction l as [|x l IH]; [reflexivity|].
  cbn [sort_desc fold_right]. fold (sort_desc key l).
  rewrite insert_desc_with_key. unfold with_key in *. cbn [filter]. now rewrite IH.
Qed.

Lemma descending_firstn n l : descending key l -> descending key (firstn n l).
Proof.
  unfold descending. intros H. revert n.
  induction H as [|x l Hl IH Hx]; intros [|n]; simpl; try constructor.
  - apply IH.
  - rewrite Forall_forall in *. intros y Hy. apply Hx.
    exact (In_firstn_inv n l y Hy).
Qed.

Lemma descending_slice limit l : descending key l -> descending key (slice_to limit l).
Proof.
  intros H. unfold slice_to. destruct (0 <=? limit)%Z; now apply descending_firstn.
Qed.

End Key.

End SortFacts.

(** * Running the monad *)

Module Runs.

Lemma quiet_ret {A} (a : A) : quiet (ret a).
Proof. intros w. now split. Qed.

Lemma quiet_raise {A} e : quiet (@raise A e).
Proof. intros w. now split. Qed.

Lemma quiet_lift {A} (r : result A) : quiet (lift r).
Proof. intros w. now split. Qed.

Lemma quiet_log lvl fmt args : quiet (log lvl fmt args).
Proof. intros w. now split. Qed.

Lemma quiet_bind {A B} (c : M A) (k : A -> M B) :
  quiet c -> (forall a, quiet (k a)) -> quiet (bind c k).
Proof.
  intros Hc Hk w. unfold bind. specialize (Hc w).
  destruct (c w) as [[a | e] w']; simpl in Hc.
  - destruct (Hk a w') as [H1 H2]. destruct Hc as [H3 H4]. split; congruence.
  - exact Hc.
Qed.

Lemma quiet_try {A} (c : M A) (h : exn -> M A) :
  quiet c -> (forall e, quiet (h e)) -> quiet (try_except c h).
Proof.
  intros Hc Hh w. unfold try_except. specialize (Hc w).
  destruct (c w) as [[a | e] w']; simpl in Hc.
  - exact Hc.
  - destruct (Hh e w') as [H1 H2]. destruct Hc as [H3 H4]. split; congruence.
Qed.

Lemma quiet_for_each {A B} (l : list A) (body : A -> M B) :
  (forall x, quiet (body x)) -> quiet (for_each l body).
Proof.
  intros H. induction l as [|x l IH]; cbn [for_each].
  - apply quiet_ret.
  - apply quiet_bind; [apply H|]. intros y.
    apply quiet_bind; [exact IH|]. intros ys. apply quiet_ret.
Qed.

Ltac quiet_step :=
  first
    [ apply quiet_ret | apply quiet_raise | apply quiet_lift | apply quiet_log
    | apply quiet_bind | apply quiet_try | apply quiet_for_each
    | match goal with
      | |- forall _, _ => intro
      | |- quiet (if ?b then _ else _) => destruct b
      | |- quiet (match ?x with _ => _ end) => destruct x
      end ].

Ltac quiet_all := repeat quiet_step.

Lemma quiet_test_connection reddit : quiet (test_connection reddit).
Proof. unfold test_connection. quiet_all. Qed.

Lemma quiet_get_top_posts reddit name limit time_filter :
  quiet (get_top_posts reddit name limit time_filter).
Proof. unfold get_top_posts. quiet_all. Qed.

Lemma quiet_get_top_comments config reddit post limit :
  quiet (get_top_comments config reddit post limit).
Proof. unfold get_top_comments. quiet_all. Qed.

Lemma quiet_build_story_prompt config post comments requested mn mx :
  quiet (build_story_prompt config post comments requested mn mx).
Proof. unfold build_story_prompt. quiet_all. Qed.

(** ** Computations that only add to the log *)

Lemma appends_ret {A} (a : A) : appends (ret a).
Proof. intros w. exists []. now rewrite app_nil_r. Qed.

Lemma appends_raise {A} e : appends (@raise A e).
Proof. intros w. exists []. now rewrite app_nil_r. Qed.

Lemma appends_lift {A} (r : result A) : appends (lift r).
Proof. intros w. exists []. now rewrite app_nil_r. Qed.

Lemma appends_log lvl fmt args : appends (log lvl fmt args).
Proof. intros w. eexists. reflexivity. Qed.

Lemma appends_remote_call req : appends (remote_call req).
Proof. intros w. exists []. now rewrite app_nil_r. Qed.

Lemma appends_bind {A B} (c : M A) (k : A -> M B) :
  appends c -> (forall a, appends (k a)) -> appends (bind c k).
Proof.
  intros Hc Hk w. unfold bind. destruct (Hc w) as [l1 H1].
  destruct (c w) as [[a | e] w']; cbn [snd] in H1.
  - destruct (Hk a w') as [l2 H2]. exists (l1 ++ l2). now rewrite H2, H1, app_assoc.
  - now exists l1.
Qed.

Lemma appends_try {A} (c : M A) (h : exn -> M A) :
  appends c -> (forall e, appends (h e)) -> appends (try_except c h).
Proof.
  intros Hc Hh w. unfold try_except. destruct (Hc w) as [l1 H1].
  destruct (c w) as [[a | e] w']; cbn [snd] in H1.
  - now exists l1.
  - destruct (Hh e w') as [l2 H2]. exists (l1 ++ l2). now rewrite H2, H1, app_assoc.
Qed.

Lemma appends_for_each {A B} (l : list A) (body : A -> M B) :
  (forall x, appends (body x)) -> appends (for_each l body).
Proof.
  intros H. induction l as [|x l IH]; cbn [for_each].
  - apply appends_ret.
  - apply appends_bind; [apply H|]. intros y.
    apply appends_bind; [exact IH|]. intros ys. apply appends_ret.
Qed.

Ltac appends_step :=
  first
    [ apply appends_ret | apply appends_raise | apply appends_lift | apply appends_log
    | apply appends_remote_call
    | apply appends_bind | apply appends_try | apply appends_for_each
    | match goal with
      | |- forall _, _ => intro
      | |- appends (if ?b then _ else _) => destruct b
      | |- appends (match ?x with _ => _ end) => destruct x
      end ].

Ltac appends_all := repeat appends_step.

Lemma appends_get_top_posts reddit name limit time_filter :
  appends (get_top_posts reddit name limit time_filter).
Proof. unfold get_top_posts. appends_all. Qed.

Lemma appends_get_top_comments config reddit post limit :
  appends (get_top_comments config reddit post limit).
Proof. unfold get_top_comments. appends_all. Qed.

Lemma appends_build_story_prompt config post comments requested mn mx :
  appends (build_story_prompt config post comments requested mn mx).
Proof. unfold build_story_prompt. appends_all. Qed.

Lemma appends_generate_story client text max_tokens :
  appends (generate_story client text max_tokens).
Proof. unfold generate_story, generate_completion. appends_all. Qed.

Lemma appends_generate_from_post config client post comments requested mn mx :
  appends (generate_from_post config client post comments requested mn mx).
Proof.
  unfold generate_from_post.
  apply appends_bind; [apply appends_log|]. intros _.
  apply appends_bind; [apply appends_build_story_prompt|]. intros prompt.
  apply appends_bind.
  - apply appends_try.
    + destruct (has_chat_client (provider client)); apply appends_generate_story.
    + intros e. appends_all.
  - intros text. appends_all.
Qed.

(** A loop whose every iteration returns [g x] returns [map g l]. *)
Lemma for_each_map {A B} (g : A -> B) (body : A -> M B) (l : list A) :
  (forall x, In x l -> forall w, exists w', body x w = (Ok (g x), w')) ->
  forall w, exists w', for_each l body w = (Ok (map g l), w').
Proof.
  induction l as [|x l IH]; intros H w.
  - now exists w.
  - cbn [for_each map]. unfold bind at 1.
    destruct (H x (or_introl eq_refl) w) as [w1 E1]. rewrite E1.
    unfold bind at 1.
    destruct (IH (fun y Hy => H y (or_intror Hy)) w1) as [w2 E2]. rewrite E2.
    now exists w2.
Qed.

End Runs.

(** * The content source *)

Module ScraperFacts.

Import Runs Validity SortFacts.

Lemma make_comment_valid config comment :
  _is_valid_comment config comment = true ->
  make_comment comment = Ok (to_reddit_comment comment).
Proof.
  intros H. destruct (valid_has_body config comment H) as [b Hb].
  unfold make_comment, to_reddit_comment. now rewrite Hb.
Qed.

Lemma In_slice_to {A} limit (l : list A) x : In x (slice_to limit l) -> In x l.
Proof.
  unfold slice_to. destruct (0 <=? limit)%Z; apply In_firstn_inv.
Qed.

Lemma ranked_valid config forest limit x :
  In x (slice_to limit (sort_desc c_score (filter (_is_valid_comment config) forest))) ->
  _is_valid_comment config x = true.
Proof.
  intros H. apply In_slice_to in H.
  apply (Permutation_in _ (sort_desc_perm c_score _)) in H.
  now apply filter_In in H.
Qed.

(** What [get_top_comments] returns does not depend on the world: the
    ranked valid comments of the forest, or the error of the fetch. *)
Lemma get_top_comments_value config reddit post limit w :
  fst (get_top_comments config reddit post limit w) =
  match submission_comments reddit post with
  | Ok forest => Ok (top_comments config forest limit)
  | Raise e => Raise e
  end.
Proof.
  unfold get_top_comments, try_except. unfold bind at 1, lift.
  destruct (submission_comments reddit post) as [forest | e]; [|reflexivity].
  cbv beta zeta. unfold bind at 1.
  set (ranked := slice_to limit (sort_desc c_score (filter (_is_valid_comment config) forest))).
  destruct (for_each_map to_reddit_comment
              (fun comment =>
                 reddit_comment <- lift (make_comment comment) ;;
                 log DEBUG "Fetched comment by {} (score: {})"
                     [AStr (author reddit_comment); AInt (score reddit_comment)] ;;
                 ret reddit_comment)
              ranked) with (w := w) as [w1 E].
  - intros x Hx w2. unfold bind, lift.
    rewrite (make_comment_valid config x (ranked_valid config forest limit x Hx)).
    eexists. reflexivity.
  - unfold lift in E. rewrite E. reflexivity.
Qed.

Lemma get_top_comments_run config reddit post limit forest w :
  submission_comments reddit post = Ok forest ->
  exists w', get_top_comments config reddit post limit w
             = (Ok (top_comments config forest limit), w').
Proof.
  intros H. pose proof (get_top_comments_value config reddit post limit w) as V.
  rewrite H in V. destruct (get_top_comments config reddit post limit w) as [r w'].
  simpl in V. subst r. now exists w'.
Qed.

Lemma descending_map_score l :
  descending c_score l -> descending score (map to_reddit_comment l).
Proof.
  unfold descending. induction 1 as [|x l Hl IH Hx]; simpl; constructor.
  - exact IH.
  - rewrite Forall_map. exact Hx.
Qed.

Lemma length_slice_to {A} limit (l : list A) :
  (0 <= limit)%Z -> (Z.of_nat (length (slice_to limit l)) <= limit)%Z.
Proof.
  intros H. unfold slice_to. destruct (Z.leb_spec 0 limit); [|lia].
  rewrite length_firstn. lia.
Qed.

(** C4, as amended.  For every limit, [get_top_comments] returns its
    comments in an order of never increasing score: they are the first
    ones of the valid comments of the forest arranged by descending score,
    with the comments of one score left in their fetch order.  For a limit
    that is not negative they are the first [limit] of these, so at most
    [limit]; for a negative limit they are all but the last [-limit].
    Fetched with scores 500, 275, 350, three valid comments come back as
    500, 350, 275. *)
Theorem get_top_comments_ranked :
  (forall (config : Config) (reddit : Reddit) (post : str) (limit : Z)
          (forest : list Comment) (w : World),
     submission_comments reddit post = Ok forest ->
     exists comments w',
       get_top_comments config reddit post limit w = (Ok comments, w')
       /\ descending score comments
       /\ ((0 <= limit)%Z -> (Z.of_nat (length comments) <= limit)%Z)
       /\ exists ranked dropped,
            Permutation ranked (filter (_is_valid_comment config) forest)
            /\ descending c_score ranked
            /\ (forall k, with_key c_score k ranked
                          = with_key c_score k (filter (_is_valid_comment config) forest))
            /\ map to_reddit_comment ranked = comments ++ dropped
            /\ ((0 <= limit)%Z ->
                comments = map to_reddit_comment (firstn (Z.to_nat limit) ranked))
            /\ ((limit < 0)%Z ->
                comments = map to_reddit_comment
                             (firstn (length ranked - Z.to_nat (- limit)) ranked)))
  /\ (forall w, exists comments w',
        get_top_comments default_config sample_reddit (py "p4") 5 w = (Ok comments, w')
        /\ map c_score sample_forest = [500; 275; 350]%Z
        /\ map score comments = [500; 350; 275]%Z).
Proof.
  split.
  - intros config reddit post limit forest w Hf.
    destruct (get_top_comments_run config reddit post limit forest w Hf) as [w' E].
    exists (top_comments config forest limit), w'.
    split; [exact E|]. unfold top_comments. split; [|split].
    + apply descending_map_score, descending_slice, sort_desc_descending.
    + intros Hl. rewrite length_map. now apply length_slice_to.
    + set (ranked := sort_desc c_score (filter (_is_valid_comment config) forest)).
      exists ranked,
        (map to_reddit_comment
           (skipn (if (0 <=? limit)%Z then Z.to_nat limit
                   else length ranked - Z.to_nat (- limit)) ranked)).
      split; [apply sort_desc_perm|]. split; [apply sort_desc_descending|].
      split; [intros k; apply sort_desc_stable|]. split; [|split].
      * rewrite <- map_app. f_equal. unfold slice_to.
        destruct (0 <=? limit)%Z; symmetry; apply firstn_skipn.
      * intros Hl. unfold slice_to. destruct (Z.leb_spec 0 limit); [reflexivity | lia].
      * intros Hl. unfold slice_to. destruct (Z.leb_spec 0 limit); [lia | reflexivity].
  - intros w.
    destruct (get_top_comments_run default_config sample_reddit (py "p4") 5
                sample_forest w eq_refl) as [w' E].
    exists (top_comments default_config sample_forest 5), w'.
    split; [exact E|]. split; vm_compute; reflexivity.
Qed.

(** At the limit [-1] the slice drops the last comment only: two comments
    come back, more than the limit. *)
Lemma get_top_comments_negative_limit :
  exists comments w',
    get_top_comments default_config sample_reddit (py "p4") (-1)
      (fresh_world sample_answer) = (Ok comments, w')
    /\ length comments = 2
    /\ ~ (Z.of_nat (length comments) <= -1)%Z.
Proof.
  destruct (get_top_comments_run default_config sample_reddit (py "p4") (-1)
              sample_forest (fresh_world sample_answer) eq_refl) as [w' E].
  exists (top_comments default_config sample_forest (-1)), w'.
  split; [exact E|]. split; [vm_compute; reflexivity|].
  assert (L : length (top_comments default_config sample_forest (-1)) = 2)
    by (vm_compute; reflexivity).
  rewrite L. lia.
Qed.

Lemma get_top_comments_ranked_witness :
  exists comments w',
    get_top_comments default_config sample_reddit (py "p3") 5
      (fresh_world sample_answer) = (Ok comments, w')
    /\ descending score comments
    /\ (Z.of_nat (length comments) <= 5)%Z.
Proof.
  destruct (proj1 get_top_comments_ranked default_config sample_reddit (py "p3") 5%Z
              thin_forest (fresh_world sample_answer) eq_refl)
    as [comments [w' [E [D [L _]]]]].
  exists comments, w'. split; [exact E|]. split; [exact D|]. apply L. lia.
Defined.

(** ** The reachability probe *)

Lemma test_connection_outcomes reddit w :
  exists v w',
    test_connection reddit w = (Ok v, w')
    /\ match front_hot reddit 1 with
       | Raise _ => v = PyFalse
       | Ok (_ :: _) => v = PyTrue
       | Ok [] => v = PyNone
       end.
Proof.
  unfold test_connection, try_except, bind, lift.
  destruct (front_hot reddit 1) as [[|submission rest] | e];
    eexists; eexists; (split; [reflexivity | reflexivity]).
Qed.

(** C9, at the failing input.  When the front page lists nothing and
    nothing raises, [test_connection] falls off the end of its body: it
    returns [None], which is not a boolean, and logs nothing. *)
Theorem test_connection_empty_listing : forall w : World,
  test_connection empty_front_reddit w = (Ok PyNone, w)
  /\ is_bool PyNone = false.
Proof. intros w. split; reflexivity. Qed.

End ScraperFacts.

(** * The prompt assembler and the composer *)

Module ComposerFacts.

Import Runs Validity ScraperFacts.

Lemma dict_get_key {V} (d : list (str * V)) k v :
  dict_get d k = Some v -> In k (map fst d).
Proof.
  induction d as [|[k' v'] d IH]; simpl; [discriminate|].
  destruct (str_eqb k k') eqn:E.
  - apply str_eqb_eq in E. intros _. now left.
  - intros H. right. now apply IH.
Qed.

Lemma effective_style_known requested :
  exists info, dict_get STORY_STYLES (effective_style requested) = Some info.
Proof.
  unfold effective_style, dict_mem.
  destruct (dict_get STORY_STYLES requested) as [info|] eqn:E.
  - now exists info.
  - eexists. reflexivity.
Qed.

(** The style of a prompt is always one of the vocabulary. *)
Lemma effective_style_in_vocabulary requested :
  in_vocabulary (effective_style requested) = true.
Proof.
  destruct (effective_style_known requested) as [info H].
  apply dict_get_key in H. unfold in_vocabulary.
  now apply existsb_str_In.
Qed.

Lemma effective_style_unknown requested :
  in_vocabulary requested = false -> effective_style requested = py "engaging".
Proof.
  intros H. unfold effective_style, dict_mem.
  destruct (dict_get STORY_STYLES requested) as [info|] eqn:E; [|reflexivity].
  apply dict_get_key in E. apply existsb_str_In in E.
  unfold in_vocabulary in H. change (map fst STORY_STYLES) with STYLE_VOCABULARY in E.
  congruence.
Qed.

(** [build_story_prompt] never raises; its prompt is the one of the
    effective style. *)
Lemma build_story_prompt_run config post comments requested mn mx :
  exists prompt,
    prompt_style prompt = effective_style requested
    /\ _build_system_message (effective_style requested) = Ok (system_message prompt)
    /\ _build_user_prompt post comments (effective_style requested)
         (or_default mn (story_min_words config))
         (or_default mx (story_max_words config)) = Ok (user_prompt prompt)
    /\ forall w, exists w',
         build_story_prompt config post comments requested mn mx w = (Ok prompt, w').
Proof.
  destruct (effective_style_known requested) as [info Hi].
  assert (exists sm, _build_system_message (effective_style requested) = Ok sm) as [sm Hsm].
  { unfold _build_system_message, dict_item. rewrite Hi. eexists. reflexivity. }
  assert (exists up, _build_user_prompt post comments (effective_style requested)
                       (or_default mn (story_min_words config))
                       (or_default mx (story_max_words config)) = Ok up) as [up Hup].
  { unfold _build_user_prompt, dict_item. rewrite Hi. eexists. reflexivity. }
  exists {| system_message := sm;
            user_prompt := up;
            post_data :=
              {| pd_title := post_title post;
                 pd_subreddit := post_subreddit post;
                 pd_score := post_score post;
                 pd_num_comments := num_comments post;
                 pd_comment_count := length comments |};
            prompt_style := effective_style requested;
            prompt_word_count :=
              (or_default mn (story_min_words config),
               or_default mx (story_max_words config)) |}.
  repeat split; try assumption.
  intros w. unfold build_story_prompt. cbv zeta. unfold bind at 1.
  assert (exists w1,
    (if negb (dict_mem STORY_STYLES requested)
     then log WARNING "Unknown style '{}', defaulting to 'engaging'" [AStr requested] ;;
          ret (py "engaging")
     else ret requested) w = (Ok (effective_style requested), w1)) as [w1 E].
  { unfold effective_style. destruct (dict_mem STORY_STYLES requested); cbn [negb];
      eexists; reflexivity. }
  rewrite E. unfold bind, lift, ret. rewrite Hsm, Hup. eexists. reflexivity.
Qed.

Lemma generate_story_run client text max_tokens w :
  exists w',
    calls w' = calls w ++ [provider_request (provider client) text max_tokens]
    /\ responses w' = responses w
    /\ generate_story client text max_tokens w =
       (match responses w (length (calls w)) with
        | Ok t => Ok (strip t)
        | Raise e => Raise e
        end, w').
Proof.
  unfold generate_story, generate_completion, try_except, bind, log, remote_call, ret, raise.
  cbn [calls responses logged].
  destruct (responses w (length (calls w)));
    (eexists; split; [|split]; [ | |reflexivity]; reflexivity).
Qed.

(** One run of [generate_from_post]: one prompt, one request, and either
    the story around the stripped answer or the error of the endpoint. *)
Lemma generate_from_post_run config client post comments requested mn mx w :
  exists prompt w',
    (forall w0, exists w1,
       build_story_prompt config post comments requested mn mx w0 = (Ok prompt, w1))
    /\ calls w' = calls w ++ [provider_request (provider client) (prompt_text client prompt) 1500]
    /\ responses w' = responses w
    /\ generate_from_post config client post comments requested mn mx w =
       (match responses w (length (calls w)) with
        | Ok t => Ok (story_of client post comments requested (strip t))
        | Raise e => Raise e
        end, w').
Proof.
  destruct (build_story_prompt_run config post comments requested mn mx)
    as [prompt [_ [_ [_ Hb]]]].
  exists prompt.
  unfold generate_from_post. unfold bind at 1, log at 1. cbv beta iota zeta.
  unfold bind at 1.
  match goal with
  | |- context [build_story_prompt _ _ _ _ _ _ ?w0] =>
      destruct (Hb w0) as [w1 E];
      pose proof (quiet_build_story_prompt config post comments requested mn mx w0) as Q;
      rewrite E in Q; cbn [snd calls responses] in Q; destruct Q as [Qc Qr]
  end.
  rewrite E.
  assert (G : (if has_chat_client (provider client)
               then generate_story client (user_prompt prompt) 1500
               else
                 generate_story client
                   (system_message prompt ++ [nl; nl] ++ user_prompt prompt) 1500)
              = generate_story client (prompt_text client prompt) 1500).
  { unfold prompt_text. now destruct (has_chat_client (provider client)). }
  rewrite G.
  destruct (generate_story_run client (prompt_text client prompt) 1500 w1)
    as [w2 [Hc [Hr Hg]]].
  unfold bind at 1, try_except. rewrite Hg. rewrite Qc, Qr.
  destruct (responses w (length (calls w))) as [t | e].
  - unfold bind, log, ret. eexists. split; [exact Hb|].
    split; [|split; [|reflexivity]]; cbn [calls responses]; congruence.
  - unfold bind, log, raise. eexists. split; [exact Hb|].
    split; [|split; [|reflexivity]]; cbn [calls responses]; congruence.
Qed.

Lemma provider_request_provider p text max_tokens :
  req_provider (provider_request p text max_tokens) = p.
Proof. now destruct p. Qed.

Lemma provider_request_max_tokens p text max_tokens :
  req_max_tokens (provider_request p text max_tokens) = max_tokens.
Proof. now destruct p. Qed.

(** C7.  When the remote endpoint answers the request of a compose with an
    error, [generate_from_post] raises that very error; it has sent exactly
    one request, to the provider of its client, and none after it. *)
Theorem generation_error_propagates :
  forall (config : Config) (client : AIClient) (post : RedditPost)
         (comments : list RedditComment) (requested : str)
         (mn mx : option Z) (w : World) (e : exn),
    responses w (length (calls w)) = Raise e ->
    exists w',
      generate_from_post config client post comments requested mn mx w = (Raise e, w')
      /\ (exists request,
            calls w' = calls w ++ [request]
            /\ req_provider request = provider client)
      /\ responses w' = responses w.
Proof.
  intros config client post comments requested mn mx w e H.
  destruct (generate_from_post_run config client post comments requested mn mx w)
    as [prompt [w' [_ [Hc [Hr Hg]]]]].
  rewrite H in Hg. exists w'. split; [exact Hg|]. split; [|exact Hr].
  eexists. split; [exact Hc | apply provider_request_provider].
Qed.

Lemma generation_error_propagates_witness :
  exists w',
    generate_from_post default_config anthropic_client sample_post sample_comments
      (py "drama") None None
      (fresh_world (Raise (PyException "RateLimitError" "quota exceeded")))
    = (Raise (PyException "RateLimitError" "quota exceeded"), w')
    /\ length (calls w') = 1.
Proof.
  destruct (generation_error_propagates default_config anthropic_client sample_post
              sample_comments (py "drama") None None
              (fresh_world (Raise (PyException "RateLimitError" "quota exceeded")))
              (PyException "RateLimitError" "quota exceeded") eq_refl)
    as [w' [E [[request [Hc _]] _]]].
  exists w'. split; [exact E|]. rewrite Hc. reflexivity.
Defined.

(** C5, as amended.  Every compose sends one request, with a ceiling of 1500
    output tokens.  For the single-message and the managed-runtime variant
    its one message is the user message made of the system instruction, a
    blank line and the user instruction.  For the chat variant the user
    message is the user instruction alone and the system message is the
    fixed one of the provider: the assembled system instruction is not
    part of the request. *)
Theorem prompt_convention :
  forall (config : Config) (client : AIClient) (post : RedditPost)
         (comments : list RedditComment) (requested : str)
         (mn mx : option Z) (w : World),
    exists prompt request,
      (forall w0, exists w1,
         build_story_prompt config post comments requested mn mx w0 = (Ok prompt, w1))
      /\ calls (snd (generate_from_post config client post comments requested mn mx w))
         = calls w ++ [request]
      /\ req_provider request = provider client
      /\ req_max_tokens request = 1500%Z
      /\ req_messages request =
         match provider client with
         | OpenAI => [(py "system", OPENAI_SYSTEM); (py "user", user_prompt prompt)]
         | Anthropic | Bedrock =>
             [(py "user", system_message prompt ++ [nl; nl] ++ user_prompt prompt)]
         end.
Proof.
  intros config client post comments requested mn mx w.
  destruct (generate_from_post_run config client post comments requested mn mx w)
    as [prompt [w' [Hb [Hc [_ Hg]]]]].
  exists prompt, (provider_request (provider client) (prompt_text client prompt) 1500).
  rewrite Hg. cbn [snd]. repeat split.
  - exact Hb.
  - exact Hc.
  - apply provider_request_provider.
  - apply provider_request_max_tokens.
  - unfold prompt_text. now destruct (provider client).
Qed.

(** With the chat variant and the style ["comedy"], no message of the
    request contains the system instruction the assembler built. *)
Lemma chat_variant_drops_system_instruction :
  exists prompt w1 story w',
    build_story_prompt default_config sample_post sample_comments (py "comedy") None None
      (fresh_world sample_answer) = (Ok prompt, w1)
    /\ generate_from_post default_config openai_client sample_post sample_comments
         (py "comedy") None None (fresh_world sample_answer) = (Ok story, w')
    /\ length (calls w') = 1
    /\ existsb
         (fun request =>
            existsb (fun message => contains (system_message prompt) (snd message))
                    (req_messages request))
         (calls w') = false.
Proof.
  do 4 eexists.
  split; [vm_compute; reflexivity|].
  split; [vm_compute; reflexivity|].
  split; vm_compute; reflexivity.
Qed.

(** C1, as amended.  The style of the story [generate_from_post] returns
    is the requested string itself; the remapping of an unrecognized style
    to ["engaging"] happens in the prompt: its style is always one of the
    vocabulary, the requested one or ["engaging"], and its system message
    and user prompt are the texts built for that style.  The remapping
    raises nothing: a compose raises only the error of the remote
    endpoint. *)
Theorem generated_story_style :
  forall (config : Config) (client : AIClient) (post : RedditPost)
         (comments : list RedditComment) (requested : str)
         (mn mx : option Z) (w : World),
    (exists prompt,
       (forall w0, exists w1,
          build_story_prompt config post comments requested mn mx w0 = (Ok prompt, w1))
       /\ in_vocabulary (prompt_style prompt) = true
       /\ prompt_style prompt
          = (if in_vocabulary requested then requested else py "engaging")
       /\ _build_system_message
            (if in_vocabulary requested then requested else py "engaging")
          = Ok (system_message prompt)
       /\ _build_user_prompt post comments
            (if in_vocabulary requested then requested else py "engaging")
            (or_default mn (story_min_words config))
            (or_default mx (story_max_words config))
          = Ok (user_prompt prompt))
    /\ match generate_from_post config client post comments requested mn mx w with
       | (Ok story, _) => style story = requested
       | (Raise e, _) => responses w (length (calls w)) = Raise e
       end.
Proof.
  intros config client post comments requested mn mx w. split.
  - destruct (build_story_prompt_run config post comments requested mn mx)
      as [prompt [Hs [Hsm [Hup Hb]]]].
    assert (Heq : effective_style requested
                  = if in_vocabulary requested then requested else py "engaging").
    { destruct (in_vocabulary requested) eqn:V.
      * unfold effective_style, dict_mem.
        destruct (dict_get STORY_STYLES requested) eqn:D; [reflexivity|].
        exfalso. apply existsb_str_In in V.
        change STYLE_VOCABULARY with (map fst STORY_STYLES) in V.
        clear -V D. induction STORY_STYLES as [|[k v] d IH]; [contradiction|].
        simpl in *. destruct (str_eqb requested k) eqn:E; [discriminate|].
        destruct V as [<- | V]; [now rewrite str_eqb_refl in E | now apply IH].
      * now apply effective_style_unknown. }
    exists prompt. split; [exact Hb|]. rewrite Hs. split.
    + apply effective_style_in_vocabulary.
    + rewrite <- Heq. now repeat split.
  - destruct (generate_from_post_run config client post comments requested mn mx w)
      as [prompt [w' [_ [_ [_ Hg]]]]].
    rewrite Hg. now destruct (responses w (length (calls w))).
Qed.

(** Asked for the style ["mystery"], a compose returns a story whose style
    is ["mystery"], which is not one of the vocabulary. *)
Lemma generated_story_style_unknown :
  exists story w',
    generate_from_post default_config openai_client sample_post sample_comments
      (py "mystery") None None (fresh_world sample_answer) = (Ok story, w')
    /\ style story = py "mystery"
    /\ in_vocabulary (style story) = false.
Proof.
  do 2 eexists.
  split; [vm_compute; reflexivity|].
  split; vm_compute; reflexivity.
Qed.

(** ** The loop over the posts of a subreddit *)

Lemma last_logged_snoc w l r : logged w = l ++ [r] -> last_logged w = Some r.
Proof. intros H. unfold last_logged. now rewrite H, rev_app_distr. Qed.

Lemma get_top_comments_world config reddit post w :
  exists w',
    get_top_comments config reddit (post_id post) (default_comment_limit config) w
    = (fetched config reddit post, w')
    /\ calls w' = calls w /\ responses w' = responses w.
Proof.
  pose proof (get_top_comments_value config reddit (post_id post)
                (default_comment_limit config) w) as V.
  pose proof (quiet_get_top_comments config reddit (post_id post)
                (default_comment_limit config) w) as Q.
  destruct (get_top_comments config reddit (post_id post)
              (default_comment_limit config) w) as [r w'].
  cbn [fst snd] in *. exists w'. split; [|exact Q]. now rewrite V.
Qed.

Lemma get_top_posts_world reddit name limit time_filter w :
  exists w',
    get_top_posts reddit name limit time_filter w
    = (ranked_posts reddit name limit time_filter, w')
    /\ calls w' = calls w /\ responses w' = responses w.
Proof.
  pose proof (quiet_get_top_posts reddit name limit time_filter w) as Q.
  assert (V : fst (get_top_posts reddit name limit time_filter w)
              = ranked_posts reddit name limit time_filter).
  { unfold get_top_posts, ranked_posts, try_except. unfold bind at 1, lift.
    destruct (subreddit_top reddit name time_filter limit) as [listing | e]; [|reflexivity].
    cbv beta zeta. unfold bind at 1.
    destruct (for_each_map (make_post name)
                (fun submission =>
                   log DEBUG "Fetched post: {}... (score: {})"
                       [AStr (firstn 50 (post_title (make_post name submission)));
                        AInt (post_score (make_post name submission))] ;;
                   ret (make_post name submission))
                (filter kept_submission listing)) with (w := w) as [w1 E].
    - intros x _ w2. eexists. reflexivity.
    - rewrite E. reflexivity. }
  destruct (get_top_posts reddit name limit time_filter w) as [r w'].
  cbn [fst snd] in *. exists w'. split; [|exact Q]. now rewrite V.
Qed.

(** One iteration: a post is skipped with a warning, or its failure is
    logged and swallowed, or its story is composed.  Nothing is raised. *)
Lemma process_post_cases config reddit client requested i total post w :
  exists outcome w',
    process_post config reddit client requested i total post w = (Ok outcome, w')
    /\ responses w' = responses w
    /\ ((few_comments post = true /\ outcome = None /\ calls w' = calls w
         /\ last_logged w' = Some (skipped_few_comments post))
        \/ (few_comments post = false
            /\ exists e, fetched config reddit post = Raise e
               /\ outcome = None /\ calls w' = calls w
               /\ last_logged w' = Some (skipped_failure post e))
        \/ (few_comments post = false
            /\ exists comments, fetched config reddit post = Ok comments
               /\ length comments < 3
               /\ outcome = None /\ calls w' = calls w
               /\ last_logged w' = Some (skipped_few_valid (length comments)))
        \/ (few_comments post = false
            /\ exists comments e, fetched config reddit post = Ok comments
               /\ 3 <= length comments
               /\ responses w (length (calls w)) = Raise e
               /\ outcome = None
               /\ last_logged w' = Some (skipped_failure post e)
               /\ length (calls w') = S (length (calls w)))
        \/ (few_comments post = false
            /\ exists comments t, fetched config reddit post = Ok comments
               /\ 3 <= length comments
               /\ responses w (length (calls w)) = Ok t
               /\ outcome = Some (story_of client post comments requested (strip t))
               /\ length (calls w') = S (length (calls w)))).
Proof.
  unfold process_post. unfold bind at 1, log at 1. cbv beta iota zeta.
  unfold try_except.
  change (num_comments post <? 5)%Z with (few_comments post).
  destruct (few_comments post) eqn:F.
  - do 2 eexists. split; [reflexivity|]. split; [reflexivity|].
    left. repeat split. eapply last_logged_snoc. reflexivity.
  - unfold bind at 1.
    match goal with
    | |- context [get_top_comments _ _ _ _ ?w0] =>
        destruct (get_top_comments_world config reddit post w0) as [w1 [E [Qc Qr]]]
    end.
    rewrite E. cbn [calls responses] in Qc, Qr.
    destruct (fetched config reddit post) as [comments | e] eqn:S.
    + destruct (Nat.ltb_spec (length comments) 3) as [L | L].
      * do 2 eexists. split; [reflexivity|]. split; [exact Qr|].
        right. right. left. split; [reflexivity|]. exists comments.
        repeat split; try assumption. eapply last_logged_snoc. reflexivity.
      * destruct (generate_from_post_run config client post comments requested None None w1)
          as [prompt [w2 [_ [Hc [Hr Hg]]]]].
        unfold bind at 1. rewrite Hg, Qc, Qr.
        destruct (responses w (length (calls w))) as [t | e] eqn:R.
        -- do 2 eexists. split; [reflexivity|]. split; [congruence|].
           do 4 right. split; [reflexivity|]. exists comments, t.
           repeat split; try assumption.
           cbn [calls]. rewrite Hc, length_app, Qc. cbn [length]. lia.
        -- do 2 eexists. split; [reflexivity|]. split; [cbn [responses]; congruence|].
           do 3 right. left. split; [reflexivity|]. exists comments, e.
           repeat split; try assumption.
           ++ eapply last_logged_snoc. reflexivity.
           ++ cbn [calls]. rewrite Hc, length_app, Qc. cbn [length]. lia.
    + do 2 eexists. split; [reflexivity|]. split; [exact Qr|].
      right. left. split; [reflexivity|]. exists e.
      repeat split; try assumption. eapply last_logged_snoc. reflexivity.
Qed.

Lemma reaches_composer_false_few post config reddit :
  few_comments post = true -> reaches_composer config reddit post = false.
Proof. intros H. unfold reaches_composer. now rewrite H. Qed.

(** The loop never raises; it appends at most one story per post that
    reaches the composer, and exactly one, in order, when every request is
    answered. *)
Lemma process_posts_run config reddit client requested total posts :
  forall i stories w,
  exists added w',
    process_posts config reddit client requested i total posts stories w
    = (Ok (stories ++ added), w')
    /\ responses w' = responses w
    /\ length added <= length (filter (reaches_composer config reddit) posts)
    /\ (always_answers w ->
        map source_post added
        = map snapshot_post (filter (reaches_composer config reddit) posts)).
Proof.
  induction posts as [|post rest IH]; intros i stories w.
  - exists [], w. cbn [process_posts]. unfold ret. rewrite app_nil_r.
    repeat split. cbn. lia.
  - cbn [process_posts filter]. unfold bind at 1.
    destruct (process_post_cases config reddit client requested i total post w)
      as [outcome [w1 [E [Hr cases]]]].
    rewrite E.
    assert (skip : outcome = None -> reaches_composer config reddit post = false ->
                   exists added w',
                     process_posts config reddit client requested (S i) total rest
                       match outcome with
                       | Some story => stories ++ [story]
                       | None => stories
                       end w1 = (Ok (stories ++ added), w')
                     /\ responses w' = responses w
                     /\ length added
                        <= length (if reaches_composer config reddit post
                                   then post :: filter (reaches_composer config reddit) rest
                                   else filter (reaches_composer config reddit) rest)
                     /\ (always_answers w ->
                         map source_post added
                         = map snapshot_post
                             (if reaches_composer config reddit post
                              then post :: filter (reaches_composer config reddit) rest
                              else filter (reaches_composer config reddit) rest))).
    { intros -> ->. destruct (IH (S i) stories w1) as [added [w' [E' [Hr' [Hl Hm]]]]].
      exists added, w'. split; [exact E'|]. split; [congruence|]. split; [exact Hl|].
      intros A. apply Hm. intros n. rewrite Hr. apply A. }
    destruct cases as [[F [-> _]] | [[F [e [Sf [-> _]]]] | [[F [cs [Sf [L [-> _]]]]]
                      | [[F [cs [e [Sf [L [R [-> _]]]]]]] | [F [cs [t [Sf [L [R [-> _]]]]]]]]]]].
    + apply skip; [reflexivity | now apply reaches_composer_false_few].
    + apply skip; [reflexivity|]. unfold reaches_composer. now rewrite F, Sf.
    + apply skip; [reflexivity|]. unfold reaches_composer. rewrite F, Sf.
      cbn [negb andb]. now destruct (Nat.ltb_spec (length cs) 3); [|lia].
    + assert (Y : reaches_composer config reddit post = true).
      { unfold reaches_composer. rewrite F, Sf. cbn [negb andb].
        now destruct (Nat.ltb_spec (length cs) 3); [lia|]. }
      rewrite Y. destruct (IH (S i) stories w1) as [added [w' [E' [Hr' [Hl Hm]]]]].
      exists added, w'. split; [exact E'|]. split; [congruence|].
      split; [cbn [length]; lia|].
      intros A. destruct (A (length (calls w))) as [t Ht]. congruence.
    + assert (Y : reaches_composer config reddit post = true).
      { unfold reaches_composer. rewrite F, Sf. cbn [negb andb].
        now destruct (Nat.ltb_spec (length cs) 3); [lia|]. }
      rewrite Y.
      destruct (IH (S i) (stories ++ [story_of client post cs requested (strip t)]) w1)
        as [added [w' [E' [Hr' [Hl Hm]]]]].
      exists (story_of client post cs requested (strip t) :: added), w'.
      split; [rewrite E'; now rewrite <- app_assoc|].
      split; [congruence|]. split; [cbn [length]; lia|].
      intros A. cbn [map]. f_equal. apply Hm. intros n. rewrite Hr. apply A.
Qed.

(** A list splits into the elements of three classes when every element
    is in exactly one of them. *)
Lemma length_three_classes {A} (a b c : A -> bool) l :
  (forall x, In x l ->
     (a x = true /\ b x = false /\ c x = false)
     \/ (a x = false /\ b x = true /\ c x = false)
     \/ (a x = false /\ b x = false /\ c x = true)) ->
  length l = length (filter a l) + length (filter b l) + length (filter c l).
Proof.
  induction l as [|x l IH]; intros H; [reflexivity|].
  cbn [filter length].
  rewrite (IH (fun y Hy => H y (or_intror Hy))).
  destruct (H x (or_introl eq_refl)) as [[-> [-> ->]] | [[-> [-> ->]] | [-> [-> ->]]]];
    cbn [length]; lia.
Qed.

Lemma generate_from_subreddit_run config reddit client subreddit post_limit
      time_filter requested posts w :
  ranked_posts reddit subreddit post_limit time_filter = Ok posts ->
  exists stories w',
    generate_from_subreddit config reddit client subreddit post_limit
      time_filter requested w = (Ok stories, w')
    /\ length stories <= length (filter (reaches_composer config reddit) posts)
    /\ (always_answers w ->
        map source_post stories
        = map snapshot_post (filter (reaches_composer config reddit) posts)).
Proof.
  intros H. unfold generate_from_subreddit. unfold bind at 1, log at 1.
  cbv beta iota zeta. unfold bind at 1.
  match goal with
  | |- context [get_top_posts _ _ _ _ ?w0] =>
      destruct (get_top_posts_world reddit subreddit post_limit time_filter w0)
        as [w1 [E [_ Qr]]]
  end.
  rewrite E, H. cbn [responses] in Qr. unfold bind at 1.
  destruct (process_posts_run config reddit client requested (length posts) posts 1 [] w1)
    as [added [w2 [E2 [_ [Hl Hm]]]]].
  rewrite E2. cbn [app]. unfold bind, log, ret.
  do 2 eexists. split; [reflexivity|]. split; [exact Hl|].
  intros A. apply Hm. intros n. rewrite Qr. apply A.
Qed.

(** ** The stories and the log of a run *)

Lemma last_logged_In w w' records r :
  logged w' = logged w ++ records -> records <> [] ->
  last_logged w' = Some r -> In r records.
Proof.
  intros H N. unfold last_logged. rewrite H, rev_app_distr.
  destruct (rev records) as [|x l] eqn:R.
  - apply (f_equal (@rev _)) in R. rewrite rev_involutive in R. now destruct N.
  - cbn [app]. intros Hx. injection Hx as <-.
    apply in_rev. rewrite R. now left.
Qed.

(** One iteration logs at least the record that announces it. *)
Lemma process_post_appends config reddit client requested i total post w :
  exists records,
    logged (snd (process_post config reddit client requested i total post w))
    = logged w ++ records
    /\ records <> [].
Proof.
  unfold process_post. unfold bind at 1, log at 1. cbv beta iota.
  match goal with
  | |- context [try_except ?b ?h ?w0] =>
      assert (Ha : appends (try_except b h));
      [| destruct (Ha w0) as [l Hl] ]
  end.
  - apply appends_try.
    + destruct (num_comments post <? 5)%Z; [appends_all|].
      apply appends_bind; [apply appends_get_top_comments|]. intros comments.
      destruct (length comments <? 3); [appends_all|].
      apply appends_bind; [apply appends_generate_from_post|]. intros story.
      apply appends_ret.
    + intros e. appends_all.
  - rewrite Hl. cbn [logged]. rewrite <- app_assoc. eexists. split; [reflexivity|].
    discriminate.
Qed.

Lemma skip_logged_incl config reddit post answer l1 l2 :
  (forall r, In r l1 -> In r l2) ->
  skip_logged config reddit post answer l1 -> skip_logged config reddit post answer l2.
Proof.
  intros I [H1 [H2 [H3 H4]]]. repeat split; intros; apply I; eauto.
Qed.

(** One iteration, whole: its outcome, its request and its records. *)
Lemma process_post_exact config reddit client requested i total post w :
  exists outcome w' records,
    process_post config reddit client requested i total post w = (Ok outcome, w')
    /\ responses w' = responses w
    /\ length (calls w')
       = length (calls w) + (if reaches_composer config reddit post then 1 else 0)
    /\ match outcome with Some story => [story] | None => [] end
       = (if reaches_composer config reddit post
          then story_for config reddit client requested
                 (post, responses w (length (calls w)))
          else [])
    /\ logged w' = logged w ++ records
    /\ skip_logged config reddit post (responses w (length (calls w))) records.
Proof.
  destruct (process_post_cases config reddit client requested i total post w)
    as [outcome [w' [E [Hr cases]]]].
  destruct (process_post_appends config reddit client requested i total post w)
    as [records [Hl Hn]].
  rewrite E in Hl. cbn [snd] in Hl.
  exists outcome, w', records. split; [exact E|]. split; [exact Hr|].
  assert (LI : forall r, last_logged w' = Some r -> In r records).
  { intros r. now apply (last_logged_In w). }
  assert (Y : forall cs, few_comments post = false ->
              fetched config reddit post = Ok cs ->
              reaches_composer config reddit post = negb (length cs <? 3)).
  { intros cs F Sf. unfold reaches_composer. now rewrite F, Sf. }
  unfold skip_logged, story_for. cbn [fst snd].
  destruct cases as [[F [-> [Hc Hlast]]] | [[F [e [Sf [-> [Hc Hlast]]]]]
                    | [[F [cs [Sf [L [-> [Hc Hlast]]]]]]
                    | [[F [cs [e [Sf [L [R [-> [Hlast Hc]]]]]]]]
                    | [F [cs [t [Sf [L [R [-> Hc]]]]]]]]]]].
  - rewrite (reaches_composer_false_few post config reddit F), Hc, Nat.add_0_r.
    repeat split; try assumption; intros; try congruence.
    now apply LI.
  - assert (RC : reaches_composer config reddit post = false)
      by (unfold reaches_composer; now rewrite F, Sf).
    rewrite RC, Hc, Nat.add_0_r.
    repeat split; try assumption; intros; try congruence.
    apply LI. assert (e0 = e) by congruence. now subst.
  - assert (RC : reaches_composer config reddit post = false).
    { rewrite (Y cs F Sf). now destruct (Nat.ltb_spec (length cs) 3); [|lia]. }
    rewrite RC, Hc, Nat.add_0_r.
    repeat split; try assumption; intros; try congruence.
    apply LI. assert (comments = cs) by congruence. now subst.
  - assert (RC : reaches_composer config reddit post = true).
    { rewrite (Y cs F Sf). now destruct (Nat.ltb_spec (length cs) 3); [lia|]. }
    rewrite RC, Hc, Sf, R. split; [lia|]. split; [reflexivity|]. split; [exact Hl|].
    repeat split; intros; try congruence.
    + assert (comments = cs) by congruence. subst. lia.
    + apply LI. assert (e0 = e) by congruence. now subst.
  - assert (RC : reaches_composer config reddit post = true).
    { rewrite (Y cs F Sf). now destruct (Nat.ltb_spec (length cs) 3); [lia|]. }
    rewrite RC, Hc, Sf, R. split; [lia|]. split; [reflexivity|]. split; [exact Hl|].
    repeat split; intros; try congruence.
    assert (comments = cs) by congruence. subst. lia.
Qed.

Lemma composed_stories_ext config reddit client requested posts w1 w :
  responses w1 = responses w -> length (calls w1) = length (calls w) ->
  composed_stories config reddit client requested posts w1
  = composed_stories config reddit client requested posts w.
Proof. intros Hr Hc. unfold composed_stories, answers. now rewrite Hr, Hc. Qed.

Lemma composed_stories_cons config reddit client requested post rest w w1 :
  responses w1 = responses w ->
  length (calls w1)
  = length (calls w) + (if reaches_composer config reddit post then 1 else 0) ->
  composed_stories config reddit client requested (post :: rest) w
  = (if reaches_composer config reddit post
     then story_for config reddit client requested (post, responses w (length (calls w)))
     else [])
    ++ composed_stories config reddit client requested rest w1.
Proof.
  intros Hr Hc. unfold composed_stories, answers. cbn [filter].
  destruct (reaches_composer config reddit post).
  - cbn [length seq map combine flat_map]. rewrite Hr, Hc, Nat.add_1_r. reflexivity.
  - rewrite Hr, Hc, Nat.add_0_r. reflexivity.
Qed.

(** The loop, whole: it never raises, whatever the answers; its stories
    are the ones of the answered posts, in order, and every post it does
    not compose a story for leaves the record of its skip. *)
Lemma process_posts_exact config reddit client requested total posts :
  forall i stories w,
  exists w' records,
    process_posts config reddit client requested i total posts stories w
    = (Ok (stories ++ composed_stories config reddit client requested posts w), w')
    /\ responses w' = responses w
    /\ logged w' = logged w ++ records
    /\ forall before post after,
         posts = before ++ post :: after ->
         skip_logged config reddit post
           (responses w (length (calls w)
                         + length (filter (reaches_composer config reddit) before)))
           records.
Proof.
  induction posts as [|post0 rest IH]; intros i stories w.
  - exists w, []. cbn [process_posts]. unfold ret, composed_stories. cbn.
    rewrite !app_nil_r. repeat split; try reflexivity;
      intros; now destruct before.
  - cbn [process_posts]. unfold bind at 1.
    destruct (process_post_exact config reddit client requested i total post0 w)
      as [outcome [w1 [r1 [E [Hr [Hc [Ho [Hl Hs]]]]]]]].
    rewrite E.
    destruct (IH (S i) match outcome with
                       | Some story => stories ++ [story]
                       | None => stories
                       end w1) as [w' [r2 [E' [Hr' [Hl' Hs']]]]].
    exists w', (r1 ++ r2). split; [|split; [|split]].
    + rewrite E'. f_equal. f_equal.
      rewrite (composed_stories_cons config reddit client requested post0 rest w w1 Hr Hc).
      rewrite <- Ho, app_assoc. f_equal.
      destruct outcome; [reflexivity | now rewrite app_nil_r].
    + congruence.
    + now rewrite Hl', Hl, app_assoc.
    + intros before post after Hp. destruct before as [|b before'].
      * cbn [app] in Hp. injection Hp as <- <-. cbn [filter length].
        rewrite Nat.add_0_r.
        apply (skip_logged_incl config reddit post0 _ r1); [|exact Hs].
        intros r Hin. apply in_or_app. now left.
      * cbn [app] in Hp. injection Hp as <- ->.
        specialize (Hs' before' post after eq_refl). rewrite Hr, Hc in Hs'.
        apply (skip_logged_incl config reddit post _ r2);
          [intros r Hin; apply in_or_app; now right|].
        cbn [filter]. destruct (reaches_composer config reddit post0); cbn [length].
        -- now replace (length (calls w)
                        + S (length (filter (reaches_composer config reddit) before')))
             with (length (calls w) + 1
                   + length (filter (reaches_composer config reddit) before')) by lia.
        -- now rewrite Nat.add_0_r in Hs'.
Qed.

Lemma generate_from_subreddit_exact config reddit client subreddit post_limit
      time_filter requested posts w :
  ranked_posts reddit subreddit post_limit time_filter = Ok posts ->
  exists w' records,
    generate_from_subreddit config reddit client subreddit post_limit
      time_filter requested w
    = (Ok (composed_stories config reddit client requested posts w), w')
    /\ logged w' = logged w ++ records
    /\ forall before post after,
         posts = before ++ post :: after ->
         skip_logged config reddit post
           (responses w (length (calls w)
                         + length (filter (reaches_composer config reddit) before)))
           records.
Proof.
  intros H. unfold generate_from_subreddit. unfold bind at 1, log at 1.
  cbv beta iota zeta. unfold bind at 1.
  match goal with
  | |- context [get_top_posts _ _ _ _ ?w0] =>
      destruct (get_top_posts_world reddit subreddit post_limit time_filter w0)
        as [w1 [E [Qc Qr]]];
      destruct (appends_get_top_posts reddit subreddit post_limit time_filter w0)
        as [l0 Hl0]
  end.
  rewrite E in Hl0 |- *. rewrite H. cbn [snd logged] in Hl0.
  cbn [calls responses] in Qc, Qr. unfold bind at 1.
  destruct (process_posts_exact config reddit client requested (length posts) posts 1 [] w1)
    as [w2 [r [E2 [_ [Hl2 Hs]]]]].
  rewrite E2. cbn [app]. unfold bind, log, ret.
  rewrite (composed_stories_ext config reddit client requested posts w1 w Qr
             (f_equal (@length _) Qc)).
  do 2 eexists. split; [reflexivity|]. cbn [logged]. rewrite Hl2, Hl0.
  split; [rewrite <- !app_assoc; reflexivity|].
  intros before post after Hp. specialize (Hs before post after Hp).
  rewrite Qr, Qc in Hs.
  apply (skip_logged_incl config reddit post _ r); [|exact Hs].
  intros x Hx. cbn [app]. right. apply in_or_app. right. apply in_or_app. now left.
Qed.

Ltac settle_case :=
  try assumption; try congruence;
  try (match goal with
       | H : reaches_composer _ _ _ = true, RC : reaches_composer _ _ _ = false |- _ =>
           rewrite RC in H; discriminate H
       end);
  try (match goal with
       | H1 : ?x = Ok ?a, H2 : ?x = Ok ?b |- _ =>
           assert (a = b) by congruence; subst; first [assumption | lia]
       end);
  try (match goal with
       | H1 : ?x = Raise ?a, H2 : ?x = Raise ?b |- _ =>
           assert (a = b) by congruence; subst; assumption
       end).

(** C6.  In [generate_from_subreddit], a post with fewer than 5 comments is
    skipped with a warning, so is a post of which fewer than 3 comments
    come back from the fetch, and a post whose fetch or whose generation
    raises is skipped with the error logged; in each case the loop goes
    on.  Once the posts are fetched the run never raises, whatever the
    answers of the endpoint: it returns, in the order of the posts, the
    story of every post that reaches the composer and whose request is
    answered, the posts that reach the composer taking the answers in
    turn, and its log holds the record of the skip of every other post.
    Of 5 posts of which 2 have fewer than 5 comments and 1 gives only 2
    valid comments, the 2 others reaching the composer and every
    generation succeeding, exactly 2 stories are returned. *)
Theorem generate_from_subreddit_skips :
  forall (config : Config) (reddit : Reddit) (client : AIClient),
    (forall requested i total post w,
       exists outcome w',
         process_post config reddit client requested i total post w = (Ok outcome, w')
         /\ ((few_comments post = true
              -> outcome = None /\ calls w' = calls w
                 /\ last_logged w' = Some (skipped_few_comments post))
             /\ (forall comments, few_comments post = false
                 -> fetched config reddit post = Ok comments -> length comments < 3
                 -> outcome = None /\ calls w' = calls w
                    /\ last_logged w' = Some (skipped_few_valid (length comments)))
             /\ (forall e, few_comments post = false
                 -> fetched config reddit post = Raise e
                 -> outcome = None /\ last_logged w' = Some (skipped_failure post e))
             /\ (forall e, reaches_composer config reddit post = true
                 -> responses w (length (calls w)) = Raise e
                 -> outcome = None /\ last_logged w' = Some (skipped_failure post e))))
    /\ (forall subreddit post_limit time_filter requested posts w,
          ranked_posts reddit subreddit post_limit time_filter = Ok posts ->
          exists stories w' records,
            generate_from_subreddit config reddit client subreddit post_limit
              time_filter requested w = (Ok stories, w')
            /\ stories = composed_stories config reddit client requested posts w
            /\ length stories <= length (filter (reaches_composer config reddit) posts)
            /\ (always_answers w ->
                map source_post stories
                = map snapshot_post (filter (reaches_composer config reddit) posts))
            /\ logged w' = logged w ++ records
            /\ forall before post after,
                 posts = before ++ post :: after ->
                 (few_comments post = true -> In (skipped_few_comments post) records)
                 /\ (forall comments,
                       few_comments post = false ->
                       fetched config reddit post = Ok comments ->
                       length comments < 3 ->
                       In (skipped_few_valid (length comments)) records)
                 /\ (forall e,
                       few_comments post = false ->
                       fetched config reddit post = Raise e ->
                       In (skipped_failure post e) records)
                 /\ (forall e,
                       reaches_composer config reddit post = true ->
                       responses w
                         (length (calls w)
                          + length (filter (reaches_composer config reddit) before))
                       = Raise e ->
                       In (skipped_failure post e) records))
    /\ (forall subreddit post_limit time_filter requested posts w,
          ranked_posts reddit subreddit post_limit time_filter = Ok posts ->
          length posts = 5 ->
          length (filter few_comments posts) = 2 ->
          length (filter (two_valid config reddit) posts) = 1 ->
          (forall post, In post posts ->
             few_comments post = false -> two_valid config reddit post = false ->
             reaches_composer config reddit post = true) ->
          always_answers w ->
          exists stories w',
            generate_from_subreddit config reddit client subreddit post_limit
              time_filter requested w = (Ok stories, w')
            /\ length stories = 2).
Proof.
  intros config reddit client. split; [|split].
  - intros requested i total post w.
    destruct (process_post_cases config reddit client requested i total post w)
      as [outcome [w' [E [_ cases]]]].
    exists outcome, w'. split; [exact E|].
    assert (Y : forall cs, few_comments post = false ->
                fetched config reddit post = Ok cs ->
                reaches_composer config reddit post = negb (length cs <? 3)).
    { intros cs F Sf. unfold reaches_composer. now rewrite F, Sf. }
    destruct cases as [[F [-> [Hc Hl]]] | [[F [e [Sf [-> [Hc Hl]]]]] | [[F [cs [Sf [L [-> [Hc Hl]]]]]]
                      | [[F [cs [e [Sf [L [R [-> [Hl _]]]]]]]] | [F [cs [t [Sf [L [R [-> _]]]]]]]]]]].
    + pose proof (reaches_composer_false_few post config reddit F) as RC.
      repeat split; intros; settle_case.
    + assert (RC : reaches_composer config reddit post = false)
        by (unfold reaches_composer; now rewrite F, Sf).
      repeat split; intros; settle_case.
    + assert (RC : reaches_composer config reddit post = false).
      { rewrite (Y cs F Sf). now destruct (Nat.ltb_spec (length cs) 3); [|lia]. }
      repeat split; intros; settle_case.
    + repeat split; intros; settle_case.
    + repeat split; intros; settle_case.
  - intros subreddit post_limit time_filter requested posts w H.
    destruct (generate_from_subreddit_exact config reddit client subreddit post_limit
                time_filter requested posts w H) as [w' [records [E [Hl Hs]]]].
    destruct (generate_from_subreddit_run config reddit client subreddit post_limit
                time_filter requested posts w H) as [stories [w2 [E2 [Hn Hm]]]].
    rewrite E in E2. injection E2 as <- <-.
    exists (composed_stories config reddit client requested posts w), w', records.
    split; [exact E|]. split; [reflexivity|]. split; [exact Hn|]. split; [exact Hm|].
    split; [exact Hl|]. exact Hs.
  - intros subreddit post_limit time_filter requested posts w H H5 H2 H1 Hrest A.
    destruct (generate_from_subreddit_run config reddit client subreddit post_limit
                time_filter requested posts w H) as [stories [w' [E [_ Hm]]]].
    exists stories, w'. split; [exact E|].
    apply (f_equal (@length _)) in Hm; [|exact A]. rewrite !length_map in Hm.
    rewrite Hm.
    pose proof (length_three_classes few_comments (two_valid config reddit)
                  (reaches_composer config reddit) posts) as C.
    rewrite H5, H2, H1 in C. enough (5 = 2 + 1 + length (filter (reaches_composer config reddit) posts)) by lia.
    apply C. intros post Hp.
    destruct (few_comments post) eqn:F.
    + left. unfold two_valid, reaches_composer. now rewrite F.
    + right. destruct (two_valid config reddit post) eqn:T.
      * left. repeat split. unfold two_valid, reaches_composer in *. rewrite F in *.
        cbn [negb andb] in *. destruct (fetched config reddit post); [|discriminate].
        apply Nat.eqb_eq in T. rewrite T. reflexivity.
      * right. repeat split. now apply Hrest.
Qed.

Lemma generate_from_subreddit_skips_witness :
  exists stories w',
    generate_from_subreddit default_config sample_reddit anthropic_client
      (py "AskReddit") 5 (py "day") (py "comedy") (fresh_world sample_answer)
    = (Ok stories, w')
    /\ length stories = 2.
Proof.
  refine (proj2 (proj2 (generate_from_subreddit_skips default_config sample_reddit
                          anthropic_client))
            (py "AskReddit") 5%Z (py "day") (py "comedy")
            (map (make_post (py "AskReddit")) sample_listing)
            (fresh_world sample_answer) eq_refl eq_refl eq_refl eq_refl _ _).
  - intros post Hp.
    repeat (destruct Hp as [<- | Hp]; [vm_compute; intros; congruence|]).
    destruct Hp.
  - intros n. eexists. reflexivity.
Defined.

(** The first generation of a run fails, the second succeeds: the run
    goes on after the failure, returns the story of the second post alone
    and has logged the failure of the first. *)
Lemma generate_from_subreddit_goes_on :
  exists stories w',
    generate_from_subreddit default_config sample_reddit anthropic_client
      (py "AskReddit") 5 (py "day") (py "comedy") flaky_world = (Ok stories, w')
    /\ map (fun story => sp_id (source_post story)) stories = [py "p5"]
    /\ length (calls w') = 2
    /\ In (skipped_failure
             (make_post (py "AskReddit")
                (sample_submission "p4"
                   "What's the most embarrassing thing that happened to you at work?" 250))
             (PyException "RateLimitError" "quota exceeded"))
          (logged w').
Proof.
  do 2 eexists. split; [vm_compute; reflexivity|].
  split; [reflexivity|]. split; [reflexivity|].
  vm_compute. repeat (first [left; reflexivity | right]).
Qed.

End ComposerFacts.

(** * The embedding on small inputs *)

Module Examples.

Example split_overlapping : split (py "aa") (py "aaa") = [[]; py "a"].
Proof. reflexivity. Qed.

Example split_two_markers :
  split EDIT_UPPER (py "aEDIT:bEDIT:") = [py "a"; py "b"; []].
Proof. reflexivity. Qed.

Example clean_cuts_at_marker :
  _clean_comment_body (py "  hello   EDIT: thanks  ") = py "hello".
Proof. vm_compute. reflexivity. Qed.

Example clean_drops_blank_lines :
  _clean_comment_body
    (py "  line one  " ++ [nl] ++ py "   " ++ [nl] ++ py "  line two  Edit: typo")
  = py "line one" ++ [nl] ++ py "line two".
Proof. vm_compute. reflexivity. Qed.

Example clean_cuts_long_body :
  _clean_comment_body (repeat "a"%char 1001) = repeat "a"%char 1000 ++ py "...".
Proof. vm_compute. reflexivity. Qed.

Example bot_comment_is_invalid :
  map (_is_valid_comment default_config) thin_forest
  = [false; true; false; false; false; false; true].
Proof. vm_compute. reflexivity. Qed.

Example probe_succeeds : forall w,
  fst (test_connection sample_reddit w) = Ok PyTrue.
Proof. reflexivity. Qed.

Example estimate_400_characters :
  fst (estimate_prompt_tokens
         {| system_message := repeat "s"%char 150;
            user_prompt := repeat "u"%char 250;
            post_data := {| pd_title := []; pd_subreddit := []; pd_score := 0;
                            pd_num_comments := 0; pd_comment_count := 0 |};
            prompt_style := py "engaging";
            prompt_word_count := (300, 500)%Z |}
         (fresh_world sample_answer)) = Ok 100.
Proof. vm_compute. reflexivity. Qed.

End Examples.

(** * More on comment cleaning *)

Module CleaningShape.

Import Cleaning.

(** Splitting at line breaks and joining again gives the text back. *)
Lemma join_split_nl s : join [nl] (split [nl] s) = s.
Proof.
  induction s as [|c s IH]; [reflexivity|].
  rewrite split_nl_cons. destruct (Ascii.eqb nl c) eqn:E.
  - apply Ascii.eqb_eq in E. subst c.
    rewrite join_cons by apply split_nl_nonempty. now rewrite IH.
  - destruct (split [nl] s) as [|piece pieces] eqn:S.
    + now destruct (split_nl_nonempty s).
    + destruct pieces as [|q qs].
      * simpl in *. now rewrite IH.
      * rewrite join_cons by discriminate. rewrite join_cons in IH by discriminate.
        rewrite <- app_comm_cons. now rewrite IH.
Qed.

Lemma length_join ls : length (join [nl] ls) = weight ls - 1.
Proof.
  unfold weight. induction ls as [|x ls IH]; [reflexivity|].
  destruct ls as [|y rest].
  - simpl. lia.
  - rewrite join_cons by discriminate. rewrite length_app. cbn [length].
    rewrite IH. unfold list_sum. cbn [map fold_right]. lia.
Qed.

Lemma length_strip s : length (strip s) <= length s.
Proof.
  destruct (strip_infix s) as [a [b E]]. rewrite E at 2.
  rewrite !length_app. lia.
Qed.

Lemma weight_kept ls :
  weight (map strip (filter (fun line => nonempty (strip line)) ls)) <= weight ls.
Proof.
  unfold weight, list_sum. induction ls as [|x ls IH]; [simpl; lia|].
  cbn [filter]. destruct (nonempty (strip x)); cbn [map fold_right].
  - pose proof (length_strip x). lia.
  - lia.
Qed.

Lemma length_kept s : length (join [nl] (kept_lines s)) <= length s.
Proof.
  unfold kept_lines. rewrite length_join.
  pose proof (weight_kept (split [nl] s)) as W.
  pose proof (length_join (split [nl] s)) as J. rewrite join_split_nl in J. lia.
Qed.

Lemma length_hd_split sep s : length (hd [] (split sep s)) <= length s.
Proof.
  destruct (hd_split_prefix sep s) as [rest E]. rewrite E at 2.
  rewrite length_app. lia.
Qed.

Lemma length_edit_cut s : length (edit_cut s) <= length s.
Proof.
  unfold edit_cut.
  destruct (contains EDIT_UPPER s || contains EDIT_MIXED s); [|lia].
  pose proof (length_strip (hd [] (split EDIT_MIXED (hd [] (split EDIT_UPPER s))))).
  pose proof (length_hd_split EDIT_MIXED (hd [] (split EDIT_UPPER s))).
  pose proof (length_hd_split EDIT_UPPER s). lia.
Qed.

Lemma length_before_cut b :
  length (join [nl] (kept_lines (edit_cut (strip b)))) <= length b.
Proof.
  pose proof (length_kept (edit_cut (strip b))).
  pose proof (length_edit_cut (strip b)).
  pose proof (length_strip b). lia.
Qed.

Lemma lstrip_spaces s : forallb is_space s = true -> lstrip s = [].
Proof.
  induction s as [|c s IH]; [reflexivity|].
  cbn [forallb lstrip]. intros H. apply andb_true_iff in H.
  destruct H as [-> H]. now apply IH.
Qed.

Lemma normal_clean b : normal (_clean_comment_body b).
Proof. rewrite clean_unfold. apply normal_truncate, normal_kept_lines. Qed.

Lemma marker_free_clean b : marker_free (_clean_comment_body b).
Proof.
  rewrite clean_unfold.
  apply marker_free_truncate, marker_free_kept, marker_free_edit_cut.
Qed.

(** X1.  A cleaned body has no white space at either end; unless it is
    empty, none of its lines is empty or has white space at either end; a
    body of white space only is cleaned to the empty text. *)
Theorem clean_comment_body_shape : forall body_text : str,
  strip (_clean_comment_body body_text) = _clean_comment_body body_text
  /\ (forall line,
        In line (split [nl] (_clean_comment_body body_text)) ->
        _clean_comment_body body_text <> [] ->
        line <> [] /\ strip line = line /\ ~ In nl line)
  /\ (forallb is_space body_text = true -> _clean_comment_body body_text = []).
Proof.
  intros b. pose proof (normal_clean b) as N. split; [|split].
  - now apply normal_strip.
  - intros line Hl Hne. destruct N as [ls [F E]]. rewrite E in Hl, Hne.
    destruct ls as [|x ls]; [now destruct Hne|].
    rewrite split_join in Hl; [| |discriminate].
    + rewrite Forall_forall in F. specialize (F line Hl).
      split; [apply F|]. split; [now apply clean_line_strip | apply F].
    + eapply Forall_impl; [|exact F]. intros l Hc. apply Hc.
  - intros H. rewrite clean_unfold. unfold strip.
    rewrite (lstrip_spaces b H). reflexivity.
Qed.

(** X2.  The bodies cleaning leaves unchanged are exactly the texts made of
    non-empty stripped lines joined by single line breaks that contain no
    edit marker and have at most 1000 characters, or exactly 1000
    characters followed by the ellipsis. *)
Theorem clean_comment_body_fixed_points : forall body_text : str,
  _clean_comment_body body_text = body_text
  <-> (normal body_text /\ marker_free body_text
       /\ (length body_text <= 1000
           \/ exists p, length p = 1000 /\ body_text = p ++ py "...")).
Proof.
  intros b. split.
  - intros E. split; [|split].
    + rewrite <- E. apply normal_clean.
    + rewrite <- E. apply marker_free_clean.
    + pose proof (truncate_shape 1000
                    (join [nl] (kept_lines (edit_cut (strip b))))) as T.
      rewrite <- clean_unfold in T. rewrite E in T. exact T.
  - intros [N [F S]]. rewrite clean_unfold. now apply steps_fixed.
Qed.

(** X3.  Cleaning never adds more than two characters to a body, and adds
    none to a body of at most 1000 characters: only the cut at 1000
    characters, which appends the three characters of the ellipsis, can
    lengthen a text. *)
Theorem clean_comment_body_growth : forall body_text : str,
  length (_clean_comment_body body_text) <= length body_text + 2
  /\ (length body_text <= 1000 ->
      length (_clean_comment_body body_text) <= length body_text).
Proof.
  intros b. rewrite clean_unfold.
  pose proof (length_before_cut b) as L.
  set (x := join [nl] (kept_lines (edit_cut (strip b)))) in *.
  unfold truncate_at. destruct (Nat.ltb_spec 1000 (length x)) as [G | G].
  - rewrite length_app, length_firstn. change (length ELLIPSIS) with 3.
    split; lia.
  - split; lia.
Qed.

End CleaningShape.

(** * More on the content source *)

Module ScraperMore.

Import Runs Validity SortFacts ScraperFacts ComposerFacts.

Lemma top_comments_from_valid config forest limit rc :
  In rc (top_comments config forest limit) ->
  exists c, In c forest /\ _is_valid_comment config c = true
            /\ rc = to_reddit_comment c.
Proof.
  unfold top_comments. intros H. apply in_map_iff in H.
  destruct H as [c [<- Hc]]. exists c.
  pose proof (ranked_valid config forest limit c Hc) as V.
  apply In_slice_to in Hc.
  apply (Permutation_in _ (sort_desc_perm c_score _)) in Hc.
  apply filter_In in Hc. now repeat split.
Qed.

(** X4.  Every comment [get_top_comments] returns, for any limit, is made
    from a comment of the fetched forest that has an author who is not a
    known bot, a score of at least the configured minimum and a body, other
    than the two sentinels, of at least 20 characters once stripped; its body
    is that body cleaned.  When the fetch raises, [get_top_comments] logs the
    error and raises it unchanged.  Either way nothing is sent to the
    generation provider. *)
Theorem get_top_comments_outcome :
  forall (config : Config) (reddit : Reddit) (post : str) (limit : Z) (w : World),
    match submission_comments reddit post with
    | Ok forest =>
        exists comments w',
          get_top_comments config reddit post limit w = (Ok comments, w')
          /\ calls w' = calls w
          /\ Forall
               (fun rc =>
                  (min_comment_score config <= score rc)%Z
                  /\ ~ In (author rc) BOT_ACCOUNTS
                  /\ exists c raw,
                       In c forest
                       /\ c_id c = comment_id rc
                       /\ c_author c = Some (author rc)
                       /\ c_score c = score rc
                       /\ c_body c = Some raw
                       /\ raw <> py "[removed]" /\ raw <> py "[deleted]"
                       /\ 20 <= length (strip raw)
                       /\ body rc = _clean_comment_body raw)
               comments
    | Raise e =>
        exists w',
          get_top_comments config reddit post limit w = (Raise e, w')
          /\ calls w' = calls w
          /\ last_logged w'
             = Some {| log_level := ERROR;
                       log_format := "Error fetching comments from post {}: {}";
                       log_args := [AStr post; AExn e] |}
    end.
Proof.
  intros config reddit post limit w.
  destruct (submission_comments reddit post) as [forest | e] eqn:S.
  - destruct (get_top_comments_run config reddit post limit forest w S) as [w' E].
    exists (top_comments config forest limit), w'. split; [exact E|]. split.
    + pose proof (quiet_get_top_comments config reddit post limit w) as Q.
      rewrite E in Q. apply Q.
    + apply Forall_forall. intros rc Hrc.
      destruct (top_comments_from_valid config forest limit rc Hrc) as [c [Hc [V ->]]].
      apply is_valid_true_iff in V.
      destruct V as [a [b [Ha [Hb [N1 [N2 [_ [Nb [Hs Hl]]]]]]]]].
      unfold to_reddit_comment. cbn [score author comment_id body].
      rewrite Ha, Hb. split; [exact Hs|]. split; [exact Nb|].
      exists c, b. now repeat split.
  - unfold get_top_comments, try_except, bind, lift. rewrite S.
    eexists. split; [reflexivity|]. split; [reflexivity|].
    eapply last_logged_snoc. reflexivity.
Qed.

Lemma length_top_comments config forest limit :
  (0 <= limit)%Z ->
  length (top_comments config forest limit)
  = Nat.min (Z.to_nat limit) (length (filter (_is_valid_comment config) forest)).
Proof.
  intros H. unfold top_comments, slice_to.
  destruct (Z.leb_spec 0 limit); [|lia].
  rewrite length_map, length_firstn.
  now rewrite (Permutation_length (sort_desc_perm c_score _)).
Qed.

Lemma top_comments_prefix config forest n m :
  (0 <= n <= m)%Z ->
  top_comments config forest n = firstn (Z.to_nat n) (top_comments config forest m).
Proof.
  intros H. unfold top_comments, slice_to.
  destruct (Z.leb_spec 0 n); [|lia]. destruct (Z.leb_spec 0 m); [|lia].
  rewrite firstn_map, firstn_firstn.
  now replace (Nat.min (Z.to_nat n) (Z.to_nat m)) with (Z.to_nat n) by lia.
Qed.

(** X5.  For a limit that is not negative, [get_top_comments] returns as
    many comments as the limit allows and the forest has valid ones: the
    smaller of the two numbers.  A smaller limit returns the first comments
    of what a larger limit returns. *)
Theorem get_top_comments_count :
  forall (config : Config) (reddit : Reddit) (post : str) (forest : list Comment)
         (n m : Z) (w : World),
    submission_comments reddit post = Ok forest ->
    (0 <= n <= m)%Z ->
    exists few many w1 w2,
      get_top_comments config reddit post n w = (Ok few, w1)
      /\ get_top_comments config reddit post m w = (Ok many, w2)
      /\ length few
         = Nat.min (Z.to_nat n) (length (filter (_is_valid_comment config) forest))
      /\ few = firstn (Z.to_nat n) many.
Proof.
  intros config reddit post forest n m w S H.
  destruct (get_top_comments_run config reddit post n forest w S) as [w1 E1].
  destruct (get_top_comments_run config reddit post m forest w S) as [w2 E2].
  exists (top_comments config forest n), (top_comments config forest m), w1, w2.
  split; [exact E1|]. split; [exact E2|]. split.
  - apply length_top_comments. lia.
  - now apply top_comments_prefix.
Qed.

Lemma get_top_comments_count_witness :
  exists few many w1 w2,
    get_top_comments default_config sample_reddit (py "p3") 1
      (fresh_world sample_answer) = (Ok few, w1)
    /\ get_top_comments default_config sample_reddit (py "p3") 5
         (fresh_world sample_answer) = (Ok many, w2)
    /\ length few = 1 /\ length many = 2.
Proof.
  destruct (get_top_comments_count default_config sample_reddit (py "p3") thin_forest
              1%Z 5%Z (fresh_world sample_answer) eq_refl ltac:(lia))
    as [few [many [w1 [w2 [E1 [E2 [L P]]]]]]].
  exists few, many, w1, w2. split; [exact E1|]. split; [exact E2|].
  split; [exact L|].
  pose proof (get_top_comments_run default_config sample_reddit (py "p3") 5
                thin_forest (fresh_world sample_answer) eq_refl) as [w3 E3].
  rewrite E2 in E3. injection E3 as -> _. reflexivity.
Defined.

(** X6.  [get_top_posts] returns, in the order of the listing, one post for
    each submission that has an author and whose text is not ["[removed]"],
    and none for the others: an empty listing gives the empty list; every
    post carries the name of its submission's author and the subreddit
    name asked for.  When the listing raises, the error is logged and
    raised unchanged. *)
Theorem get_top_posts_outcome :
  forall (reddit : Reddit) (name : str) (limit : Z) (time_filter : str) (w : World),
    match subreddit_top reddit name time_filter limit with
    | Ok listing =>
        exists posts w',
          get_top_posts reddit name limit time_filter w = (Ok posts, w')
          /\ calls w' = calls w
          /\ length posts <= length listing
          /\ map post_id posts
             = map sub_id
                 (filter (fun s => match sub_author s with
                                   | Some _ => negb (str_eqb (sub_selftext s) (py "[removed]"))
                                   | None => false
                                   end) listing)
          /\ Forall
               (fun p =>
                  post_subreddit p = name
                  /\ exists s a,
                       In s listing
                       /\ sub_author s = Some a /\ post_author p = a
                       /\ sub_selftext s <> py "[removed]"
                       /\ post_id p = sub_id s /\ post_title p = sub_title s
                       /\ post_score p = sub_score s /\ post_url p = sub_url s
                       /\ num_comments p = sub_num_comments s)
               posts
    | Raise e =>
        exists w',
          get_top_posts reddit name limit time_filter w = (Raise e, w')
          /\ calls w' = calls w
          /\ last_logged w'
             = Some {| log_level := ERROR;
                       log_format := "Error fetching posts from r/{}: {}";
                       log_args := [AStr name; AExn e] |}
    end.
Proof.
  intros reddit name limit time_filter w.
  destruct (subreddit_top reddit name time_filter limit) as [listing | e] eqn:S.
  - destruct (get_top_posts_world reddit name limit time_filter w) as [w' [E [Qc _]]].
    unfold ranked_posts in E. rewrite S in E.
    exists (map (make_post name) (filter kept_submission listing)), w'.
    split; [exact E|]. split; [exact Qc|]. split; [|split].
    + rewrite length_map. apply filter_length_le.
    + rewrite !map_map. reflexivity.
    + apply Forall_forall. intros p Hp. apply in_map_iff in Hp.
      destruct Hp as [s [<- Hs]]. apply filter_In in Hs. destruct Hs as [Hs K].
      unfold kept_submission in K. split; [reflexivity|].
      destruct (sub_author s) as [a|] eqn:A; [|discriminate].
      exists s, a. unfold make_post. cbn. rewrite A.
      repeat split; try assumption.
      intros R. rewrite R, str_eqb_refl in K. discriminate.
  - unfold get_top_posts, try_except, bind, lift. rewrite S.
    eexists. split; [reflexivity|]. split; [reflexivity|].
    eapply last_logged_snoc. reflexivity.
Qed.

End ScraperMore.

(** * More on the prompt assembler *)

Module AssemblerMore.

Import Runs Validity ComposerFacts.

Lemma dict_mem_keys {V} (d : list (str * V)) k :
  dict_mem d k = existsb (str_eqb k) (map fst d).
Proof.
  unfold dict_mem. induction d as [|[k' v] d IH]; [reflexivity|].
  simpl. destruct (str_eqb k k'); [reflexivity | exact IH].
Qed.

Lemma dict_mem_vocabulary s : dict_mem STORY_STYLES s = in_vocabulary s.
Proof. apply dict_mem_keys. Qed.

(** The run of [build_story_prompt], step by step. *)
Lemma build_story_prompt_steps config post comments requested mn mx w :
  exists prompt,
    build_story_prompt config post comments requested mn mx w
    = (Ok prompt,
       if dict_mem STORY_STYLES requested then w
       else {| calls := calls w;
               responses := responses w;
               logged := logged w ++ [unknown_style_warning requested] |})
    /\ prompt_style prompt = effective_style requested
    /\ _build_system_message (effective_style requested) = Ok (system_message prompt)
    /\ _build_user_prompt post comments (effective_style requested)
         (or_default mn (story_min_words config))
         (or_default mx (story_max_words config)) = Ok (user_prompt prompt)
    /\ prompt_word_count prompt
       = (or_default mn (story_min_words config), or_default mx (story_max_words config))
    /\ post_data prompt
       = {| pd_title := post_title post;
            pd_subreddit := post_subreddit post;
            pd_score := post_score post;
            pd_num_comments := num_comments post;
            pd_comment_count := length comments |}.
Proof.
  destruct (effective_style_known requested) as [info Hi].
  assert (exists sm, _build_system_message (effective_style requested) = Ok sm) as [sm Hsm].
  { unfold _build_system_message, dict_item. rewrite Hi. eexists. reflexivity. }
  assert (exists up, _build_user_prompt post comments (effective_style requested)
                       (or_default mn (story_min_words config))
                       (or_default mx (story_max_words config)) = Ok up) as [up Hup].
  { unfold _build_user_prompt, dict_item. rewrite Hi. eexists. reflexivity. }
  exists {| system_message := sm;
            user_prompt := up;
            post_data :=
              {| pd_title := post_title post;
                 pd_subreddit := post_subreddit post;
                 pd_score := post_score post;
                 pd_num_comments := num_comments post;
                 pd_comment_count := length comments |};
            prompt_style := effective_style requested;
            prompt_word_count :=
              (or_default mn (story_min_words config),
               or_default mx (story_max_words config)) |}.
  split; [|split; [|split; [|split; [|split]]]].
  - unfold build_story_prompt. cbv zeta. unfold bind at 1.
    unfold effective_style in *.
    destruct (dict_mem STORY_STYLES requested); cbn [negb].
    + unfold ret at 1. unfold bind, lift, ret. rewrite Hsm, Hup. reflexivity.
    + unfold bind at 1, log at 1, ret at 1. unfold bind, lift, ret.
      rewrite Hsm, Hup. reflexivity.
  - reflexivity.
  - exact Hsm.
  - exact Hup.
  - reflexivity.
  - reflexivity.
Qed.

(** X7.  For a requested style outside the vocabulary, [build_story_prompt]
    builds exactly the prompt it builds for ["engaging"] and logs one
    warning naming the requested style; for a style of the vocabulary it
    keeps the style and logs nothing. *)
Theorem build_story_prompt_unknown_style :
  forall (config : Config) (post : RedditPost) (comments : list RedditComment)
         (requested : str) (mn mx : option Z) (w : World),
    (in_vocabulary requested = false ->
     exists prompt w',
       build_story_prompt config post comments requested mn mx w = (Ok prompt, w')
       /\ build_story_prompt config post comments (py "engaging") mn mx w = (Ok prompt, w)
       /\ prompt_style prompt = py "engaging"
       /\ calls w' = calls w
       /\ logged w' = logged w ++ [unknown_style_warning requested])
    /\ (in_vocabulary requested = true ->
        exists prompt,
          build_story_prompt config post comments requested mn mx w = (Ok prompt, w)
          /\ prompt_style prompt = requested).
Proof.
  intros config post comments requested mn mx w. split; intros V.
  - destruct (build_story_prompt_steps config post comments requested mn mx w)
      as [p [E [Hs [Hsm [Hup [Hw Hd]]]]]].
    destruct (build_story_prompt_steps config post comments (py "engaging") mn mx w)
      as [q [E' [Hs' [Hsm' [Hup' [Hw' Hd']]]]]].
    rewrite dict_mem_vocabulary, V in E.
    rewrite (effective_style_unknown requested V) in Hs, Hsm, Hup.
    change (effective_style (py "engaging")) with (py "engaging") in Hs', Hsm', Hup'.
    change (dict_mem STORY_STYLES (py "engaging")) with true in E'.
    assert (p = q).
    { destruct p, q. cbn in *. congruence. }
    subst q. exists p. eexists. split; [exact E|]. split; [exact E'|].
    split; [exact Hs|]. split; reflexivity.
  - destruct (build_story_prompt_steps config post comments requested mn mx w)
      as [p [E [Hs _]]].
    rewrite dict_mem_vocabulary, V in E. exists p. split; [exact E|].
    rewrite Hs. unfold effective_style. now rewrite dict_mem_vocabulary, V.
Qed.

Lemma style_prefix_keys : incl (map fst style_prefix) STYLE_VOCABULARY.
Proof.
  intros k Hk.
  repeat (destruct Hk as [<- | Hk];
          [repeat (first [left; reflexivity | right])|]).
  destruct Hk.
Qed.

(** X8.  The title of a story depends on the requested style only through
    the style the prompt is built for: a style outside the vocabulary gives
    the title ["engaging"] gives. *)
Theorem generate_story_title_effective_style : forall post_title requested : str,
  _generate_story_title post_title requested
  = _generate_story_title post_title (effective_style requested).
Proof.
  intros t s. unfold effective_style.
  destruct (dict_mem STORY_STYLES s) eqn:M; [reflexivity|].
  assert (N : dict_get style_prefix s = None).
  { destruct (dict_get style_prefix s) eqn:D; [|reflexivity].
    apply dict_get_key in D. apply style_prefix_keys in D.
    apply existsb_str_In in D. rewrite dict_mem_vocabulary in M.
    unfold in_vocabulary in M. congruence. }
  unfold _generate_story_title. rewrite N. reflexivity.
Qed.

Lemma infix_skip m a b : infix m b -> infix m (a ++ b).
Proof. intros [p [q ->]]. exists (a ++ p), q. now rewrite <- app_assoc. Qed.

(** X9.  The word bounds of a prompt are the ones asked for, except that a
    missing bound and a bound of 0 are both replaced by the configured one;
    the bounds are written into the user prompt as its line of length. *)
Theorem build_story_prompt_word_bounds :
  forall (config : Config) (post : RedditPost) (comments : list RedditComment)
         (requested : str) (mn mx : option Z) (w : World),
    exists prompt w' lo hi,
      build_story_prompt config post comments requested mn mx w = (Ok prompt, w')
      /\ prompt_word_count prompt = (lo, hi)
      /\ (mn = None \/ mn = Some 0%Z -> lo = story_min_words config)
      /\ (forall v, mn = Some v -> v <> 0%Z -> lo = v)
      /\ (mx = None \/ mx = Some 0%Z -> hi = story_max_words config)
      /\ (forall v, mx = Some v -> v <> 0%Z -> hi = v)
      /\ infix (py "- Length: " ++ str_of_Z lo ++ py "-" ++ str_of_Z hi ++ py " words" ++ [nl])
               (user_prompt prompt).
Proof.
  intros config post comments requested mn mx w.
  destruct (build_story_prompt_steps config post comments requested mn mx w)
    as [p [E [_ [_ [Hup [Hw _]]]]]].
  exists p. eexists. exists (or_default mn (story_min_words config)),
    (or_default mx (story_max_words config)).
  split; [exact E|]. split; [exact Hw|].
  assert (D : forall o c, (o = None \/ o = Some 0%Z -> or_default o c = c)
                          /\ (forall v, o = Some v -> v <> 0%Z -> or_default o c = v)).
  { intros o c. split.
    - intros [-> | ->]; reflexivity.
    - intros v -> Hv. unfold or_default. destruct (Z.eqb_spec v 0); [contradiction | reflexivity]. }
  split; [apply D|]. split; [apply D|]. split; [apply D|]. split; [apply D|].
  unfold _build_user_prompt in Hup.
  destruct (dict_item STORY_STYLES (effective_style requested)) as [info | e];
    [|discriminate].
  apply (f_equal (fun r => match r with Ok x => x | Raise _ => [] end)) in Hup.
  cbv beta iota zeta in Hup. rewrite <- Hup.
  repeat lazymatch goal with
         | |- infix _ (py "- Length: " ++ _) => fail
         | |- _ => apply infix_skip
         end.
  match goal with
  | |- infix _ (_ ++ _ ++ _ ++ _ ++ _ ++ _ ++ ?rest) => exists [], rest
  end.
  cbn [app]. now rewrite <- !app_assoc.
Qed.

Ltac skip_until head :=
  repeat lazymatch goal with
         | |- infix _ (?h ++ _) =>
             tryif constr_eq h head then fail else apply infix_skip
         end.

Lemma comment_entries_entry comments : forall i0 i c,
  nth_error comments i = Some c ->
  infix (prompt_entry (i0 + i) c) (comment_entries i0 comments).
Proof.
  induction comments as [|x rest IH]; intros i0 [|i] c H; try discriminate.
  - injection H as ->. rewrite Nat.add_0_r. cbn [comment_entries]. cbv zeta.
    apply infix_prefix.
  - cbn [comment_entries]. cbv zeta. apply infix_skip.
    rewrite <- Nat.add_succ_comm. now apply IH.
Qed.

Lemma ends_with_suffix p a : ends_with p (a ++ p) = true.
Proof.
  unfold ends_with. apply starts_with_prefix. exists (rev a). apply rev_app_distr.
Qed.

(** X10.  The user prompt opens with the instruction naming the style,
    quotes the post title, lists every comment under its number, counted
    from 1 in the order given, with a body of more than 500 characters cut
    to its first 500 and the ellipsis, and ends with the cue
    ["Begin the story:"].  For a style that is not a key of the style table
    [_build_user_prompt] raises a KeyError instead. *)
Theorem build_user_prompt_content :
  forall (post : RedditPost) (comments : list RedditComment) (requested : str)
         (lo hi : Z),
    (dict_mem STORY_STYLES requested = false ->
     exists msg,
       _build_user_prompt post comments requested lo hi
       = Raise (PyException "KeyError" msg))
    /\ (dict_mem STORY_STYLES requested = true ->
        exists prompt,
          _build_user_prompt post comments requested lo hi = Ok prompt
          /\ starts_with
               (py "Transform this Reddit post and its top comments into a "
                ++ requested ++ py " story.") prompt = true
          /\ infix ([dquote] ++ post_title post ++ [dquote]) prompt
          /\ (forall i c, nth_error comments i = Some c ->
                infix (prompt_entry (S i) c) prompt)
          /\ ends_with (py "Begin the story:") prompt = true).
Proof.
  intros post comments requested lo hi. unfold dict_mem, _build_user_prompt, dict_item.
  destruct (dict_get STORY_STYLES requested) as [info|]; split; try discriminate.
  - intros _. cbv zeta. eexists. split; [reflexivity|]. split; [|split; [|split]].
    + apply starts_with_prefix. eexists. rewrite <- !app_assoc. reflexivity.
    + rewrite <- !app_assoc. skip_until [dquote].
      match goal with
      | |- infix _ (_ ++ _ ++ _ ++ ?rest) => exists [], rest
      end.
      cbn [app]. now rewrite <- !app_assoc.
    + intros i c H.
      match goal with
      | |- infix _ ((?head ++ comment_entries 1 comments) ++ ?rest) =>
          rewrite <- (app_assoc head (comment_entries 1 comments) rest);
          apply infix_skip
      end.
      eapply infix_trans; [|apply infix_prefix].
      exact (comment_entries_entry comments 1 i c H).
    + rewrite !app_assoc. apply ends_with_suffix.
  - intros _. eexists. reflexivity.
Qed.

Lemma simple_entries_entry texts : forall i0 i t,
  nth_error texts i = Some t ->
  infix (str_of_nat (i0 + i) ++ py ". " ++ t ++ [nl]) (simple_entries i0 texts).
Proof.
  induction texts as [|x rest IH]; intros i0 [|i] t H; try discriminate.
  - injection H as ->. rewrite Nat.add_0_r. cbn [simple_entries].
    apply infix_prefix.
  - cbn [simple_entries]. apply infix_skip.
    rewrite <- Nat.add_succ_comm. now apply IH.
Qed.

Lemma length_simple_entries texts : forall i0,
  list_sum (map (@length ascii) texts) <= length (simple_entries i0 texts).
Proof.
  induction texts as [|x rest IH]; intros i0; [simpl; lia|].
  cbn [simple_entries map]. unfold list_sum in *. cbn [fold_right].
  rewrite !length_app. specialize (IH (S i0)). lia.
Qed.

(** X11.  The simple prompt quotes the post title, lists every comment
    text whole under its number, counted from 1 in the order given, and so
    is at least as long as the title and the texts together; without
    comments it is the two fixed sentences around the title. *)
Theorem build_simple_prompt_content : forall (post_title : str) (comment_texts : list str),
  infix (py "'" ++ post_title ++ py "'") (build_simple_prompt post_title comment_texts)
  /\ (forall i t, nth_error comment_texts i = Some t ->
        infix (str_of_nat (S i) ++ py ". " ++ t ++ [nl])
              (build_simple_prompt post_title comment_texts))
  /\ length post_title + list_sum (map (@length ascii) comment_texts)
     <= length (build_simple_prompt post_title comment_texts)
  /\ build_simple_prompt post_title []
     = py "Create a story based on this Reddit post: '" ++ post_title ++ py "'"
       ++ [nl; nl] ++ py "Using these comments as inspiration:" ++ [nl; nl]
       ++ py "Write a creative story that weaves these elements together.".
Proof.
  intros t texts. unfold build_simple_prompt. cbv zeta. split; [|split; [|split]].
  - rewrite <- !app_assoc.
    change (py "Create a story based on this Reddit post: '")
      with (py "Create a story based on this Reddit post: " ++ py "'").
    rewrite <- !app_assoc. apply infix_skip.
    match goal with
    | |- infix _ (_ ++ _ ++ _ ++ ?rest) => exists [], rest
    end.
    cbn [app]. now rewrite <- !app_assoc.
  - intros i x H.
    match goal with
    | |- infix _ ((?head ++ simple_entries 1 texts) ++ ?rest) =>
        rewrite <- (app_assoc head (simple_entries 1 texts) rest);
        apply infix_skip
    end.
    eapply infix_trans; [|apply infix_prefix].
    exact (simple_entries_entry texts 1 i x H).
  - rewrite !length_app. pose proof (length_simple_entries texts 1). lia.
  - cbn [simple_entries]. rewrite app_nil_r. rewrite <- !app_assoc. reflexivity.
Qed.

Lemma dict_get_map {V W} (f : V -> W) (d : list (str * V)) k :
  dict_get (map (fun item => (fst item, f (snd item))) d) k
  = option_map f (dict_get d k).
Proof.
  induction d as [|[k' v] d IH]; [reflexivity|].
  simpl. destruct (str_eqb k k'); [reflexivity | exact IH].
Qed.

(** X12.  [get_available_styles] lists the styles of the vocabulary, in its
    order.  A style it lists is one the assembler keeps, and the
    description listed is the one written into the user prompt; for a
    style it does not list the assembler falls back to ["engaging"], and
    [_build_system_message] called on it raises a KeyError. *)
Theorem get_available_styles_spec :
  map fst get_available_styles = STYLE_VOCABULARY
  /\ forall requested : str,
       match dict_get get_available_styles requested with
       | Some listed =>
           effective_style requested = requested
           /\ forall post comments lo hi,
                exists prompt,
                  _build_user_prompt post comments requested lo hi = Ok prompt
                  /\ infix (py "- Style: " ++ listed ++ [nl; nl] ++ py "Begin the story:")
                           prompt
       | None =>
           effective_style requested = py "engaging"
           /\ exists msg,
                _build_system_message requested = Raise (PyException "KeyError" msg)
       end.
Proof.
  split; [reflexivity|]. intros requested.
  unfold get_available_styles. rewrite dict_get_map.
  unfold effective_style, dict_mem, _build_user_prompt, _build_system_message, dict_item.
  destruct (dict_get STORY_STYLES requested) as [info|]; cbn [option_map].
  - split; [reflexivity|]. intros post comments lo hi. cbv zeta.
    eexists. split; [reflexivity|].
    rewrite <- !app_assoc. skip_until (py "- Style: ").
    exists [], []. cbn [app]. now rewrite app_nil_r.
  - split; [reflexivity|]. eexists. reflexivity.
Qed.

End AssemblerMore.

(** * More on the composer *)

Module ComposerMore.

Import Runs Validity ScraperFacts ComposerFacts.

Lemma count_words_none s :
  count_words false s = 0 <-> forallb is_space s = true.
Proof.
  induction s as [|c s IH]; [now split|].
  cbn [count_words forallb]. destruct (is_space c); cbn [andb].
  - exact IH.
  - split; discriminate.
Qed.

Lemma count_words_length s : forall in_word, count_words in_word s <= length s.
Proof.
  induction s as [|c s IH]; intros b; [reflexivity|].
  cbn [count_words length]. destruct (is_space c).
  - specialize (IH false). lia.
  - destruct b; specialize (IH true); lia.
Qed.

Lemma stripped_spaces s : no_lead s -> forallb is_space s = true -> s = [].
Proof.
  intros H A. destruct (no_lead_inv s H) as [-> | [c [s' [-> E]]]]; [reflexivity|].
  cbn [forallb] in A. rewrite E in A. discriminate.
Qed.

Lemma length_preview comment : length (cp_preview (comment_preview comment)) <= 103.
Proof.
  unfold comment_preview. cbn [cp_preview].
  destruct (Nat.ltb_spec 100 (length (body comment))) as [L | L].
  - rewrite length_app, length_firstn. cbn [length py list_ascii_of_string]. lia.
  - lia.
Qed.

(** X13.  The story of a compose that succeeds has the stripped answer of
    the endpoint as its content, so its content has no white space at either
    end; its word count is 0 exactly when the content is empty and never
    exceeds the number of characters; it names the provider of the client,
    carries the seven fields of the post (id, title, author, score,
    subreddit, url and number of comments), and has one preview per
    comment, in order, with the id, author and score of the comment and a
    text of at most 103 characters. *)
Theorem generate_from_post_story :
  forall (config : Config) (client : AIClient) (post : RedditPost)
         (comments : list RedditComment) (requested : str)
         (mn mx : option Z) (w : World) (answer : str),
    responses w (length (calls w)) = Ok answer ->
    exists story w',
      generate_from_post config client post comments requested mn mx w = (Ok story, w')
      /\ content story = strip answer
      /\ strip (content story) = content story
      /\ (word_count story = 0 <-> content story = [])
      /\ word_count story <= length (content story)
      /\ story_ai_provider story = provider_name client
      /\ sp_id (source_post story) = post_id post
      /\ sp_title (source_post story) = post_title post
      /\ sp_author (source_post story) = post_author post
      /\ sp_score (source_post story) = post_score post
      /\ sp_subreddit (source_post story) = post_subreddit post
      /\ sp_url (source_post story) = post_url post
      /\ sp_num_comments (source_post story) = num_comments post
      /\ map cp_id (source_comments story) = map comment_id comments
      /\ map cp_author (source_comments story) = map author comments
      /\ map cp_score (source_comments story) = map score comments
      /\ Forall (fun preview => length (cp_preview preview) <= 103)
                (source_comments story).
Proof.
  intros config client post comments requested mn mx w answer H.
  destruct (generate_from_post_run config client post comments requested mn mx w)
    as [prompt [w' [_ [_ [_ Hg]]]]].
  rewrite H in Hg. exists (story_of client post comments requested (strip answer)), w'.
  split; [exact Hg|]. unfold story_of.
  cbn [content word_count story_ai_provider source_post source_comments].
  split; [reflexivity|]. split; [apply strip_idem|]. split; [|split].
  - rewrite count_words_none. split.
    + apply stripped_spaces, strip_no_lead.
    + intros ->. reflexivity.
  - apply count_words_length.
  - repeat split; try (rewrite map_map; reflexivity).
    apply Forall_forall. intros p Hp. apply in_map_iff in Hp.
    destruct Hp as [c [<- _]]. apply length_preview.
Qed.

Lemma generate_from_post_story_witness :
  exists story w',
    generate_from_post default_config openai_client sample_post sample_comments
      (py "comedy") None None (fresh_world sample_answer) = (Ok story, w')
    /\ word_count story = 12
    /\ length (source_comments story) = 3.
Proof.
  destruct (generate_from_post_story default_config openai_client sample_post
              sample_comments (py "comedy") None None (fresh_world sample_answer)
              (py "  Once upon a time, at a company far away, three colleagues met.  ")
              eq_refl)
    as [story [w' [E _]]].
  exists story, w'. split; [exact E|].
  assert (V : fst (generate_from_post default_config openai_client sample_post
                     sample_comments (py "comedy") None None
                     (fresh_world sample_answer))
              = Ok (story_of openai_client sample_post sample_comments (py "comedy")
                      (strip (py "  Once upon a time, at a company far away, three colleagues met.  "))))
    by (vm_compute; reflexivity).
  rewrite E in V. cbn [fst] in V. injection V as ->.
  split; vm_compute; reflexivity.
Defined.

(** The requests one iteration of the loop sends: one when the post
    reaches the composer, none otherwise. *)
Lemma process_post_requests config reddit client requested i total post w :
  exists outcome w',
    process_post config reddit client requested i total post w = (outcome, w')
    /\ exists requests,
         calls w' = calls w ++ requests
         /\ length requests = (if reaches_composer config reddit post then 1 else 0)
         /\ Forall (fun r => req_provider r = provider client
                             /\ req_max_tokens r = 1500%Z) requests.
Proof.
  unfold process_post. unfold bind at 1, log at 1. cbv beta iota zeta.
  unfold try_except.
  change (num_comments post <? 5)%Z with (few_comments post).
  unfold reaches_composer.
  destruct (few_comments post) eqn:F; cbn [negb andb].
  - do 2 eexists. split; [reflexivity|].
    exists []. rewrite app_nil_r. repeat split. constructor.
  - unfold bind at 1.
    match goal with
    | |- context [get_top_comments _ _ _ _ ?w0] =>
        destruct (get_top_comments_world config reddit post w0) as [w1 [E [Qc Qr]]]
    end.
    rewrite E. cbn [calls responses] in Qc, Qr.
    destruct (fetched config reddit post) as [comments | e].
    + destruct (Nat.ltb_spec (length comments) 3) as [L | L]; cbn [negb].
      * do 2 eexists. split; [reflexivity|].
        exists []. rewrite app_nil_r. repeat split; [exact Qc | constructor].
      * destruct (generate_from_post_run config client post comments requested None None w1)
          as [prompt [w2 [_ [Hc [Hr Hg]]]]].
        unfold bind at 1. rewrite Hg.
        assert (P : Forall (fun r => req_provider r = provider client
                                     /\ req_max_tokens r = 1500%Z)
                      [provider_request (provider client) (prompt_text client prompt) 1500]).
        { constructor; [|constructor].
          split; [apply provider_request_provider | apply provider_request_max_tokens]. }
        destruct (responses w1 (length (calls w1))).
        -- do 2 eexists. split; [reflexivity|]. eexists.
           split; [rewrite Hc, Qc; reflexivity|]. split; [reflexivity | exact P].
        -- do 2 eexists. split; [reflexivity|]. eexists.
           split; [cbn [calls]; rewrite Hc, Qc; reflexivity|].
           split; [reflexivity | exact P].
    + do 2 eexists. split; [reflexivity|].
      exists []. rewrite app_nil_r. repeat split; [exact Qc | constructor].
Qed.

Lemma process_posts_requests config reddit client requested total posts :
  forall i stories w,
  exists requests,
    calls (snd (process_posts config reddit client requested i total posts stories w))
    = calls w ++ requests
    /\ length requests = length (filter (reaches_composer config reddit) posts)
    /\ Forall (fun r => req_provider r = provider client /\ req_max_tokens r = 1500%Z)
              requests.
Proof.
  induction posts as [|post rest IH]; intros i stories w.
  - exists []. rewrite app_nil_r. repeat split. constructor.
  - cbn [process_posts filter]. unfold bind.
    destruct (process_post_requests config reddit client requested i total post w)
      as [r [w0 [E0 [r1 [Hc [Hl Hf]]]]]].
    destruct (process_post_cases config reddit client requested i total post w)
      as [outcome [w1 [E _]]].
    rewrite E in E0 |- *. injection E0 as <- <-.
    destruct (IH (S i) match outcome with
                       | Some story => stories ++ [story]
                       | None => stories
                       end w1) as [r2 [Hc2 [Hl2 Hf2]]].
    exists (r1 ++ r2). split; [|split].
    + rewrite Hc2, Hc. now rewrite app_assoc.
    + rewrite length_app, Hl, Hl2.
      now destruct (reaches_composer config reddit post).
    + apply Forall_app. now split.
Qed.

Lemma generate_from_subreddit_calls config reddit client subreddit post_limit
      time_filter requested posts w :
  ranked_posts reddit subreddit post_limit time_filter = Ok posts ->
  exists requests,
    calls (snd (generate_from_subreddit config reddit client subreddit
                  post_limit time_filter requested w))
    = calls w ++ requests
    /\ length requests = length (filter (reaches_composer config reddit) posts)
    /\ Forall (fun r => req_provider r = provider client
                        /\ req_max_tokens r = 1500%Z) requests.
Proof.
  intros R.
  unfold generate_from_subreddit; unfold bind at 1, log at 1; cbv beta iota zeta;
    unfold bind at 1.
  match goal with
  | |- context [get_top_posts _ _ _ _ ?w0] =>
      destruct (get_top_posts_world reddit subreddit post_limit time_filter w0)
        as [w1 [E [Qc _]]]
  end.
  rewrite E, R; cbn [calls] in Qc.
  unfold bind at 1.
  destruct (process_posts_requests config reddit client requested (length posts)
              posts 1 [] w1) as [requests [Hc [Hl Hf]]].
  destruct (process_posts_run config reddit client requested (length posts) posts 1 [] w1)
    as [added [w2 [E2 _]]].
  rewrite E2 in Hc |- *. cbn [snd] in Hc. unfold bind, log, ret. cbn [snd calls].
  exists requests. split; [congruence|]. now split.
Qed.

Lemma generate_from_subreddit_fetch_error config reddit client subreddit post_limit
      time_filter requested e w :
  ranked_posts reddit subreddit post_limit time_filter = Raise e ->
  exists w',
    generate_from_subreddit config reddit client subreddit
      post_limit time_filter requested w = (Raise e, w')
    /\ calls w' = calls w.
Proof.
  intros R.
  unfold generate_from_subreddit; unfold bind at 1, log at 1; cbv beta iota zeta;
    unfold bind at 1.
  match goal with
  | |- context [get_top_posts _ _ _ _ ?w0] =>
      destruct (get_top_posts_world reddit subreddit post_limit time_filter w0)
        as [w1 [E [Qc _]]]
  end.
  rewrite E, R; cbn [calls] in Qc.
  exists w1. split; [reflexivity | exact Qc].
Qed.

(** X14.  A run of [generate_from_subreddit] over fetched posts sends the
    generation provider exactly one request for each post that reaches the
    composer, whether its generation succeeds or not, and none for a post
    it skips; every request goes to the provider of the client with a
    ceiling of 1500 tokens.  When fetching the posts raises, the run raises
    that error and sends nothing. *)
Theorem generate_from_subreddit_requests :
  forall (config : Config) (reddit : Reddit) (client : AIClient)
         (subreddit : str) (post_limit : Z) (time_filter requested : str) (w : World),
    match ranked_posts reddit subreddit post_limit time_filter with
    | Ok posts =>
        exists requests,
          calls (snd (generate_from_subreddit config reddit client subreddit
                        post_limit time_filter requested w))
          = calls w ++ requests
          /\ length requests = length (filter (reaches_composer config reddit) posts)
          /\ Forall (fun r => req_provider r = provider client
                              /\ req_max_tokens r = 1500%Z) requests
    | Raise e =>
        exists w',
          generate_from_subreddit config reddit client subreddit
            post_limit time_filter requested w = (Raise e, w')
          /\ calls w' = calls w
    end.
Proof.
  intros config reddit client subreddit post_limit time_filter requested w.
  destruct (ranked_posts reddit subreddit post_limit time_filter) as [posts | e] eqn:R.
  - now apply generate_from_subreddit_calls.
  - now apply generate_from_subreddit_fetch_error.
Qed.

End ComposerMore.

(** * Providers: construction and probes *)

Module ProviderFacts.

Import Runs Validity ComposerFacts.

Lemma lower_app a b : lower (a ++ b) = lower a ++ lower b.
Proof. apply map_app. Qed.

(** A text occurs in the lower-cased identifier exactly when the
    identifier has a part that lower-cases to it. *)
Lemma infix_lower m id :
  infix m (lower id) <-> exists part, infix part id /\ lower part = m.
Proof.
  split.
  - intros [a [b E]]. unfold lower in E.
    apply map_eq_app in E. destruct E as [a' [r [-> [_ E]]]].
    apply map_eq_app in E. destruct E as [part [b' [-> [E _]]]].
    exists part. split; [now exists a', b' | exact E].
  - intros [part [[a [b ->]] <-]]. rewrite !lower_app.
    now exists (lower a), (lower b).
Qed.

Lemma catalog_has_claude ids :
  existsb (fun model =>
             contains (py "claude")
                      (lower (match model with Some id => id | None => [] end))) ids
  = true
  <-> exists id part, In (Some id) ids /\ infix part id /\ lower part = py "claude".
Proof.
  rewrite existsb_exists. split.
  - intros [[id|] [Hin Hc]]; [|discriminate].
    apply contains_infix, infix_lower in Hc. destruct Hc as [part [Hp Hl]].
    now exists id, part.
  - intros [id [part [Hin [Hp Hl]]]]. exists (Some id). split; [exact Hin|].
    apply contains_infix, infix_lower. now exists part.
Qed.

Lemma provider_probe_run :
  forall (runtime : Runtime) (p : ProviderKind) (w : World),
    exists answer w',
      provider_test_connection runtime p w = (Ok answer, w')
      /\ match p with
         | OpenAI | Anthropic =>
             calls w' = calls w ++ [probe_request p]
             /\ req_max_tokens (probe_request p) = 10%Z
             /\ req_messages (probe_request p) = [(py "user", py "Hello")]
             /\ (answer = true <-> exists t, responses w (length (calls w)) = Ok t)
         | Bedrock =>
             calls w' = calls w
             /\ (answer = true <->
                 exists ids id part,
                   bedrock_catalog runtime = Ok ids
                   /\ In (Some id) ids /\ infix part id /\ lower part = py "claude")
         end.
Proof.
  intros runtime p w.
  destruct p; unfold provider_test_connection, try_except, bind, remote_call, lift, log, ret.
  - destruct (responses w (length (calls w))) as [t | e] eqn:R;
      do 2 eexists; (split; [reflexivity|]); repeat split; try reflexivity;
      intros H; try discriminate; try (now exists t).
    destruct H as [t H]. discriminate.
  - destruct (responses w (length (calls w))) as [t | e] eqn:R;
      do 2 eexists; (split; [reflexivity|]); repeat split; try reflexivity;
      intros H; try discriminate; try (now exists t).
    destruct H as [t H]. discriminate.
  - destruct (bedrock_catalog runtime) as [ids | e] eqn:C.
    + cbv zeta.
      destruct (existsb _ ids) eqn:X; do 2 eexists; (split; [reflexivity|]);
        (split; [reflexivity|]); split; intros H; try discriminate; try reflexivity.
      * apply catalog_has_claude in X. destruct X as [id [part Hx]].
        now exists ids, id, part.
      * destruct H as [ids' [id [part [E Hx]]]]. injection E as <-.
        assert (Y : existsb (fun model =>
                       contains (py "claude")
                         (lower (match model with Some id => id | None => [] end))) ids
                    = true)
          by (apply catalog_has_claude; now exists id, part).
        congruence.
    + do 2 eexists. split; [reflexivity|]. split; [reflexivity|].
      split; intros H; [discriminate|].
      destruct H as [ids [id [part [E _]]]]. discriminate.
Qed.

(** X15.  The probe of a provider never raises.  For the chat and the
    single-message provider it sends one request, a single user message
    with a ceiling of 10 tokens, and answers [True] exactly when the
    endpoint answers without error.  For the managed runtime it sends no
    request and answers [True] exactly when listing the models succeeds and
    the identifier of some model contains ["claude"] in any letter case. *)
Theorem provider_test_connection_outcome :
  forall (runtime : Runtime) (p : ProviderKind) (w : World),
    exists answer w',
      provider_test_connection runtime p w = (Ok answer, w')
      /\ match p with
         | OpenAI | Anthropic =>
             calls w' = calls w ++ [probe_request p]
             /\ req_max_tokens (probe_request p) = 10%Z
             /\ req_messages (probe_request p) = [(py "user", py "Hello")]
             /\ (answer = true <-> exists t, responses w (length (calls w)) = Ok t)
         | Bedrock =>
             calls w' = calls w
             /\ (answer = true <->
                 exists ids id part,
                   bedrock_catalog runtime = Ok ids
                   /\ In (Some id) ids /\ infix part id /\ lower part = py "claude")
         end.
Proof. exact provider_probe_run. Qed.

Lemma provider_of_name_initialize credentials runtime name kind w :
  provider_of_name name = Some kind ->
  truthy (credential_of credentials kind) = true ->
  healthy runtime ->
  exists w',
    _initialize_provider credentials runtime name w = (Ok kind, w')
    /\ calls w' = calls w /\ responses w' = responses w.
Proof.
  unfold provider_of_name, _initialize_provider. intros N T [H1 [H2 [H3 H4]]].
  destruct (str_eqb name (py "openai")).
  { injection N as <-. cbn [credential_of] in T. rewrite T. cbn [negb].
    unfold OpenAIProvider_init. rewrite H1. eexists. now repeat split. }
  destruct (str_eqb name (py "anthropic")).
  { injection N as <-. cbn [credential_of] in T. rewrite T. cbn [negb].
    unfold AnthropicProvider_init. rewrite H2. eexists. now repeat split. }
  destruct (str_eqb name (py "bedrock")); [|discriminate].
  injection N as <-. cbn [credential_of] in T. rewrite T. cbn [negb].
  unfold BedrockProvider_init, try_except, bind, lift. rewrite H3, H4.
  eexists. now repeat split.
Qed.

Lemma validate_credential config credentials kind :
  validate config credentials = true ->
  provider_of_name (ai_provider config) = Some kind ->
  truthy (credential_of credentials kind) = true.
Proof.
  unfold validate, validation_errors, provider_of_name. intros V N.
  destruct (nonempty (reddit_client_id credentials)); [|discriminate].
  destruct (nonempty (reddit_client_secret credentials)); [|discriminate].
  cbn [app] in V.
  destruct (str_eqb (ai_provider config) (py "openai")).
  { injection N as <-. cbn [credential_of andb] in *.
    now destruct (truthy (openai_api_key credentials)). }
  destruct (str_eqb (ai_provider config) (py "anthropic")).
  { injection N as <-. cbn [credential_of andb] in *.
    now destruct (truthy (anthropic_api_key credentials)). }
  destruct (str_eqb (ai_provider config) (py "bedrock")); [|discriminate].
  injection N as <-. cbn [credential_of andb] in *.
  now destruct (truthy (aws_profile credentials)).
Qed.

Lemma from_env_known env :
  exists kind, provider_of_name (from_env_ai_provider env) = Some kind.
Proof.
  unfold from_env_ai_provider. cbv zeta.
  destruct (truthy (env (py "ANTHROPIC_API_KEY"))); [now exists Anthropic|].
  destruct (env (py "AWS_PROFILE")) as [v|].
  - destruct (str_eqb v (py "personal")); [now exists Bedrock|].
    destruct (truthy (env (py "OPENAI_API_KEY"))); now exists OpenAI.
  - destruct (truthy (env (py "OPENAI_API_KEY"))); now exists OpenAI.
Qed.

(** X16.  A configuration that passes [validate] and names one of the three
    providers always yields a client in a runtime where the SDKs and AWS
    answer: the client carries the configured name and the provider of that
    name, and nothing was sent to the endpoint.  The provider [from_env]
    chooses is always one of the three, so this holds for every validated
    configuration read from the environment. *)
Theorem AIClient_init_after_validate :
  forall (config : Config) (credentials : Credentials) (runtime : Runtime) (w : World),
    validate config credentials = true ->
    healthy runtime ->
    (forall kind,
       provider_of_name (ai_provider config) = Some kind ->
       exists client w',
         AIClient_init config credentials runtime None w = (Ok client, w')
         /\ provider_name client = ai_provider config
         /\ provider client = kind
         /\ calls w' = calls w)
    /\ (forall env,
          ai_provider config = from_env_ai_provider env ->
          exists client w',
            AIClient_init config credentials runtime None w = (Ok client, w')
            /\ provider_name client = ai_provider config
            /\ provider_of_name (provider_name client) = Some (provider client)).
Proof.
  intros config credentials runtime w V H.
  assert (G : forall kind,
             provider_of_name (ai_provider config) = Some kind ->
             exists client w',
               AIClient_init config credentials runtime None w = (Ok client, w')
               /\ provider_name client = ai_provider config
               /\ provider client = kind
               /\ calls w' = calls w).
  { intros kind N.
    destruct (provider_of_name_initialize credentials runtime (ai_provider config) kind w N
                (validate_credential config credentials kind V N) H) as [w' [E [Qc _]]].
    unfold AIClient_init. cbv zeta. unfold bind. rewrite E.
    do 2 eexists. split; [reflexivity|]. now repeat split. }
  split; [exact G|].
  intros env E. destruct (from_env_known env) as [kind N]. rewrite <- E in N.
  destruct (G kind N) as [client [w' [R [Hn [Hk _]]]]].
  exists client, w'. split; [exact R|]. split; [exact Hn|].
  rewrite Hn, N. f_equal. symmetry. exact Hk.
Qed.

Lemma AIClient_init_after_validate_witness :
  exists client w',
    AIClient_init sample_env_config (from_env_credentials sample_env) sample_runtime None
      (fresh_world sample_answer) = (Ok client, w')
    /\ provider_name client = py "anthropic"
    /\ provider client = Anthropic.
Proof.
  destruct (proj2 (AIClient_init_after_validate sample_env_config
                     (from_env_credentials sample_env) sample_runtime
                     (fresh_world sample_answer) eq_refl
                     (conj eq_refl (conj eq_refl (conj eq_refl eq_refl))))
              sample_env eq_refl) as [client [w' [E [Hn Hk]]]].
  exists client, w'. split; [exact E|]. split; [exact Hn|].
  rewrite Hn in Hk.
  change (provider_of_name (ai_provider sample_env_config)) with (Some Anthropic) in Hk.
  congruence.
Defined.

Lemma AIClient_init_refused_credential config credentials runtime kind :
  provider_of_name (ai_provider config) = Some kind ->
  truthy (credential_of credentials kind) = false ->
  forall w, exists msg,
    AIClient_init config credentials runtime None w
    = (Raise (PyException "ValueError" msg), w).
Proof.
  unfold provider_of_name, AIClient_init, _initialize_provider.
  cbv zeta. unfold bind. intros N T w.
  destruct (str_eqb (ai_provider config) (py "openai")).
  { injection N as <-. cbn [credential_of] in T. rewrite T. eexists. reflexivity. }
  destruct (str_eqb (ai_provider config) (py "anthropic")).
  { injection N as <-. cbn [credential_of] in T. rewrite T. eexists. reflexivity. }
  destruct (str_eqb (ai_provider config) (py "bedrock")); [|discriminate].
  injection N as <-. cbn [credential_of] in T. rewrite T. eexists. reflexivity.
Qed.

(** X17.  A client is refused at construction, before any SDK is set up and
    before anything is logged or sent, when the configured provider name is
    not one of the three or when the credential of the named provider is
    missing or empty: a ValueError is raised.  [validate] rejects the
    missing credential too, but it accepts any unknown provider name: it
    then checks the two Reddit credentials only. *)
Theorem AIClient_init_refused :
  forall (config : Config) (credentials : Credentials) (runtime : Runtime) (w : World),
    match provider_of_name (ai_provider config) with
    | None =>
        AIClient_init config credentials runtime None w
        = (Raise (PyException "ValueError"
                    (String.append "Unknown AI provider: "
                       (string_of_list_ascii (ai_provider config)))), w)
        /\ validate config credentials
           = nonempty (reddit_client_id credentials)
             && nonempty (reddit_client_secret credentials)
    | Some kind =>
        truthy (credential_of credentials kind) = false ->
        (exists msg,
           AIClient_init config credentials runtime None w
           = (Raise (PyException "ValueError" msg), w))
        /\ validate config credentials = false
    end.
Proof.
  intros config credentials runtime w.
  unfold provider_of_name, AIClient_init, _initialize_provider, validate, validation_errors.
  cbv zeta. unfold bind.
  destruct (str_eqb (ai_provider config) (py "openai")).
  { cbn [credential_of andb]. intros ->. cbn [negb]. split; [eexists; reflexivity|].
    now destruct (nonempty (reddit_client_id credentials)),
                 (nonempty (reddit_client_secret credentials)). }
  destruct (str_eqb (ai_provider config) (py "anthropic")).
  { cbn [credential_of andb]. intros ->. cbn [negb]. split; [eexists; reflexivity|].
    now destruct (nonempty (reddit_client_id credentials)),
                 (nonempty (reddit_client_secret credentials)). }
  destruct (str_eqb (ai_provider config) (py "bedrock")).
  { cbn [credential_of andb]. intros ->. cbn [negb]. split; [eexists; reflexivity|].
    now destruct (nonempty (reddit_client_id credentials)),
                 (nonempty (reddit_client_secret credentials)). }
  split; [reflexivity|].
  now destruct (nonempty (reddit_client_id credentials)),
               (nonempty (reddit_client_secret credentials)).
Qed.

End ProviderFacts.

(** * The commands *)

Module CommandFacts.

Import Runs Validity ScraperFacts ComposerFacts ComposerMore ProviderFacts.

Lemma StoryGenerator_init_run config credentials runtime kind w :
  constructible config credentials runtime kind ->
  exists client w',
    StoryGenerator_init config credentials runtime None w = (Ok client, w')
    /\ provider client = kind
    /\ calls w' = calls w /\ responses w' = responses w.
Proof.
  intros [N [T H]]. unfold StoryGenerator_init, RedditScraper_init.
  unfold bind at 1, log at 1. cbv beta iota.
  unfold AIClient_init. cbv zeta. unfold bind.
  match goal with
  | |- context [_initialize_provider _ _ _ ?w0] =>
      destruct (provider_of_name_initialize credentials runtime (ai_provider config)
                  kind w0 N T H) as [w1 [E [Qc Qr]]]
  end.
  rewrite E. do 2 eexists. split; [reflexivity|]. now repeat split.
Qed.

Lemma store_output_run storage args story w :
  reliable storage ->
  exists w',
    store_output storage args story w = (Ok tt, w')
    /\ calls w' = calls w /\ responses w' = responses w.
Proof.
  intros [Hm [Hj Hs]]. unfold store_output, save_story.
  assert (D : forall dir,
    exists w',
      (paths <- (paths <- lift (write_story_files storage story dir) ;;
                 log INFO "Story saved: {}" [AStr (fst paths)] ;;
                 ret paths) ;;
       log INFO "Story saved to: {} {}" [AStr (fst paths); AStr (snd paths)]) w
      = (Ok tt, w')
      /\ calls w' = calls w /\ responses w' = responses w).
  { intros dir. destruct (Hs story dir) as [paths E].
    unfold bind, lift, log, ret. rewrite E. eexists. now repeat split. }
  destruct (gen_output args) as [[|c rest]|]; try apply D.
  cbv zeta. destruct (ends_with (py ".md") (c :: rest)).
  - unfold lift. rewrite Hm. eexists. now repeat split.
  - destruct (ends_with (py ".json") (c :: rest)).
    + unfold lift. rewrite Hj. eexists. now repeat split.
    + apply D.
Qed.

Lemma get_top_comments_five config reddit post w forest :
  submission_comments reddit (post_id post) = Ok forest ->
  exists w',
    get_top_comments config reddit (post_id post) 5 w
    = (Ok (top_comments config forest 5), w')
    /\ calls w' = calls w /\ responses w' = responses w.
Proof.
  intros S.
  destruct (get_top_comments_run config reddit (post_id post) 5 forest w S) as [w' E].
  pose proof (quiet_get_top_comments config reddit (post_id post) 5 w) as Q.
  rewrite E in Q. exists w'. split; [exact E | exact Q].
Qed.

(** The loop of [cmd_generate] when every request is answered: it stops
    at the first candidate, after one request. *)
Lemma try_posts_answered config reddit storage args client total posts :
  reliable storage ->
  fetchable reddit posts ->
  forall i w,
    always_answers w ->
    exists w',
      try_posts config reddit storage args client total i posts w
      = (Ok (existsb (candidate config reddit) posts), w')
      /\ responses w' = responses w
      /\ length (calls w')
         = length (calls w) + (if existsb (candidate config reddit) posts then 1 else 0).
Proof.
  intros Hs. induction posts as [|post rest IH]; intros Hf i w A.
  - exists w. cbn. repeat split. lia.
  - assert (Hf' : fetchable reddit rest).
    { intros p Hp. apply Hf. now right. }
    assert (next : forall w1,
              calls w1 = calls w -> responses w1 = responses w ->
              candidate config reddit post = false ->
              exists w',
                try_posts config reddit storage args client total (S i) rest w1
                = (Ok (existsb (candidate config reddit) (post :: rest)), w')
                /\ responses w' = responses w
                /\ length (calls w')
                   = length (calls w)
                     + (if existsb (candidate config reddit) (post :: rest) then 1 else 0)).
    { intros w1 Qc Qr C. cbn [existsb]. rewrite C. cbn [orb].
      destruct (IH Hf' (S i) w1) as [w' [E [Hr Hc]]].
      - intros n. rewrite Qr. apply A.
      - exists w'. split; [exact E|]. split; [congruence|]. now rewrite Hc, Qc. }
    cbn [try_posts]. unfold bind at 1, log at 1. cbv beta iota.
    change (num_comments post <? 5)%Z with (few_comments post).
    unfold candidate at 1 in next.
    destruct (few_comments post) eqn:F.
    + unfold bind at 1, log at 1. cbv beta iota. now apply next.
    + destruct (Hf post (or_introl eq_refl) F) as [forest S].
      rewrite S in next. cbn [negb andb] in next.
      unfold bind at 1.
      match goal with
      | |- context [get_top_comments _ _ _ _ ?w0] =>
          destruct (get_top_comments_five config reddit post w0 forest S)
            as [w1 [E [Qc Qr]]]
      end.
      rewrite E. cbn [calls responses] in Qc, Qr.
      destruct (length (top_comments config forest 5) <? 3) eqn:L.
      * unfold bind at 1, log at 1. cbv beta iota. now apply next.
      * clear next. unfold bind at 1, log at 1. cbv beta iota.
        unfold bind at 1, try_except. unfold bind at 1.
        match goal with
        | |- context [generate_from_post _ _ _ ?cs _ _ _ ?w0] =>
            destruct (generate_from_post_run config client post cs (gen_style args)
                        None None w0) as [prompt [w2 [_ [Hc [Hr Hg]]]]]
        end.
        rewrite Hg. cbn [calls responses] in Hc, Hr |- *. rewrite Qc, Qr.
        destruct (A (length (calls w))) as [t Ht]. rewrite Ht.
        unfold bind at 1.
        destruct (store_output_run storage args
                    (story_of client post (top_comments config forest 5)
                       (gen_style args) (strip t)) w2 Hs) as [w3 [Es [Sc Sr]]].
        rewrite Es. unfold ret. exists w3.
        assert (C : candidate config reddit post = true).
        { unfold candidate. now rewrite F, S, L. }
        cbn [existsb]. rewrite C. cbn [orb]. split; [reflexivity|].
        split; [congruence|]. rewrite Sc, Hc, Qc, length_app. reflexivity.
Qed.

(** The loop when no request is answered: every candidate is tried. *)
Lemma try_posts_unanswered config reddit storage args client total posts :
  fetchable reddit posts ->
  forall i w,
    never_answers w ->
    exists w',
      try_posts config reddit storage args client total i posts w = (Ok false, w')
      /\ responses w' = responses w
      /\ length (calls w')
         = length (calls w) + length (filter (candidate config reddit) posts).
Proof.
  induction posts as [|post rest IH]; intros Hf i w A.
  - exists w. cbn. repeat split. lia.
  - assert (Hf' : fetchable reddit rest).
    { intros p Hp. apply Hf. now right. }
    assert (next : forall w1 k,
              length (calls w1) = length (calls w) + k ->
              responses w1 = responses w ->
              k = (if candidate config reddit post then 1 else 0) ->
              exists w',
                try_posts config reddit storage args client total (S i) rest w1
                = (Ok false, w')
                /\ responses w' = responses w
                /\ length (calls w')
                   = length (calls w)
                     + length (filter (candidate config reddit) (post :: rest))).
    { intros w1 k Qc Qr K.
      destruct (IH Hf' (S i) w1) as [w' [E [Hr Hc]]].
      - intros n. rewrite Qr. apply A.
      - exists w'. split; [exact E|]. split; [congruence|].
        rewrite Hc, Qc, K. cbn [filter].
        destruct (candidate config reddit post); cbn [length]; lia. }
    cbn [try_posts]. unfold bind at 1, log at 1. cbv beta iota.
    change (num_comments post <? 5)%Z with (few_comments post).
    unfold candidate at 1 in next.
    destruct (few_comments post) eqn:F.
    + unfold bind at 1, log at 1. cbv beta iota.
      apply (next _ 0); [cbn [calls]; lia | reflexivity | reflexivity].
    + destruct (Hf post (or_introl eq_refl) F) as [forest S].
      rewrite S in next. cbn [negb andb] in next.
      unfold bind at 1.
      match goal with
      | |- context [get_top_comments _ _ _ _ ?w0] =>
          destruct (get_top_comments_five config reddit post w0 forest S)
            as [w1 [E [Qc Qr]]]
      end.
      rewrite E. cbn [calls responses] in Qc, Qr.
      destruct (length (top_comments config forest 5) <? 3) eqn:L.
      * unfold bind at 1, log at 1. cbv beta iota.
        apply (next _ 0); [cbn [calls]; rewrite Qc; lia | exact Qr | reflexivity].
      * unfold bind at 1, log at 1. cbv beta iota.
        unfold bind at 1, try_except. unfold bind at 1.
        match goal with
        | |- context [generate_from_post _ _ _ ?cs _ _ _ ?w0] =>
            destruct (generate_from_post_run config client post cs (gen_style args)
                        None None w0) as [prompt [w2 [_ [Hc [Hr Hg]]]]]
        end.
        rewrite Hg. cbn [calls responses] in Hc, Hr |- *. rewrite Qc, Qr.
        destruct (A (length (calls w))) as [e He]. rewrite He.
        unfold bind at 1, log at 1. cbv beta iota. unfold ret at 1.
        apply (next _ 1); [| |reflexivity].
        -- cbn [calls]. rewrite Hc, Qc, length_app. reflexivity.
        -- cbn [responses]. congruence.
Qed.

(** The run of [cmd_generate] up to its loop. *)
Lemma cmd_generate_prefix config credentials runtime reddit storage args kind w :
  constructible config credentials runtime kind ->
  exists client w1,
    provider client = kind
    /\ calls w1 = calls w /\ responses w1 = responses w
    /\ cmd_generate config credentials runtime reddit storage args w
       = match ranked_posts reddit (gen_subreddit args) (gen_posts args) (gen_time args) with
         | Raise e => (Raise e, w1)
         | Ok [] =>
             (log ERROR "No posts found!" [] ;; ret 1%Z) w1
         | Ok (post :: rest) =>
             (story_generated <- try_posts config reddit storage args client
                                   (length (post :: rest)) 0 (post :: rest) ;;
              if negb story_generated
              then
                log ERROR "Failed to generate any stories from the available posts" [] ;;
                ret 1%Z
              else ret 0%Z) w1
         end.
Proof.
  intros C. unfold cmd_generate. unfold bind at 1, log at 1. cbv beta iota.
  unfold bind at 1, RedditScraper_init at 1, log at 1. cbv beta iota.
  unfold bind at 1.
  match goal with
  | |- context [StoryGenerator_init _ _ _ _ ?w0] =>
      destruct (StoryGenerator_init_run config credentials runtime kind w0 C)
        as [client [w1 [E [Hk [Qc Qr]]]]]
  end.
  rewrite E. cbn [calls responses] in Qc, Qr.
  unfold bind at 1, log at 1. cbv beta iota. unfold bind at 1.
  match goal with
  | |- context [get_top_posts _ _ _ _ ?w0] =>
      destruct (get_top_posts_world reddit (gen_subreddit args) (gen_posts args)
                  (gen_time args) w0) as [w2 [E2 [Qc2 Qr2]]]
  end.
  rewrite E2. cbn [calls responses] in Qc2, Qr2.
  exists client, w2. split; [exact Hk|]. split; [congruence|]. split; [congruence|].
  destruct (ranked_posts reddit (gen_subreddit args) (gen_posts args) (gen_time args))
    as [[|post rest] | e]; reflexivity.
Qed.

(** X18.  With a client that can be constructed, posts and comments that
    can be fetched and writes that succeed: if every request is answered,
    [cmd_generate] exits with 0 exactly when some fetched post has at
    least five comments and at least three ranked valid comments, and it
    stops at the first such post, after a single request; if no request is
    answered it tries every such post, one request each, and exits with 1.
    Without any post it exits with 1 either way. *)
Theorem cmd_generate_exit_code :
  forall (config : Config) (credentials : Credentials) (runtime : Runtime)
         (reddit : Reddit) (storage : Storage) (args : GenerateArgs)
         (kind : ProviderKind) (posts : list RedditPost) (w : World),
    constructible config credentials runtime kind ->
    reliable storage ->
    ranked_posts reddit (gen_subreddit args) (gen_posts args) (gen_time args) = Ok posts ->
    fetchable reddit posts ->
    (always_answers w ->
     exists w',
       cmd_generate config credentials runtime reddit storage args w
       = (Ok (if existsb (candidate config reddit) posts then 0%Z else 1%Z), w')
       /\ length (calls w')
          = length (calls w) + (if existsb (candidate config reddit) posts then 1 else 0))
    /\ (never_answers w ->
        exists w',
          cmd_generate config credentials runtime reddit storage args w = (Ok 1%Z, w')
          /\ length (calls w')
             = length (calls w) + length (filter (candidate config reddit) posts)).
Proof.
  intros config credentials runtime reddit storage args kind posts w C Hs R Hf.
  destruct (cmd_generate_prefix config credentials runtime reddit storage args kind w C)
    as [client [w1 [_ [Qc [Qr E]]]]].
  rewrite R in E. rewrite E. clear E.
  destruct posts as [|post rest].
  - split; intros _; unfold bind, log, ret; eexists; (split; [reflexivity|]);
      cbn [calls existsb filter length]; rewrite Qc; lia.
  - split; intros A.
    + destruct (try_posts_answered config reddit storage args client
                  (length (post :: rest)) (post :: rest) Hs Hf 0 w1) as [w2 [E [Hr Hc]]].
      { intros n. rewrite Qr. apply A. }
      unfold bind at 1. rewrite E.
      destruct (existsb (candidate config reddit) (post :: rest)); cbn [negb].
      * unfold ret. exists w2. split; [reflexivity|]. now rewrite Hc, Qc.
      * unfold bind, log, ret. eexists. split; [reflexivity|].
        cbn [calls]. now rewrite Hc, Qc.
    + destruct (try_posts_unanswered config reddit storage args client
                  (length (post :: rest)) (post :: rest) Hf 0 w1) as [w2 [E [Hr Hc]]].
      { intros n. rewrite Qr. apply A. }
      unfold bind at 1. rewrite E. cbn [negb].
      unfold bind, log, ret. eexists. split; [reflexivity|].
      cbn [calls]. now rewrite Hc, Qc.
Qed.

Lemma sample_constructible :
  constructible default_config sample_credentials sample_runtime OpenAI.
Proof. repeat split. Qed.

Lemma sample_reliable : reliable sample_storage.
Proof. repeat split. intros story dir. eexists. reflexivity. Qed.

Lemma sample_fetchable posts : fetchable sample_reddit posts.
Proof.
  intros post _ _. cbn [sample_reddit submission_comments].
  destruct (str_eqb (post_id post) (py "p3")); eexists; reflexivity.
Qed.

Lemma cmd_generate_exit_code_witness :
  exists w',
    cmd_generate default_config sample_credentials sample_runtime sample_reddit
      sample_storage sample_generate_args (fresh_world sample_answer) = (Ok 0%Z, w')
    /\ length (calls w') = 1.
Proof.
  refine (proj1 (cmd_generate_exit_code default_config sample_credentials sample_runtime
                   sample_reddit sample_storage sample_generate_args OpenAI
                   (map (make_post (py "AskReddit")) sample_listing)
                   (fresh_world sample_answer)
                   sample_constructible sample_reliable eq_refl
                   (sample_fetchable _)) _).
  intros n. eexists. reflexivity.
Defined.

(** X19.  [cmd_generate] raises, instead of exiting with a code, when the
    client cannot be constructed for lack of its credential (a ValueError,
    before anything is sent), when fetching the posts raises, and when
    fetching the comments of the first post that has at least five
    comments raises: unlike the batch loop, it does not catch the error of
    a comment fetch. *)
Theorem cmd_generate_raises :
  forall (config : Config) (credentials : Credentials) (runtime : Runtime)
         (reddit : Reddit) (storage : Storage) (args : GenerateArgs)
         (kind : ProviderKind) (w : World),
    (provider_of_name (ai_provider config) = Some kind ->
     truthy (credential_of credentials kind) = false ->
     exists msg w',
       cmd_generate config credentials runtime reddit storage args w
       = (Raise (PyException "ValueError" msg), w')
       /\ calls w' = calls w)
    /\ (constructible config credentials runtime kind ->
        forall e,
          ranked_posts reddit (gen_subreddit args) (gen_posts args) (gen_time args)
          = Raise e ->
          exists w',
            cmd_generate config credentials runtime reddit storage args w = (Raise e, w')
            /\ calls w' = calls w)
    /\ (constructible config credentials runtime kind ->
        forall e skipped post rest,
          ranked_posts reddit (gen_subreddit args) (gen_posts args) (gen_time args)
          = Ok (skipped ++ post :: rest) ->
          forallb few_comments skipped = true ->
          few_comments post = false ->
          submission_comments reddit (post_id post) = Raise e ->
          exists w',
            cmd_generate config credentials runtime reddit storage args w = (Raise e, w')
            /\ calls w' = calls w).
Proof.
  intros config credentials runtime reddit storage args kind w. split; [|split].
  - intros N T.
    pose proof (AIClient_init_refused_credential config credentials runtime kind N T) as G.
    unfold cmd_generate. unfold bind at 1, log at 1. cbv beta iota.
    unfold bind at 1, RedditScraper_init at 1, log at 1. cbv beta iota.
    unfold bind at 1, StoryGenerator_init, RedditScraper_init.
    unfold bind at 1, log at 1. cbv beta iota.
    match goal with
    | |- context [AIClient_init _ _ _ _ ?w0] => destruct (G w0) as [msg E]
    end.
    rewrite E. exists msg. eexists. split; reflexivity.
  - intros C e R.
    destruct (cmd_generate_prefix config credentials runtime reddit storage args kind w C)
      as [client [w1 [_ [Qc [_ E]]]]].
    rewrite R in E. now exists w1.
  - intros C e skipped post rest R K F S.
    destruct (cmd_generate_prefix config credentials runtime reddit storage args kind w C)
      as [client [w1 [_ [Qc [_ E]]]]].
    rewrite R in E.
    assert (L : forall total i w0,
              exists w',
                try_posts config reddit storage args client total i
                  (skipped ++ post :: rest) w0 = (Raise e, w')
                /\ calls w' = calls w0).
    { clear E R. induction skipped as [|p skipped IH]; intros total i w0.
      - cbn [app try_posts]. unfold bind at 1, log at 1. cbv beta iota.
        change (num_comments post <? 5)%Z with (few_comments post). rewrite F.
        unfold bind at 1.
        match goal with
        | |- context [get_top_comments _ _ _ _ ?w2] =>
            pose proof (get_top_comments_value config reddit (post_id post) 5 w2) as V;
            pose proof (quiet_get_top_comments config reddit (post_id post) 5 w2) as Q;
            destruct (get_top_comments config reddit (post_id post) 5 w2) as [r w3]
        end.
        rewrite S in V. cbn [fst snd calls] in V, Q. subst r.
        exists w3. split; [reflexivity | apply Q].
      - cbn [forallb] in K. apply andb_true_iff in K. destruct K as [Kp K].
        cbn [app try_posts]. unfold bind at 1, log at 1. cbv beta iota.
        change (num_comments p <? 5)%Z with (few_comments p). rewrite Kp.
        unfold bind at 1, log at 1. cbv beta iota.
        match goal with
        | |- context [try_posts _ _ _ _ _ _ ?j _ ?w2] =>
            destruct (IH K total j w2) as [w' [E Hc]]
        end.
        exists w'. split; [exact E | exact Hc]. }
    destruct (skipped ++ post :: rest) as [|q qs] eqn:D.
    { now destruct skipped. }
    rewrite E. destruct (L (length (q :: qs)) 0 w1) as [w' [E' Hc]].
    unfold bind at 1. rewrite E'. exists w'. split; [reflexivity | congruence].
Qed.

Lemma save_story_run storage story dir w :
  reliable storage ->
  exists paths w',
    save_story storage story dir w = (Ok paths, w')
    /\ calls w' = calls w /\ responses w' = responses w.
Proof.
  intros [_ [_ Hs]]. destruct (Hs story dir) as [paths E].
  unfold save_story, bind, lift, log, ret. rewrite E.
  do 2 eexists. now repeat split.
Qed.

Lemma save_all storage dir stories :
  reliable storage ->
  forall w, exists paths w',
    for_each stories (fun story => save_story storage story dir) w = (Ok paths, w')
    /\ calls w' = calls w.
Proof.
  intros Hs. induction stories as [|story rest IH]; intros w.
  - exists [], w. now split.
  - cbn [for_each]. unfold bind at 1.
    destruct (save_story_run storage story dir w Hs) as [paths [w1 [E [Hc1 _]]]].
    rewrite E. unfold bind at 1.
    destruct (IH w1) as [ps [w' [E' Hc]]].
    rewrite E'. unfold ret. do 2 eexists. split; [reflexivity | congruence].
Qed.

Lemma existsb_filter {A} (f : A -> bool) l :
  existsb f l = true <-> filter f l <> [].
Proof.
  induction l as [|x l IH]; cbn [existsb filter].
  - split; [discriminate | intros H; now destruct H].
  - destruct (f x); cbn [orb]; [split; [discriminate | reflexivity] | exact IH].
Qed.

(** X20.  With a client that can be constructed and writes that succeed,
    [cmd_batch] exits with 1 when no story was generated and with 0
    otherwise; it sends one request per post that reaches the composer, so
    it exits with 0 only if some post does, and, if every request is
    answered, exactly if some post does.  When fetching the posts raises,
    [cmd_batch] raises that error. *)
Theorem cmd_batch_exit_code :
  forall (config : Config) (credentials : Credentials) (runtime : Runtime)
         (reddit : Reddit) (storage : Storage) (args : BatchArgs)
         (kind : ProviderKind) (w : World),
    constructible config credentials runtime kind ->
    reliable storage ->
    match ranked_posts reddit (batch_subreddit args) (batch_posts args) (batch_time args) with
    | Ok posts =>
        exists code w',
          cmd_batch config credentials runtime reddit storage args w = (Ok code, w')
          /\ (code = 0%Z \/ code = 1%Z)
          /\ length (calls w')
             = length (calls w) + length (filter (reaches_composer config reddit) posts)
          /\ (code = 0%Z -> existsb (reaches_composer config reddit) posts = true)
          /\ (always_answers w ->
              existsb (reaches_composer config reddit) posts = true -> code = 0%Z)
    | Raise e =>
        exists w',
          cmd_batch config credentials runtime reddit storage args w = (Raise e, w')
          /\ calls w' = calls w
    end.
Proof.
  intros config credentials runtime reddit storage args kind w C Hs.
  destruct (ranked_posts reddit (batch_subreddit args) (batch_posts args) (batch_time args))
    as [posts | e] eqn:R;
    unfold cmd_batch; unfold bind at 1, log at 1; cbv beta iota;
    unfold bind at 1, log at 1; cbv beta iota; unfold bind at 1;
    match goal with
    | |- context [StoryGenerator_init _ _ _ _ ?w0] =>
        destruct (StoryGenerator_init_run config credentials runtime kind w0 C)
          as [client [w1 [E [_ [Qc Qr]]]]]
    end;
    rewrite E; cbn [calls responses] in Qc, Qr; unfold bind at 1.
  - destruct (generate_from_subreddit_run config reddit client (batch_subreddit args)
                (batch_posts args) (batch_time args) (batch_style args) posts w1 R)
      as [stories [w2 [E2 [Hl Hm]]]].
    destruct (generate_from_subreddit_calls config reddit client (batch_subreddit args)
                (batch_posts args) (batch_time args) (batch_style args) posts w1 R)
      as [requests [Hc [Hn _]]].
    rewrite E2 in Hc |- *. cbn [snd] in Hc.
    assert (Hcount : length (calls w2)
                     = length (calls w)
                       + length (filter (reaches_composer config reddit) posts)).
    { rewrite Hc, length_app, Qc, Hn. reflexivity. }
    destruct stories as [|story rest].
    + unfold bind, log, ret. do 2 eexists. split; [reflexivity|].
      split; [now right|]. split; [exact Hcount|]. split; [discriminate|].
      intros A X. exfalso. apply existsb_filter in X. apply X.
      assert (A1 : always_answers w1) by (intros n; rewrite Qr; apply A).
      specialize (Hm A1). apply (f_equal (@length _)) in Hm.
      rewrite !length_map in Hm. cbn [length] in Hm.
      now destruct (filter (reaches_composer config reddit) posts).
    + cbv zeta. unfold bind at 1, log at 1. cbv beta iota. unfold bind at 1.
      match goal with
      | |- context [for_each ?l ?f ?w0] =>
          destruct (save_all storage
                      match batch_output_dir args with
                      | Some (c :: rest0) => c :: rest0
                      | _ => py "output/stories"
                      end l Hs w0) as [paths [w3 [E3 Hc3]]]
      end.
      rewrite E3. unfold ret. do 2 eexists. split; [reflexivity|].
      split; [now left|]. split; [cbn [calls] in Hc3; now rewrite Hc3|].
      split; [|reflexivity].
      intros _. apply existsb_filter. intros Z. rewrite Z in Hl. cbn [length] in Hl. lia.
  - destruct (generate_from_subreddit_fetch_error config reddit client (batch_subreddit args)
                (batch_posts args) (batch_time args) (batch_style args) e w1 R)
      as [w2 [E2 Hc]].
    rewrite E2. exists w2. split; [reflexivity | congruence].
Qed.

Lemma cmd_batch_exit_code_witness :
  exists w',
    cmd_batch default_config sample_credentials sample_runtime sample_reddit
      sample_storage sample_batch_args (fresh_world sample_answer) = (Ok 0%Z, w')
    /\ length (calls w') = 2.
Proof.
  pose proof (cmd_batch_exit_code default_config sample_credentials sample_runtime
                sample_reddit sample_storage sample_batch_args OpenAI
                (fresh_world sample_answer) sample_constructible sample_reliable) as H.
  change (ranked_posts sample_reddit (batch_subreddit sample_batch_args)
            (batch_posts sample_batch_args) (batch_time sample_batch_args))
    with (Ok (map (make_post (py "AskReddit")) sample_listing)) in H.
  destruct H as [code [w' [E [_ [Hc [_ H0]]]]]].
  assert (code = 0%Z) as ->.
  { apply H0; [intros n; eexists; reflexivity | vm_compute; reflexivity]. }
  exists w'. split; [exact E|]. rewrite Hc. vm_compute. reflexivity.
Defined.

Lemma cmd_test_prefix config credentials runtime reddit dry_run w :
  exists v w1,
    calls w1 = calls w /\ responses w1 = responses w
    /\ match front_hot reddit 1 with
       | Raise _ => v = PyFalse
       | Ok (_ :: _) => v = PyTrue
       | Ok [] => v = PyNone
       end
    /\ cmd_test config credentials runtime reddit dry_run w
       = match v with
         | PyTrue =>
             (get_top_posts reddit (py "AskReddit") 1 (py "day") ;;
              ai_client <- AIClient_init config credentials runtime None ;;
              connected <- AIClient_test_connection runtime ai_client ;;
              if connected
              then
                (if negb dry_run
                 then
                   generate_story ai_client
                     (py "Write a one-sentence story about a robot.") 50 ;;
                   ret tt
                 else ret tt) ;;
                ret 0%Z
              else ret 1%Z) w1
         | _ => (Ok 1%Z, w1)
         end.
Proof.
  unfold cmd_test. unfold bind at 1, RedditScraper_init, log at 1. cbv beta iota.
  unfold bind at 1.
  match goal with
  | |- context [test_connection reddit ?w0] =>
      destruct (test_connection_outcomes reddit w0) as [v [w1 [E Hv]]];
      pose proof (quiet_test_connection reddit w0) as Q
  end.
  rewrite E in Q |- *. cbn [snd calls responses] in Q. destruct Q as [Qc Qr].
  exists v, w1. repeat split; try assumption.
  now destruct v.
Qed.

(** X21.  [cmd_test] exits with 1, without constructing a client or
    sending anything, when the Reddit probe does not answer [True]: when
    it raises inside, and also when the front page lists nothing and the
    probe returns [None].  When it returns a code, the code is 0 or 1, and
    0 only if the front page listed a submission.  When the probe answers
    [True] and the sample fetch of r/AskReddit succeeds, a chat or
    single-message provider that can be constructed and answers makes it
    exit with 0 after two requests, the probe and a test generation; with
    [--dry-run] it still sends the probe request.  When the probe answers
    [True] and the sample fetch raises, [cmd_test] raises that error and
    sends nothing: the fetch is outside any handler. *)
Theorem cmd_test_exit_code :
  forall (config : Config) (credentials : Credentials) (runtime : Runtime)
         (reddit : Reddit) (dry_run : bool) (w : World),
    ((forall s rest, front_hot reddit 1 <> Ok (s :: rest)) ->
     exists w',
       cmd_test config credentials runtime reddit dry_run w = (Ok 1%Z, w')
       /\ calls w' = calls w)
    /\ (forall code w',
          cmd_test config credentials runtime reddit dry_run w = (Ok code, w') ->
          (code = 0%Z \/ code = 1%Z)
          /\ (code = 0%Z -> exists s rest, front_hot reddit 1 = Ok (s :: rest)))
    /\ (forall kind s rest posts,
          constructible config credentials runtime kind ->
          kind <> Bedrock ->
          front_hot reddit 1 = Ok (s :: rest) ->
          ranked_posts reddit (py "AskReddit") 1 (py "day") = Ok posts ->
          always_answers w ->
          exists w',
            cmd_test config credentials runtime reddit dry_run w = (Ok 0%Z, w')
            /\ length (calls w') = length (calls w) + (if dry_run then 1 else 2))
    /\ (forall s rest e,
          front_hot reddit 1 = Ok (s :: rest) ->
          ranked_posts reddit (py "AskReddit") 1 (py "day") = Raise e ->
          exists w',
            cmd_test config credentials runtime reddit dry_run w = (Raise e, w')
            /\ calls w' = calls w).
Proof.
  intros config credentials runtime reddit dry_run w.
  destruct (cmd_test_prefix config credentials runtime reddit dry_run w)
    as [v [w1 [Qc [Qr [Hv E]]]]].
  rewrite E. clear E.
  split; [|split; [|split]].
  - intros N. destruct (front_hot reddit 1) as [[|s rest] | e]; subst v.
    + exists w1. split; [reflexivity | exact Qc].
    + now destruct (N s rest).
    + exists w1. split; [reflexivity | exact Qc].
  - intros code w'.
    destruct (front_hot reddit 1) as [[|s rest] | e]; subst v.
    + intros H. injection H as <- _. split; [now right | discriminate].
    + unfold bind at 1.
      destruct (get_top_posts reddit (py "AskReddit") 1 (py "day") w1) as [[posts | e] w2];
        [|discriminate].
      unfold bind at 1.
      destruct (AIClient_init config credentials runtime None w2) as [[client | e] w3];
        [|discriminate].
      unfold bind at 1, AIClient_test_connection.
      destruct (provider_probe_run runtime (provider client) w3) as [b [w4 [Eb _]]].
      rewrite Eb. destruct b.
      * unfold bind at 1.
        destruct ((if negb dry_run
                   then generate_story client
                          (py "Write a one-sentence story about a robot.") 50 ;; ret tt
                   else ret tt) w4) as [[u | e] w5]; [|discriminate].
        intros H. injection H as <- _. split; [now left|]. intros _. now exists s, rest.
      * unfold ret. intros H. injection H as <- _. split; [now right | discriminate].
    + unfold ret. intros H. injection H as <- _. split; [now right | discriminate].
  - intros kind s rest posts C K F R A. rewrite F in Hv. subst v.
    unfold bind at 1.
    destruct (get_top_posts_world reddit (py "AskReddit") 1%Z (py "day") w1)
      as [w2 [E2 [Qc2 Qr2]]].
    rewrite E2, R. unfold bind at 1.
    destruct C as [N [T H]].
    unfold AIClient_init. cbv zeta. unfold bind at 1.
    destruct (provider_of_name_initialize credentials runtime (ai_provider config)
                kind w2 N T H) as [w3 [E3 [Qc3 Qr3]]].
    rewrite E3. unfold ret at 1. unfold bind at 1, AIClient_test_connection.
    cbn [provider].
    destruct (provider_probe_run runtime kind w3) as [b [w4 [Eb Hb]]].
    rewrite Eb.
    assert (R3 : responses w3 = responses w) by congruence.
    assert (C3 : calls w3 = calls w) by congruence.
    assert (Hb' : b = true /\ calls w4 = calls w3 ++ [probe_request kind]).
    { destruct (A (length (calls w3))) as [t Ht]. rewrite <- R3 in Ht.
      destruct kind; try contradiction; destruct Hb as [Hc [_ [_ Hi]]];
        (split; [apply Hi; now exists t | exact Hc]). }
    destruct Hb' as [-> Hc4].
    assert (R4 : responses w4 = responses w).
    { rewrite <- R3. clear -Eb K.
      destruct kind; try contradiction;
        unfold provider_test_connection, try_except, bind, remote_call, log, ret in Eb;
        cbn [calls responses] in Eb;
        destruct (responses w3 (length (calls w3)));
        try discriminate; injection Eb as <-; reflexivity. }
    destruct dry_run; cbn [negb].
    + unfold bind, ret. exists w4. split; [reflexivity|].
      rewrite Hc4, length_app, C3. reflexivity.
    + unfold bind at 1 2.
      match goal with
      | |- context [generate_story ?c ?t ?m w4] =>
          destruct (generate_story_run c t m w4) as [w5 [Hc5 [_ Hg]]]
      end.
      rewrite Hg. destruct (A (length (calls w4))) as [t Ht]. rewrite R4, Ht.
      unfold ret. exists w5. split; [reflexivity|].
      rewrite Hc5, Hc4, !length_app, C3. cbn [length]. lia.
  - intros s rest e F R. rewrite F in Hv. subst v.
    unfold bind at 1.
    destruct (get_top_posts_world reddit (py "AskReddit") 1%Z (py "day") w1)
      as [w2 [E2 [Qc2 _]]].
    rewrite E2, R. exists w2. split; [reflexivity | congruence].
Qed.

End CommandFacts.
